(** * cronrecon: the crontab field parser and the next-run calculator

    A shallow embedding of [src/cronrecon.py] (class [CronJob]): the field
    parser ([parse], [start_parse], [finish_parse]) and the next-run
    calculator ([next_run] and its nested passes).  The program is Python 2
    ([filter] and [range] return lists).  Python exceptions are modelled by
    a result type, [try: ... except Exception: ...] by [try_except]. *)

From Stdlib Require Import ZArith List String Ascii Bool Lia.
From Stdlib Require Import Sorted Permutation.
Import ListNotations.
Open Scope string_scope.
Open Scope list_scope.
Open Scope Z_scope.

(** ** Exceptions and the result monad *)

(** The exceptions the program can raise.  All of them derive from
    [Exception], so every [except Exception:] of the source catches each. *)
Inductive exn : Type :=
  | ValueError
  | IndexError
  | NameError
  | StopIteration
  | OverflowError
  | AssertionError.

Inductive result (A : Type) : Type :=
  | Ok (a : A)
  | Err (e : exn).
Arguments Ok {A} a.
Arguments Err {A} e.

Definition bind {A B : Type} (r : result A) (k : A -> result B) : result B :=
  match r with
  | Ok a => k a
  | Err e => Err e
  end.

Notation "x <- r ;; k" := (bind r (fun x => k))
  (at level 61, r at next level, right associativity).

(** [try: body  except Exception: handler].  Every body of the source
    rebinds its datetime only by its last statement, so the handler always
    sees the values of before the [try]. *)
Definition try_except {A : Type} (body handler : result A) : result A :=
  match body with
  | Ok a => Ok a
  | Err _ => handler
  end.

Definition is_ok {A : Type} (r : result A) : bool :=
  match r with Ok _ => true | Err _ => false end.

(** ** Python built-ins used by the program *)

Module Py.

(** [c in s] for a one-character [c]. *)
Fixpoint contains (c : ascii) (s : string) : bool :=
  match s with
  | EmptyString => false
  | String d r => if Ascii.eqb d c then true else contains c r
  end.

(** [sub in s]. *)
Fixpoint str_in (sub s : string) : bool :=
  if String.prefix sub s then true
  else match s with
       | EmptyString => false
       | String _ r => str_in sub r
       end.

(** [s.split(sep)] for a one-character separator: never empty, keeps the
    empty pieces. *)
Fixpoint split (sep : ascii) (s : string) : list string :=
  match s with
  | EmptyString => [EmptyString]
  | String c r =>
      if Ascii.eqb c sep then EmptyString :: split sep r
      else match split sep r with
           | [] => [String c EmptyString]
           | h :: t => String c h :: t
           end
  end.

(** [s[n:]]. *)
Fixpoint drop (n : nat) (s : string) : string :=
  match n, s with
  | O, _ => s
  | S _, EmptyString => EmptyString
  | S n', String _ r => drop n' r
  end.

(** [sep.join(l)]. *)
Fixpoint join (sep : string) (l : list string) : string :=
  match l with
  | [] => EmptyString
  | [x] => x
  | x :: r => (x ++ sep ++ join sep r)%string
  end.

(** C [isspace]: tab, newline, vertical tab, form feed, return, space. *)
Definition is_space (c : ascii) : bool :=
  let n := nat_of_ascii c in
  (Nat.leb 9 n && Nat.leb n 13) || Nat.eqb n 32.

Fixpoint lstrip (s : string) : string :=
  match s with
  | String c r => if is_space c then lstrip r else s
  | EmptyString => EmptyString
  end.

Fixpoint rstrip (s : string) : string :=
  match s with
  | EmptyString => EmptyString
  | String c r =>
      match rstrip r with
      | EmptyString => if is_space c then EmptyString else String c EmptyString
      | r' => String c r'
      end
  end.

(** [s.strip()]. *)
Definition strip (s : string) : string := rstrip (lstrip s).

Definition digit_val (c : ascii) : option Z :=
  let n := nat_of_ascii c in
  if Nat.leb 48 n && Nat.leb n 57 then Some (Z.of_nat (n - 48)) else None.

Fixpoint digits_value (acc : Z) (s : string) : option Z :=
  match s with
  | EmptyString => Some acc
  | String c r =>
      match digit_val c with
      | Some d => digits_value (10 * acc + d) r
      | None => None
      end
  end.

(** A non-empty run of decimal digits. *)
Definition decimal (s : string) : option Z :=
  match s with
  | EmptyString => None
  | _ => digits_value 0 s
  end.

(** [int(s)] on a byte string, base 10: surrounding white space is
    skipped, one sign is allowed, then at least one digit and nothing else;
    anything else raises [ValueError]. *)
Definition int (s : string) : result Z :=
  let t := strip s in
  let signed :=
    match t with
    | EmptyString => None
    | String c r =>
        if Ascii.eqb c "+" then decimal r
        else if Ascii.eqb c "-" then option_map Z.opp (decimal r)
        else decimal t
    end in
  match signed with
  | Some v => Ok v
  | None => Err ValueError
  end.

(** [range(lo, hi)]: the integers of [[lo, hi)], ascending. *)
Definition range (lo hi : Z) : list Z :=
  map (fun i => lo + Z.of_nat i) (seq 0 (Z.to_nat (hi - lo))).

(** Every [k]-th element, the first one after skipping [i]. *)
Fixpoint stride_from (k i : nat) (l : list Z) : list Z :=
  match l with
  | [] => []
  | x :: r =>
      match i with
      | O => x :: stride_from k (k - 1) r
      | S i' => stride_from k i' r
      end
  end.

(** [l[::k]]: from the first element forwards for a positive step, from the
    last one backwards for a negative step, [ValueError] for step zero. *)
Definition slice_step (l : list Z) (k : Z) : result (list Z) :=
  if k =? 0 then Err ValueError
  else if 0 <? k then Ok (stride_from (Z.to_nat k) 0 l)
  else Ok (stride_from (Z.to_nat (- k)) 0 (rev l)).

Fixpoint insert_sorted (x : Z) (l : list Z) : list Z :=
  match l with
  | [] => [x]
  | y :: r => if x <=? y then x :: l else y :: insert_sorted x r
  end.

(** [sorted(l)] on integers: the ascending rearrangement of [l]. *)
Fixpoint sorted (l : list Z) : list Z :=
  match l with
  | [] => []
  | x :: r => insert_sorted x (sorted r)
  end.

(** [l[i]] for [i >= 0]; [IndexError] past the end. *)
Definition index {A : Type} (l : list A) (i : nat) : result A :=
  match nth_error l i with
  | Some a => Ok a
  | None => Err IndexError
  end.

(** [x in l]. *)
Definition mem (x : Z) (l : list Z) : bool := existsb (Z.eqb x) l.

(** [s.lower()] on a byte string: the letters [A]-[Z] only. *)
Definition lower_char (c : ascii) : ascii :=
  let n := nat_of_ascii c in
  if Nat.leb 65 n && Nat.leb n 90 then ascii_of_nat (n + 32) else c.

Fixpoint lower (s : string) : string :=
  match s with
  | EmptyString => EmptyString
  | String c r => String (lower_char c) (lower r)
  end.

(** [l[i]] for any integer [i]: a negative index counts from the end;
    [IndexError] outside [[-len, len)]. *)
Definition getitem {A : Type} (l : list A) (i : Z) : result A :=
  let n := Z.of_nat (List.length l) in
  let j := if i <? 0 then i + n else i in
  if (0 <=? j) && (j <? n) then index l (Z.to_nat j) else Err IndexError.

End Py.

(** ** The datetime and calendar library, as far as the program uses it *)

Module DT.

(** A naive [datetime.datetime]. *)
Record datetime : Type := mk {
  year : Z;
  month : Z;
  day : Z;
  hour : Z;
  minute : Z;
  second : Z;
  microsecond : Z
}.

Definition MINYEAR : Z := 1.
Definition MAXYEAR : Z := 9999.

Definition is_leap (y : Z) : bool :=
  (y mod 4 =? 0) && (negb (y mod 100 =? 0) || (y mod 400 =? 0)).

(** [calendar.monthrange(y, m)[-1]]: the number of days of the month. *)
Definition days_in_month (y m : Z) : Z :=
  if m =? 2 then (if is_leap y then 29 else 28)
  else if (m =? 4) || (m =? 6) || (m =? 9) || (m =? 11) then 30
  else 31.

(** The values a [datetime] object can hold. *)
Definition valid (d : datetime) : bool :=
  (MINYEAR <=? year d) && (year d <=? MAXYEAR) &&
  (1 <=? month d) && (month d <=? 12) &&
  (1 <=? day d) && (day d <=? days_in_month (year d) (month d)) &&
  (0 <=? hour d) && (hour d <? 24) &&
  (0 <=? minute d) && (minute d <? 60) &&
  (0 <=? second d) && (second d <? 60) &&
  (0 <=? microsecond d) && (microsecond d <? 1000000).

(** The constructor and [replace] validate their arguments. *)
Definition checked (d : datetime) : result datetime :=
  if valid d then Ok d else Err ValueError.

(** [datetime.datetime(y, m, d, h, mi)]: seconds and microseconds are 0. *)
Definition make (y m d h mi : Z) : result datetime :=
  checked (mk y m d h mi 0 0).

(** [replace] reads each new value as a C [int], with [OverflowError] for
    a value that does not fit, and then validates the fields it builds. *)
Definition fits_c_int (v : Z) : bool :=
  (-2147483648 <=? v) && (v <=? 2147483647).

Definition replaced (vs : list Z) (d : datetime) : result datetime :=
  if forallb fits_c_int vs then checked d else Err OverflowError.

(** [d.replace(minute=v)] and its siblings. *)
Definition with_minute (d : datetime) (v : Z) : result datetime :=
  replaced [v]
    (mk (year d) (month d) (day d) (hour d) v (second d) (microsecond d)).

Definition with_hour (d : datetime) (v : Z) : result datetime :=
  replaced [v]
    (mk (year d) (month d) (day d) v (minute d) (second d) (microsecond d)).

Definition with_day (d : datetime) (v : Z) : result datetime :=
  replaced [v]
    (mk (year d) (month d) v (hour d) (minute d) (second d) (microsecond d)).

Definition with_month (d : datetime) (v : Z) : result datetime :=
  replaced [v]
    (mk (year d) v (day d) (hour d) (minute d) (second d) (microsecond d)).

Definition with_year_month (d : datetime) (y m : Z) : result datetime :=
  replaced [y; m]
    (mk y m (day d) (hour d) (minute d) (second d) (microsecond d)).

Definition set_date (d : datetime) (y m dd : Z) : datetime :=
  mk y m dd (hour d) (minute d) (second d) (microsecond d).

(** The same time of day on the following calendar day; [None] past
    9999-12-31. *)
Definition next_day (d : datetime) : option datetime :=
  if day d <? days_in_month (year d) (month d)
  then Some (set_date d (year d) (month d) (day d + 1))
  else if month d <? 12 then Some (set_date d (year d) (month d + 1) 1)
  else if year d <? MAXYEAR then Some (set_date d (year d + 1) 1 1)
  else None.

(** The same time of day on the preceding calendar day; [None] before
    0001-01-01. *)
Definition prev_day (d : datetime) : option datetime :=
  if 1 <? day d then Some (set_date d (year d) (month d) (day d - 1))
  else if 1 <? month d
  then Some (set_date d (year d) (month d - 1)
               (days_in_month (year d) (month d - 1)))
  else if MINYEAR <? year d then Some (set_date d (year d - 1) 12 31)
  else None.

Fixpoint iterate (step : datetime -> option datetime) (n : nat)
    (d : datetime) : option datetime :=
  match n with
  | O => Some d
  | S n' =>
      match step d with
      | Some d' => iterate step n' d'
      | None => None
      end
  end.

(** [d + datetime.timedelta(days=n)]: [n] calendar days later (earlier for
    a negative [n]); [OverflowError] when the timedelta or the resulting
    date is out of range. *)
Definition add_days (d : datetime) (n : Z) : result datetime :=
  if 999999999 <? Z.abs n then Err OverflowError
  else
    match (if 0 <=? n then iterate next_day (Z.to_nat n) d
           else iterate prev_day (Z.to_nat (- n)) d) with
    | Some d' => Ok d'
    | None => Err OverflowError
    end.

(** [d + datetime.timedelta(hours=1)]. *)
Definition add_hour (d : datetime) : result datetime :=
  if hour d <? 23
  then Ok (mk (year d) (month d) (day d) (hour d + 1) (minute d)
              (second d) (microsecond d))
  else
    match next_day d with
    | Some d' =>
        Ok (mk (year d') (month d') (day d') 0 (minute d)
               (second d) (microsecond d))
    | None => Err OverflowError
    end.

(** Days before January 1st of year [y], as in the proleptic Gregorian
    ordinal ([date.toordinal]). *)
Definition days_before_year (y : Z) : Z :=
  let p := y - 1 in p * 365 + p / 4 - p / 100 + p / 400.

Definition days_before_month (y m : Z) : Z :=
  fold_right Z.add 0 (map (days_in_month y) (Py.range 1 m)).

Definition toordinal (d : datetime) : Z :=
  days_before_year (year d) + days_before_month (year d) (month d) + day d.

(** [d.weekday()]: Monday is 0 and Sunday is 6. *)
Definition weekday (d : datetime) : Z := (toordinal d + 6) mod 7.

Definition key (d : datetime) : list Z :=
  [year d; month d; day d; hour d; minute d; second d; microsecond d].

Fixpoint lex_lt (a b : list Z) : bool :=
  match a, b with
  | x :: a', y :: b' => (x <? y) || ((x =? y) && lex_lt a' b')
  | _, _ => false
  end.

(** [a < b] on naive datetimes. *)
Definition lt (a b : datetime) : bool := lex_lt (key a) (key b).

(** [a <= b]. *)
Definition le (a b : datetime) : bool := negb (lt b a).

End DT.

(** ** class CronJob *)

Definition MAX_MINUTE : Z := 60.
Definition MIN_MINUTE : Z := 0.
Definition MAX_MONTH : Z := 13.
Definition MIN_MONTH : Z := 1.
Definition MAX_HOUR : Z := 24.
Definition MIN_HOUR : Z := 0.
Definition MAX_DOM : Z := 32.
Definition MIN_DOM : Z := 1.
Definition MAX_DOW : Z := 7.
Definition MIN_DOW : Z := 0.

(** The attributes [__init__] and [parse] set. *)
Record CronJob : Type := mkCronJob {
  raw_string : string;
  minute : string;
  hour : string;
  dom : string;
  month : string;
  dow : string;
  action : string;
  cron_months : list Z;
  cron_minutes : list Z;
  cron_hours : list Z;
  cron_dom : list Z;
  cron_dow : list Z
}.

(** *** parse *)

(** The [elif '-' in cron_str] and [else] branches of [finish_parse]: a
    range appends every integer of [[A, B]], an integer appends itself, and
    a token [int] rejects is logged and dropped.  [max_value] is not used. *)
Definition finish_parse_item (cron_str : string) (cron_list : list Z)
    (max_value : Z) : result (list Z) :=
  if Py.contains "-" cron_str then
    let vals := Py.split "-" cron_str in
    v0 <- Py.index vals 0 ;;
    a <- Py.int v0 ;;
    v1 <- Py.index vals 1 ;;
    b <- Py.int v1 ;;
    Ok (cron_list ++ Py.range a (b + 1))
  else
    match Py.int cron_str with
    | Ok v => Ok (cron_list ++ [v])
    | Err ValueError => Ok cron_list
    | Err e => Err e
    end.

(** The loop [for substr in cron_str.split(','): finish_parse(substr, ...)].
    A piece of a split on commas holds no comma ([split_pieces_no_sep]
    below), so each recursive call runs [finish_parse_item]. *)
Fixpoint finish_parse_each (pieces : list string) (cron_list : list Z)
    (max_value : Z) : result (list Z) :=
  match pieces with
  | [] => Ok cron_list
  | substr :: rest =>
      l <- finish_parse_item substr cron_list max_value ;;
      finish_parse_each rest l max_value
  end.

(** [finish_parse]: returns the list the source appends to in place. *)
Definition finish_parse (cron_str : string) (cron_list : list Z)
    (max_value : Z) : result (list Z) :=
  if Py.contains "," cron_str
  then finish_parse_each (Py.split "," cron_str) cron_list max_value
  else finish_parse_item cron_str cron_list max_value.

Definition start_parse (field_str : string) (min_value max_value : Z)
    : result (list Z) :=
  if String.eqb field_str "*" then
    Ok (Py.sorted (Py.range min_value max_value))
  else if Py.str_in "*/" field_str then
    freq <- Py.int (Py.drop 2 field_str) ;;
    cron_list <- Py.slice_step (Py.range min_value max_value) freq ;;
    Ok (Py.sorted cron_list)
  else
    cron_list <- finish_parse field_str [] max_value ;;
    Ok (Py.sorted cron_list).

(** [CronJob(raw_string)]: the constructor runs [parse]. *)
Definition parse (raw : string) : result CronJob :=
  let fields :=
    filter (fun f => negb (String.eqb f "")) (Py.split " " raw) in
  f_minute <- Py.index fields 0 ;;
  f_hour <- Py.index fields 1 ;;
  f_dom <- Py.index fields 2 ;;
  f_month <- Py.index fields 3 ;;
  f_dow <- Py.index fields 4 ;;
  let f_action := Py.strip (Py.join " " (skipn 5 fields)) in
  months <- start_parse f_month MIN_MONTH MAX_MONTH ;;
  minutes <- start_parse f_minute MIN_MINUTE MAX_MINUTE ;;
  hours <- start_parse f_hour MIN_HOUR MAX_HOUR ;;
  doms <- start_parse f_dom MIN_DOM MAX_DOM ;;
  dows <- start_parse f_dow MIN_DOW MAX_DOW ;;
  Ok (mkCronJob raw f_minute f_hour f_dom f_month f_dow f_action
        months minutes hours doms dows).

(** *** next_run *)

(** [next(i for i in list1 if i in list2)]: the first element of [list1]
    that is in [list2]; [StopIteration] when there is none. *)
Definition first_common_value (list1 list2 : list Z) : result Z :=
  match find (fun i => Py.mem i list2) list1 with
  | Some i => Ok i
  | None => Err StopIteration
  end.

(** [set_next_minute] calls [replace_minute], a name the module binds
    nowhere: evaluating the call raises [NameError]. *)
Definition replace_minute (start_dt : DT.datetime) (next_min : Z)
    : result DT.datetime :=
  Err NameError.

Section NextRun.

Variable self : CronJob.

Definition set_next_minute (start_dt : DT.datetime) : result DT.datetime :=
  let remaining_mins := Py.range (DT.minute start_dt) MAX_MINUTE in
  try_except
    (next_min <- first_common_value remaining_mins (cron_minutes self) ;;
     if negb (next_min =? DT.minute start_dt)
     then replace_minute start_dt next_min
     else Ok start_dt)
    (start_dt' <- DT.add_hour start_dt ;;
     m0 <- Py.index (cron_minutes self) 0 ;;
     DT.with_minute start_dt' m0).

Definition set_next_hour (start_dt : DT.datetime) : result DT.datetime :=
  let remaining_hours := Py.range (DT.hour start_dt) MAX_HOUR in
  try_except
    (next_hour <- first_common_value remaining_hours (cron_hours self) ;;
     if negb (next_hour =? DT.hour start_dt)
     then DT.with_hour start_dt next_hour
     else Ok start_dt)
    (start_dt' <- DT.add_days start_dt 1 ;;
     h0 <- Py.index (cron_hours self) 0 ;;
     DT.with_hour start_dt' h0).

(** The day-of-month candidate of [set_next_day]. *)
Definition test_dom (start_dt : DT.datetime) : result DT.datetime :=
  let remaining_dom := Py.range (DT.day start_dt) MAX_DOM in
  try_except
    (next_dom <- first_common_value remaining_dom (cron_dom self) ;;
     if negb (next_dom =? DT.day start_dt)
     then DT.with_day start_dt next_dom
     else Ok start_dt)
    (let mr_last := DT.days_in_month (DT.year start_dt) (DT.month start_dt) in
     d0 <- Py.index (cron_dom self) 0 ;;
     DT.add_days start_dt (mr_last - DT.day start_dt + d0)).

(** The day-of-week candidate of [set_next_day]. *)
Definition test_dow (start_dt : DT.datetime) : result DT.datetime :=
  let remaining_dow := Py.range (DT.weekday start_dt) MAX_DOW in
  try_except
    (next_dow <- first_common_value remaining_dow (cron_dow self) ;;
     let add_days := next_dow - DT.weekday start_dt in
     if add_days >? 0 then DT.add_days start_dt add_days else Ok start_dt)
    (d0 <- Py.index (cron_dow self) 0 ;;
     DT.add_days start_dt (MAX_DOW - DT.weekday start_dt + d0)).

Definition is_star (s : string) : bool := String.eqb s "*".

(** The flag [use_dom] of [set_next_day], given both candidates. *)
Definition use_dom (t_dom t_dow : DT.datetime) : bool :=
  if negb (is_star (dom self)) && is_star (dow self) then true
  else if is_star (dom self) && negb (is_star (dow self)) then false
  else if negb (is_star (dom self)) && negb (is_star (dow self)) then
    (if DT.lt t_dom t_dow then true else false)
  else true.

(** [assert c]. *)
Definition assert (c : bool) : result unit :=
  if c then Ok tt else Err AssertionError.

Definition set_next_day (start_dt : DT.datetime) : result DT.datetime :=
  t_dom <- test_dom start_dt ;;
  t_dow <- test_dow start_dt ;;
  if use_dom t_dom t_dow then
    _ <- assert (Py.mem (DT.day t_dom) (cron_dom self)) ;;
    Ok t_dom
  else
    _ <- assert (Py.mem (DT.weekday t_dow) (cron_dow self)) ;;
    Ok t_dow.

Definition set_next_month (start_dt : DT.datetime) : result DT.datetime :=
  let remaining_months := Py.range (DT.month start_dt) MAX_MONTH in
  try_except
    (next_month <- first_common_value remaining_months (cron_months self) ;;
     if negb (next_month =? DT.month start_dt)
     then DT.with_month start_dt next_month
     else Ok start_dt)
    (m0 <- Py.index (cron_months self) 0 ;;
     DT.with_year_month start_dt (DT.year start_dt + 1) m0).

Definition create_date (start_dt : DT.datetime) : result DT.datetime :=
  d1 <- set_next_minute start_dt ;;
  d2 <- set_next_hour d1 ;;
  d3 <- set_next_day d2 ;;
  set_next_month d3.

(** [next_run(start_dt=None)]; [now] is what [datetime.datetime.now()]
    returns at the call. *)
Definition next_run (now : DT.datetime) (start_dt : option DT.datetime)
    : result DT.datetime :=
  let start_dt :=
    match start_dt with
    | None => now
    | Some d => d
    end in
  start_dt <- DT.make (DT.year start_dt) (DT.month start_dt)
                (DT.day start_dt) (DT.hour start_dt) (DT.minute start_dt) ;;
  create_date start_dt.

End NextRun.

(** The reference truncated to the minute. *)
Definition truncate (d : DT.datetime) : DT.datetime :=
  DT.mk (DT.year d) (DT.month d) (DT.day d) (DT.hour d) (DT.minute d) 0 0.

Definition at_minute (y m d h mi : Z) : DT.datetime := DT.mk y m d h mi 0 0.

(** [CronJob(line).next_run(start_dt)]. *)
Definition next_run_of_line (line : string) (now : DT.datetime)
    (start_dt : option DT.datetime) : result DT.datetime :=
  self <- parse line ;;
  next_run self now start_dt.

(** The job of the line ["0 12 15 * 1  noon-job"]. *)
Definition noon_job : CronJob :=
  mkCronJob "0 12 15 * 1  noon-job" "0" "12" "15" "*" "1" "noon-job"
    (Py.range 1 13) [0] [12] [15] [1].

(** The job of the line ["x * * * *  never"]: [int] rejects ["x"], the
    token is dropped and the minute set is empty. *)
Definition never_job : CronJob :=
  mkCronJob "x * * * *  never" "x" "*" "*" "*" "*" "never"
    (Py.range 1 13) [] (Py.range 0 24) (Py.range 1 32) (Py.range 0 7).

(** The five resolved sets of a job are non-empty. *)
Definition all_sets_non_empty (self : CronJob) : Prop :=
  cron_minutes self <> [] /\ cron_hours self <> [] /\ cron_dom self <> [] /\
  cron_months self <> [] /\ cron_dow self <> [].

(** The calendar date and the time of day of a datetime, as compared by
    [DT.lt]. *)
Definition date_key (a : DT.datetime) : list Z :=
  [DT.year a; DT.month a; DT.day a].

Definition time_key (a : DT.datetime) : list Z :=
  [DT.hour a; DT.minute a; DT.second a; DT.microsecond a].

(** No resolved value of the job is negative. *)
Definition values_non_negative (self : CronJob) : Prop :=
  Forall (Z.le 0) (cron_months self) /\ Forall (Z.le 0) (cron_minutes self) /\
  Forall (Z.le 0) (cron_hours self) /\ Forall (Z.le 0) (cron_dom self) /\
  Forall (Z.le 0) (cron_dow self).

(** ** class CronExaminer *)

(** The test [line and not line[0] == '#'] of [parse_file], on the line
    already stripped on the left. *)
Definition is_job_text (line : string) : bool :=
  match line with
  | EmptyString => false
  | String c _ => negb (Ascii.eqb c "#")
  end.

(** The loop of [parse_file] over the lines of the file; [cronjobs] is the
    list the source appends to.  A constructor that raises ends the loop. *)
Fixpoint parse_lines (lines : list string) (cronjobs : list CronJob)
    : result (list CronJob) :=
  match lines with
  | [] => Ok cronjobs
  | line :: rest =>
      let line := Py.lstrip line in
      if is_job_text line then
        job <- parse line ;;
        parse_lines rest (cronjobs ++ [job])
      else parse_lines rest cronjobs
  end.

(** [CronExaminer(filename)]: [f] is the lines of the file, [None] when
    [open] raises [IOError] (the error is logged and no job is loaded).
    The result is [self.cronjobs]. *)
Definition parse_file (f : option (list string)) : result (list CronJob) :=
  match f with
  | None => Ok []
  | Some lines => parse_lines lines []
  end.

Definition jobs_matching_str (cronjobs : list CronJob) (match_str : string)
    : list CronJob :=
  filter (fun job => Py.str_in (Py.lower match_str) (Py.lower (action job)))
         cronjobs.

(** The dict [{'job_index': i, 'date': job.next_run()}]. *)
Record item : Type := mkitem {
  job_index : Z;
  date : DT.datetime
}.

(** The first loop of [upcoming_jobs], from index [i] on: [now k] is the
    reading of the clock in the call [next_run()] of job [k]. *)
Fixpoint dated_jobs (now : nat -> DT.datetime) (i : nat)
    (cronjobs : list CronJob) : result (list item) :=
  match cronjobs with
  | [] => Ok []
  | job :: rest =>
      d <- next_run job (now i) None ;;
      l <- dated_jobs now (S i) rest ;;
      Ok (mkitem (Z.of_nat i) d :: l)
  end.

(** [if not n or n >= len(self.cronjobs): n = len(self.cronjobs) - 1]. *)
Definition effective_n (n : option Z) (len : Z) : Z :=
  match n with
  | None => len - 1
  | Some v => if (v =? 0) || (v >=? len) then len - 1 else v
  end.

Fixpoint insert_by_date (x : item) (l : list item) : list item :=
  match l with
  | [] => [x]
  | y :: r =>
      if DT.lt (date y) (date x) then y :: insert_by_date x r
      else x :: l
  end.

(** [l.sort(key=lambda item: item['date'])]: ascending by date, items of
    equal date in their order of before (the sort is stable). *)
Fixpoint sort_by_date (l : list item) : list item :=
  match l with
  | [] => []
  | x :: r => insert_by_date x (sort_by_date r)
  end.

(** The last loop of [upcoming_jobs], over the indices [idxs]. *)
Fixpoint pick_jobs (cronjobs : list CronJob) (l : list item)
    (idxs : list Z) : result (list CronJob) :=
  match idxs with
  | [] => Ok []
  | i :: rest =>
      it <- Py.getitem l i ;;
      job <- Py.getitem cronjobs (job_index it) ;;
      return_l <- pick_jobs cronjobs l rest ;;
      Ok (job :: return_l)
  end.

Definition upcoming_jobs (now : nat -> DT.datetime)
    (cronjobs : list CronJob) (n : option Z) : result (list CronJob) :=
  l <- dated_jobs now 0 cronjobs ;;
  let n := effective_n n (Z.of_nat (List.length cronjobs)) in
  let l := sort_by_date l in
  pick_jobs cronjobs l (Py.range 0 n).

Definition next_job (now : nat -> DT.datetime) (cronjobs : list CronJob)
    : result (list CronJob) :=
  upcoming_jobs now cronjobs (Some 1).

Definition all_jobs (now : nat -> DT.datetime) (cronjobs : list CronJob)
    : result (list CronJob) :=
  upcoming_jobs now cronjobs None.

(** [job_for_line(index)]: the job is read with [self.cronjobs[index - 1]]. *)
Definition job_for_line (now : DT.datetime) (cronjobs : list CronJob)
    (index : Z) : result DT.datetime :=
  job <- Py.getitem cronjobs (index - 1) ;;
  next_run job now None.

(** The expression [filter(None, self.raw_string.split(' '))] of [parse]:
    the non-empty tokens between spaces. *)
Definition fields_of (raw : string) : list string :=
  filter (fun f => negb (String.eqb f "")) (Py.split " " raw).

(** [k] is the least number of days after which the weekday [wd] has moved
    into [set], and it is less than a week. *)
Definition first_matching_offset (set : list Z) (wd k : Z) : Prop :=
  0 <= k < 7 /\
  Py.mem ((wd + k) mod 7) set = true /\
  forall j, 0 <= j < k -> Py.mem ((wd + j) mod 7) set = false.

(** What the first loop of [upcoming_jobs] records in an item: the index
    of a job and the date its [next_run()] returned. *)
Definition dated (now : nat -> DT.datetime) (cronjobs : list CronJob)
    (it : item) : Prop :=
  exists k job,
    job_index it = Z.of_nat k /\ nth_error cronjobs k = Some job /\
    next_run job (now k) None = Ok (date it).

(** The order of the sort of [upcoming_jobs]. *)
Definition date_le (a b : item) : Prop := DT.le (date a) (date b) = true.

(** The explicit piece [p] names the value [x]: [p] is the integer [x], or
    a range whose first two pieces between dashes are integers [a] and [b]
    with [a <= x <= b]. *)
Definition names_value (p : string) (x : Z) : Prop :=
  (Py.contains "-" p = false /\ Py.int p = Ok x) \/
  (exists A B rest a b,
     Py.split "-" p = A :: B :: rest /\
     Py.int A = Ok a /\ Py.int B = Ok b /\ a <= x <= b).

(** The bounds of the piece [p], when it holds a dash, are integers. *)
Definition range_bounds_are_integers (p : string) : Prop :=
  Py.contains "-" p = true ->
  exists A B rest a b,
    Py.split "-" p = A :: B :: rest /\ Py.int A = Ok a /\ Py.int B = Ok b.

(** The jobs of the lines ["0 0 1 * *  monthly-report"],
    ["30 * * * *  half-hour"] and ["0 0 * * *  daily"]. *)
Definition monthly_job : CronJob :=
  mkCronJob "0 0 1 * *  monthly-report" "0" "0" "1" "*" "*" "monthly-report"
    (Py.range 1 13) [0] [0] [1] (Py.range 0 7).

Definition half_hour_job : CronJob :=
  mkCronJob "30 * * * *  half-hour" "30" "*" "*" "*" "*" "half-hour"
    (Py.range 1 13) [30] (Py.range 0 24) (Py.range 1 32) (Py.range 0 7).

Definition daily_job : CronJob :=
  mkCronJob "0 0 * * *  daily" "0" "0" "*" "*" "*" "daily"
    (Py.range 1 13) [0] [0] (Py.range 1 32) (Py.range 0 7).

(** What [upcoming_jobs] does with the jobs: [kept ++ left] holds every
    job once, by its index and with the date of its [next_run()], in
    ascending order of these dates; [r] is the jobs of [kept], in that
    order, and [left] is what is not returned. *)
Definition listing (now : nat -> DT.datetime) (cronjobs r : list CronJob)
    (kept left : list item) : Prop :=
  Permutation (map job_index (kept ++ left))
              (map Z.of_nat (seq 0 (List.length cronjobs))) /\
  (forall it, In it (kept ++ left) -> dated now cronjobs it) /\
  Sorted date_le (kept ++ left) /\
  Forall2 (fun job it =>
             nth_error cronjobs (Z.to_nat (job_index it)) = Some job)
          r kept.

(** * Facts about the built-ins *)

Section ListFacts.

Lemma range_nil (lo hi : Z) : hi <= lo -> Py.range lo hi = [].
Proof.
  intros H. unfold Py.range.
  replace (Z.to_nat (hi - lo)) with 0%nat by lia. reflexivity.
Qed.

Lemma range_cons (lo hi : Z) :
  lo < hi -> Py.range lo hi = lo :: Py.range (lo + 1) hi.
Proof.
  intros H. unfold Py.range.
  replace (Z.to_nat (hi - lo)) with (S (Z.to_nat (hi - (lo + 1)))) by lia.
  cbn [seq map]. f_equal; [lia|].
  rewrite <- seq_shift, map_map.
  apply map_ext. intros i. lia.
Qed.

(** Induction on a range from its lower end. *)
Lemma range_ind (hi : Z) (P : Z -> list Z -> Prop) :
  (forall lo, hi <= lo -> P lo []) ->
  (forall lo, lo < hi -> P (lo + 1) (Py.range (lo + 1) hi) ->
              P lo (lo :: Py.range (lo + 1) hi)) ->
  forall lo, P lo (Py.range lo hi).
Proof.
  intros Hnil Hcons lo.
  remember (Z.to_nat (hi - lo)) as n eqn:En.
  revert lo En. induction n as [|n IH]; intros lo En.
  - rewrite range_nil by lia. apply Hnil. lia.
  - rewrite range_cons by lia. apply Hcons; [lia|]. apply IH. lia.
Qed.

Lemma In_range (lo hi x : Z) : In x (Py.range lo hi) <-> lo <= x < hi.
Proof.
  revert lo. apply (range_ind hi (fun lo l => In x l <-> lo <= x < hi)).
  - intros lo H. simpl. lia.
  - intros lo H IH. simpl. rewrite IH. lia.
Qed.

Lemma NoDup_range (lo hi : Z) : NoDup (Py.range lo hi).
Proof.
  revert lo. apply (range_ind hi (fun _ l => NoDup l)).
  - intros; constructor.
  - intros lo H IH. constructor; [|exact IH].
    rewrite In_range. lia.
Qed.

Lemma Sorted_range (lo hi : Z) : Sorted Z.le (Py.range lo hi).
Proof.
  revert lo. apply (range_ind hi (fun _ l => Sorted Z.le l)).
  - intros; constructor.
  - intros lo H IH. constructor; [exact IH|].
    destruct (Z_lt_le_dec (lo + 1) hi) as [Hlt|Hge].
    + rewrite range_cons by exact Hlt. constructor. lia.
    + rewrite range_nil by exact Hge. constructor.
Qed.

Lemma insert_sorted_perm (x : Z) (l : list Z) :
  Permutation (Py.insert_sorted x l) (x :: l).
Proof.
  induction l as [|y r IH]; simpl.
  - apply Permutation_refl.
  - destruct (x <=? y).
    + apply Permutation_refl.
    + eapply Permutation_trans; [apply perm_skip, IH | apply perm_swap].
Qed.

Lemma sorted_perm (l : list Z) : Permutation (Py.sorted l) l.
Proof.
  induction l as [|x r IH]; simpl.
  - apply perm_nil.
  - eapply Permutation_trans; [apply insert_sorted_perm|].
    apply perm_skip, IH.
Qed.

Lemma insert_sorted_HdRel (a x : Z) (l : list Z) :
  a <= x -> HdRel Z.le a l -> HdRel Z.le a (Py.insert_sorted x l).
Proof.
  intros Hax H. destruct l as [|y r]; simpl.
  - constructor. exact Hax.
  - destruct (x <=? y); constructor.
    + exact Hax.
    + inversion H; assumption.
Qed.

Lemma insert_sorted_Sorted (x : Z) (l : list Z) :
  Sorted Z.le l -> Sorted Z.le (Py.insert_sorted x l).
Proof.
  induction 1 as [|y r Hs IH Hhd]; simpl.
  - repeat constructor.
  - destruct (x <=? y) eqn:E.
    + constructor; [constructor; assumption|]. constructor. lia.
    + constructor; [exact IH|].
      apply insert_sorted_HdRel; [lia | exact Hhd].
Qed.

(** [sorted] returns an ascending list... *)
Lemma sorted_Sorted (l : list Z) : Sorted Z.le (Py.sorted l).
Proof.
  induction l as [|x r IH]; simpl.
  - constructor.
  - apply insert_sorted_Sorted, IH.
Qed.

(** ... and leaves an ascending list as it is. *)
Lemma sorted_id (l : list Z) : Sorted Z.le l -> Py.sorted l = l.
Proof.
  induction 1 as [|x r Hs IH Hhd]; simpl.
  - reflexivity.
  - rewrite IH. destruct Hhd as [|y r' Hxy]; simpl.
    + reflexivity.
    + destruct (x <=? y) eqn:E; [reflexivity | lia].
Qed.

Lemma In_sorted (x : Z) (l : list Z) : In x (Py.sorted l) <-> In x l.
Proof.
  split; apply Permutation_in;
    [apply sorted_perm | apply Permutation_sym, sorted_perm].
Qed.

Lemma NoDup_sorted (l : list Z) : NoDup l -> NoDup (Py.sorted l).
Proof.
  apply Permutation_NoDup, Permutation_sym, sorted_perm.
Qed.

Lemma In_stride_from (k i : nat) (l : list Z) (x : Z) :
  In x (Py.stride_from k i l) -> In x l.
Proof.
  revert i. induction l as [|y r IH]; intros i H; simpl in *.
  - exact H.
  - destruct i as [|i'].
    + destruct H as [H|H]; [left; exact H | right; eapply IH; exact H].
    + right; eapply IH; exact H.
Qed.

Lemma NoDup_stride_from (k i : nat) (l : list Z) :
  NoDup l -> NoDup (Py.stride_from k i l).
Proof.
  intros H. revert i. induction H as [|y r Hy Hr IH]; intros i; simpl.
  - constructor.
  - destruct i as [|i'].
    + constructor; [|apply IH].
      intros Hin. apply Hy. eapply In_stride_from; exact Hin.
    + apply IH.
Qed.

(** A slice of a list holds elements of the list only, none twice when
    the list has none twice. *)
Lemma slice_step_sub (l l' : list Z) (k : Z) :
  Py.slice_step l k = Ok l' ->
  (forall x, In x l' -> In x l) /\ (NoDup l -> NoDup l').
Proof.
  unfold Py.slice_step.
  destruct (k =? 0); [discriminate|].
  destruct (0 <? k); intros H; inversion H; subst; clear H; split.
  - intros x; apply In_stride_from.
  - apply NoDup_stride_from.
  - intros x Hx. apply in_rev. eapply In_stride_from; exact Hx.
  - intros Hl. apply NoDup_stride_from, NoDup_rev, Hl.
Qed.

End ListFacts.

Section StringFacts.

Lemma contains_app (c : ascii) (a b : string) :
  Py.contains c (a ++ b) = Py.contains c a || Py.contains c b.
Proof.
  induction a as [|d a IH]; simpl.
  - reflexivity.
  - destruct (Ascii.eqb d c); [reflexivity | exact IH].
Qed.

Lemma split_not_nil (c : ascii) (s : string) : Py.split c s <> [].
Proof.
  destruct s as [|d r]; simpl.
  - discriminate.
  - destruct (Ascii.eqb d c); [discriminate|].
    destruct (Py.split c r); discriminate.
Qed.

(** No piece of [s.split(c)] holds [c]: the recursive calls of
    [finish_parse] never split again. *)
Lemma split_pieces_no_sep (c : ascii) (s p : string) :
  In p (Py.split c s) -> Py.contains c p = false.
Proof.
  revert p. induction s as [|d r IH]; intros p H; simpl in H.
  - destruct H as [<-|[]]. reflexivity.
  - destruct (Ascii.eqb d c) eqn:E.
    + destruct H as [<-|H]; [reflexivity | apply IH, H].
    + destruct (Py.split c r) as [|h t] eqn:Es.
      * destruct H as [<-|[]]. simpl. rewrite E. reflexivity.
      * destruct H as [<-|H].
        -- simpl. rewrite E. apply IH. left; reflexivity.
        -- apply IH. right; exact H.
Qed.

Lemma split_no_sep (c : ascii) (s : string) :
  Py.contains c s = false -> Py.split c s = [s].
Proof.
  induction s as [|d r IH]; simpl; intros H.
  - reflexivity.
  - destruct (Ascii.eqb d c); [discriminate|].
    rewrite (IH H). reflexivity.
Qed.

Lemma split_app_sep (c : ascii) (a b : string) :
  Py.contains c a = false ->
  Py.split c (a ++ String c b) = a :: Py.split c b.
Proof.
  induction a as [|d a IH]; simpl; intros H.
  - rewrite Ascii.eqb_refl. reflexivity.
  - destruct (Ascii.eqb d c); [discriminate|].
    rewrite (IH H). reflexivity.
Qed.

Lemma prefix_head (c : ascii) (sub s : string) :
  String.prefix (String c sub) s = true -> Py.contains c s = true.
Proof.
  destruct s as [|d r]; simpl; [discriminate|].
  destruct (Ascii.ascii_dec c d) as [->|Hne]; intros H.
  - rewrite Ascii.eqb_refl. reflexivity.
  - discriminate.
Qed.

(** A text that holds [sub] holds the first character of [sub]. *)
Lemma str_in_head (c : ascii) (sub s : string) :
  Py.str_in (String c sub) s = true -> Py.contains c s = true.
Proof.
  induction s as [|d r IH]; intros H.
  - simpl in H. discriminate.
  - cbn [Py.str_in] in H.
    destruct (String.prefix (String c sub) (String d r)) eqn:E.
    + apply (prefix_head c sub). exact E.
    + simpl. destruct (Ascii.eqb d c); [reflexivity | apply IH, H].
Qed.

Lemma lstrip_contains (c : ascii) (s : string) :
  Py.contains c s = true ->
  Py.is_space c = true \/ Py.contains c (Py.lstrip s) = true.
Proof.
  induction s as [|d r IH]; simpl; intros H; [discriminate|].
  destruct (Py.is_space d) eqn:Ed.
  - destruct (Ascii.eqb d c) eqn:E.
    + apply Ascii.eqb_eq in E. subst. left; exact Ed.
    + apply IH, H.
  - right. simpl. exact H.
Qed.

Lemma rstrip_contains (c : ascii) (s : string) :
  Py.contains c s = true ->
  Py.is_space c = true \/ Py.contains c (Py.rstrip s) = true.
Proof.
  induction s as [|d r IH]; simpl; intros H; [discriminate|].
  destruct (Ascii.eqb d c) eqn:E.
  - apply Ascii.eqb_eq in E. subst d.
    destruct (Py.rstrip r).
    + destruct (Py.is_space c); [left; reflexivity|].
      right. simpl. rewrite Ascii.eqb_refl. reflexivity.
    + right. simpl. rewrite Ascii.eqb_refl. reflexivity.
  - destruct (IH H) as [Hs|Hc]; [left; exact Hs|].
    right. destruct (Py.rstrip r); [discriminate|].
    cbn [Py.contains]. rewrite E. exact Hc.
Qed.

Lemma lstrip_sub (c : ascii) (s : string) :
  Py.contains c (Py.lstrip s) = true -> Py.contains c s = true.
Proof.
  induction s as [|d r IH]; simpl; intros H; [discriminate|].
  destruct (Py.is_space d).
  - rewrite (IH H). destruct (Ascii.eqb d c); reflexivity.
  - exact H.
Qed.

Lemma rstrip_sub (c : ascii) (s : string) :
  Py.contains c (Py.rstrip s) = true -> Py.contains c s = true.
Proof.
  induction s as [|d r IH]; simpl; intros H; [discriminate|].
  destruct (Ascii.eqb d c) eqn:E; [reflexivity|].
  apply IH. destruct (Py.rstrip r).
  - destruct (Py.is_space d); simpl in H; [discriminate|].
    rewrite E in H. discriminate.
  - cbn [Py.contains] in H. rewrite E in H. exact H.
Qed.

Lemma strip_contains (c : ascii) (s : string) :
  Py.contains c s = true ->
  Py.is_space c = true \/ Py.contains c (Py.strip s) = true.
Proof.
  intros H. unfold Py.strip.
  destruct (lstrip_contains c s H) as [Hs|Hc]; [left; exact Hs|].
  apply rstrip_contains, Hc.
Qed.

Lemma strip_sub (c : ascii) (s : string) :
  Py.contains c (Py.strip s) = true -> Py.contains c s = true.
Proof.
  intros H. apply lstrip_sub, rstrip_sub, H.
Qed.

Lemma digit_val_bounds (c : ascii) (d : Z) :
  Py.digit_val c = Some d -> 0 <= d <= 9.
Proof.
  unfold Py.digit_val.
  destruct (Nat.leb 48 (nat_of_ascii c)) eqn:E1; simpl; [|discriminate].
  destruct (Nat.leb (nat_of_ascii c) 57) eqn:E2; [|discriminate].
  intros H. inversion H; subst.
  apply Nat.leb_le in E1, E2. lia.
Qed.

Lemma digits_value_chars (s : string) (acc v : Z) (c : ascii) :
  Py.digits_value acc s = Some v -> Py.contains c s = true ->
  Py.digit_val c <> None.
Proof.
  revert acc. induction s as [|d r IH]; simpl; intros acc H Hc.
  - discriminate.
  - destruct (Py.digit_val d) as [x|] eqn:Ed; [|discriminate].
    destruct (Ascii.eqb d c) eqn:E.
    + apply Ascii.eqb_eq in E. subst. congruence.
    + eapply IH; eassumption.
Qed.

Lemma digits_value_nonneg (s : string) (acc v : Z) :
  Py.digits_value acc s = Some v -> 0 <= acc -> 0 <= v.
Proof.
  revert acc. induction s as [|d r IH]; cbn [Py.digits_value];
    intros acc H Hacc.
  - inversion H; subst; exact Hacc.
  - destruct (Py.digit_val d) as [x|] eqn:Ed; [|discriminate].
    apply digit_val_bounds in Ed. eapply IH; [exact H | lia].
Qed.

Lemma decimal_chars (s : string) (v : Z) (c : ascii) :
  Py.decimal s = Some v -> Py.contains c s = true -> Py.digit_val c <> None.
Proof.
  destruct s; [discriminate|]. apply digits_value_chars.
Qed.

Lemma decimal_nonneg (s : string) (v : Z) : Py.decimal s = Some v -> 0 <= v.
Proof.
  destruct s; [discriminate|].
  intros H. eapply digits_value_nonneg; [exact H | lia].
Qed.

(** Every character of a text [int] accepts is white space, a sign or a
    digit. *)
Lemma int_chars (s : string) (v : Z) (c : ascii) :
  Py.int s = Ok v -> Py.contains c s = true ->
  Py.is_space c = true \/ c = "+"%char \/ c = "-"%char \/
  Py.digit_val c <> None.
Proof.
  unfold Py.int. intros H Hc.
  destruct (strip_contains c s Hc) as [Hs|Ht]; [left; exact Hs|].
  right. destruct (Py.strip s) as [|d r]; [discriminate|].
  cbn [Py.contains] in Ht.
  destruct (Ascii.eqb d "+") eqn:Eplus.
  - apply Ascii.eqb_eq in Eplus. subst d.
    destruct (Ascii.eqb "+" c) eqn:E.
    + apply Ascii.eqb_eq in E. left; congruence.
    + destruct (Py.decimal r) eqn:Ed; [|discriminate].
      right; right. eapply decimal_chars; eassumption.
  - destruct (Ascii.eqb d "-") eqn:Eminus.
    + apply Ascii.eqb_eq in Eminus. subst d.
      destruct (Ascii.eqb "-" c) eqn:E.
      * apply Ascii.eqb_eq in E. right; left; congruence.
      * destruct (Py.decimal r) eqn:Ed; [|discriminate].
        right; right. eapply decimal_chars; eassumption.
    + destruct (Py.decimal (String d r)) eqn:Ed; [|discriminate].
      right; right. eapply decimal_chars; [exact Ed|].
      cbn [Py.contains]. exact Ht.
Qed.

(** [int] gives a negative number only to a text with a minus sign. *)
Lemma int_nonneg (s : string) (v : Z) :
  Py.int s = Ok v -> Py.contains "-" s = false -> 0 <= v.
Proof.
  unfold Py.int. intros H Hc.
  destruct (Py.strip s) as [|d r] eqn:Es; [discriminate|].
  destruct (Ascii.eqb d "+") eqn:Eplus.
  - destruct (Py.decimal r) eqn:Ed; [|discriminate].
    inversion H; subst. eapply decimal_nonneg; exact Ed.
  - destruct (Ascii.eqb d "-") eqn:Eminus.
    + apply Ascii.eqb_eq in Eminus. subst d.
      assert (Py.contains "-" s = true) as Hin.
      { apply strip_sub. rewrite Es. reflexivity. }
      congruence.
    + destruct (Py.decimal (String d r)) eqn:Ed; [|discriminate].
      inversion H; subst. eapply decimal_nonneg; exact Ed.
Qed.

(** A text [int] accepts holds neither a star nor a comma. *)
Lemma int_no_star_comma (s : string) (v : Z) :
  Py.int s = Ok v ->
  Py.contains "*" s = false /\ Py.contains "," s = false.
Proof.
  intros H. split.
  - destruct (Py.contains "*" s) eqn:E; [|reflexivity].
    destruct (int_chars s v "*" H E) as [D|[D|[D|D]]];
      try discriminate; exfalso; apply D; reflexivity.
  - destruct (Py.contains "," s) eqn:E; [|reflexivity].
    destruct (int_chars s v "," H E) as [D|[D|[D|D]]];
      try discriminate; exfalso; apply D; reflexivity.
Qed.

End StringFacts.

(** * The field parser *)

Section FieldParser.

Lemma no_star_not_wildcard (s : string) :
  Py.contains "*" s = false ->
  String.eqb s "*" = false /\ Py.str_in "*/" s = false.
Proof.
  intros H. split.
  - destruct (String.eqb s "*") eqn:E; [|reflexivity].
    apply String.eqb_eq in E. subst s. discriminate.
  - destruct (Py.str_in "*/" s) eqn:E; [|reflexivity].
    apply str_in_head in E. congruence.
Qed.

(** A wildcard or a step resolves to values of [[lo, hi)], none twice. *)
Lemma start_parse_expansion (field_str : string) (lo hi : Z) (l : list Z) :
  field_str = "*" \/ Py.str_in "*/" field_str = true ->
  start_parse field_str lo hi = Ok l ->
  (forall v, In v l -> lo <= v < hi) /\ NoDup l.
Proof.
  intros Hform. unfold start_parse.
  destruct (String.eqb field_str "*") eqn:Estar.
  - intros H. inversion H; subst l. split.
    + intros v Hv. apply (proj1 (In_sorted _ _)) in Hv. apply In_range. exact Hv.
    + apply NoDup_sorted, NoDup_range.
  - destruct Hform as [->|Hstep]; [discriminate|]. rewrite Hstep.
    destruct (Py.int (Py.drop 2 field_str)) as [freq|e]; [|discriminate].
    cbn [bind].
    destruct (Py.slice_step (Py.range lo hi) freq) as [sl|e] eqn:Esl;
      [|discriminate].
    cbn [bind]. intros H. inversion H; subst l.
    destruct (slice_step_sub _ _ _ Esl) as [Hsub Hnd]. split.
    + intros v Hv. apply (proj1 (In_sorted _ _)) in Hv. apply In_range, Hsub, Hv.
    + apply NoDup_sorted, Hnd, NoDup_range.
Qed.

Lemma start_parse_Sorted (field_str : string) (lo hi : Z) (l : list Z) :
  start_parse field_str lo hi = Ok l -> Sorted Z.le l.
Proof.
  unfold start_parse.
  destruct (String.eqb field_str "*").
  - intros H. inversion H. apply sorted_Sorted.
  - destruct (Py.str_in "*/" field_str).
    + destruct (Py.int (Py.drop 2 field_str)) as [freq|e]; [|discriminate].
      cbn [bind].
      destruct (Py.slice_step (Py.range lo hi) freq); [|discriminate].
      cbn [bind]. intros H. inversion H. apply sorted_Sorted.
    + destruct (finish_parse field_str [] hi); [|discriminate].
      cbn [bind]. intros H. inversion H. apply sorted_Sorted.
Qed.

(** C4, as stated, fails.  An explicit value is kept although it lies
    outside [[min, max)]: the minute field ["99"] resolves to [[99]], the
    range ["70-72"] to [[70; 71; 72]].  A comma list keeps a value once for
    every piece that names it: ["1,1"] resolves to [[1; 1]]. *)
Lemma start_parse_not_bounded_nor_distinct :
  ~ (forall field_str lo hi l,
       start_parse field_str lo hi = Ok l -> l <> [] ->
       forall v, In v l -> lo <= v < hi) /\
  ~ (forall field_str lo hi l,
       start_parse field_str lo hi = Ok l -> l <> [] -> NoDup l) /\
  ~ (forall A B lo hi l,
       start_parse (A ++ "-" ++ B) lo hi = Ok l -> l <> [] ->
       forall v, In v l -> lo <= v < hi).
Proof.
  split; [|split]; intros H.
  - assert (0 <= 99 < 60) as Habs; [|lia].
    apply (H "99" 0 60 [99]); [reflexivity | discriminate | left; reflexivity].
  - assert (NoDup [1; 1]) as Habs.
    { apply (H "1,1" 0 60); [reflexivity | discriminate]. }
    inversion Habs as [|x r Hin _]. apply Hin. left; reflexivity.
  - assert (0 <= 70 < 60) as Habs; [|lia].
    apply (H "70" "72" 0 60 [70; 71; 72]);
      [reflexivity | discriminate | left; reflexivity].
Qed.

(** A piece of text without a comma appends no value twice. *)
Lemma finish_parse_item_NoDup (cron_str : string) (mx : Z) (l : list Z) :
  finish_parse_item cron_str [] mx = Ok l -> NoDup l.
Proof.
  unfold finish_parse_item.
  destruct (Py.contains "-" cron_str).
  - destruct (Py.index (Py.split "-" cron_str) 0) as [v0|]; [|discriminate].
    cbn [bind]. destruct (Py.int v0) as [a|]; [|discriminate]. cbn [bind].
    destruct (Py.index (Py.split "-" cron_str) 1) as [v1|]; [|discriminate].
    cbn [bind]. destruct (Py.int v1) as [b|]; [|discriminate]. cbn [bind].
    intros H. inversion H. apply NoDup_range.
  - destruct (Py.int cron_str) as [v|e].
    + intros H. inversion H. repeat constructor. intros [].
    + destruct e; intros H; inversion H; constructor.
Qed.

Lemma start_parse_no_comma_NoDup (field_str : string) (lo hi : Z)
    (l : list Z) :
  Py.contains "," field_str = false ->
  start_parse field_str lo hi = Ok l -> NoDup l.
Proof.
  intros Hcomma H.
  destruct (String.eqb field_str "*") eqn:Estar.
  - apply String.eqb_eq in Estar.
    apply (start_parse_expansion _ _ _ _ (or_introl Estar) H).
  - destruct (Py.str_in "*/" field_str) eqn:Estep.
    + apply (start_parse_expansion _ _ _ _ (or_intror Estep) H).
    + unfold start_parse in H. rewrite Estar, Estep in H.
      unfold finish_parse in H. rewrite Hcomma in H.
      destruct (finish_parse_item field_str [] hi) as [raw|] eqn:E;
        [|discriminate].
      cbn [bind] in H. inversion H.
      apply NoDup_sorted. eapply finish_parse_item_NoDup; exact E.
Qed.

End FieldParser.

(** * The next-run calculator *)

Section Candidates.

Lemma lex_lt_irrefl (a : list Z) : DT.lex_lt a a = false.
Proof.
  induction a as [|x a IH]; simpl.
  - reflexivity.
  - rewrite Z.ltb_irrefl, Z.eqb_refl, IH. reflexivity.
Qed.

Lemma lex_lt_asym (a b : list Z) :
  DT.lex_lt a b = true -> DT.lex_lt b a = false.
Proof.
  revert b. induction a as [|x a IH]; intros [|y b]; simpl; try discriminate.
  intros H. apply orb_true_iff in H.
  destruct H as [H|H].
  - apply Z.ltb_lt in H.
    replace (y <? x) with false by (symmetry; apply Z.ltb_ge; lia).
    replace (y =? x) with false by (symmetry; apply Z.eqb_neq; lia).
    reflexivity.
  - apply andb_true_iff in H. destruct H as [Hxy Hl].
    apply Z.eqb_eq in Hxy. subst y.
    rewrite Z.ltb_irrefl, Z.eqb_refl, (IH _ Hl). reflexivity.
Qed.

Lemma le_refl (a : DT.datetime) : DT.le a a = true.
Proof. unfold DT.le, DT.lt. rewrite lex_lt_irrefl. reflexivity. Qed.

Lemma lt_le (a b : DT.datetime) : DT.lt a b = true -> DT.le a b = true.
Proof.
  unfold DT.le, DT.lt. intros H. rewrite (lex_lt_asym _ _ H). reflexivity.
Qed.

Lemma parse_noon_job : parse "0 12 15 * 1  noon-job" = Ok noon_job.
Proof. reflexivity. Qed.

Lemma parse_never_job : parse "x * * * *  never" = Ok never_job.
Proof. reflexivity. Qed.

(** C5: with both candidates computed, the day pass selects the
    day-of-month candidate when only day-of-month is restricted, the
    day-of-week candidate when only day-of-week is restricted, the earlier
    of the two when both are (the day-of-week one when they fall on the
    same date), and the day-of-month candidate when neither is.  It
    returns the candidate it selected, and raises exactly when that
    candidate fails its own assertion: the day for the day-of-month
    candidate, the weekday for the day-of-week candidate. *)
Theorem set_next_day_precedence
    (self : CronJob) (start_dt t_dom t_dow : DT.datetime) :
  test_dom self start_dt = Ok t_dom ->
  test_dow self start_dt = Ok t_dow ->
  (is_star (dom self) = false -> is_star (dow self) = true ->
   set_next_day self start_dt =
   if Py.mem (DT.day t_dom) (cron_dom self)
   then Ok t_dom else Err AssertionError) /\
  (is_star (dom self) = true -> is_star (dow self) = false ->
   set_next_day self start_dt =
   if Py.mem (DT.weekday t_dow) (cron_dow self)
   then Ok t_dow else Err AssertionError) /\
  (is_star (dom self) = false -> is_star (dow self) = false ->
   (DT.lt t_dom t_dow = true ->
    DT.le t_dom t_dow = true /\
    set_next_day self start_dt =
    if Py.mem (DT.day t_dom) (cron_dom self)
    then Ok t_dom else Err AssertionError) /\
   (DT.lt t_dom t_dow = false ->
    DT.le t_dow t_dom = true /\
    set_next_day self start_dt =
    if Py.mem (DT.weekday t_dow) (cron_dow self)
    then Ok t_dow else Err AssertionError)) /\
  (is_star (dom self) = true -> is_star (dow self) = true ->
   set_next_day self start_dt =
   if Py.mem (DT.day t_dom) (cron_dom self)
   then Ok t_dom else Err AssertionError).
Proof.
  intros Hdom Hdow. unfold set_next_day, use_dom.
  rewrite Hdom, Hdow. cbn [bind].
  assert (forall (c : bool) (t : DT.datetime),
          (_ <- assert c ;; Ok t) =
          if c then Ok t else Err AssertionError) as Hassert
    by (intros [] t; reflexivity).
  split; [|split; [|split]]; intros Ed Ew; rewrite Ed, Ew;
    cbn [negb andb]; try apply Hassert.
  split; intros Hlt; rewrite Hlt.
  - split; [apply lt_le, Hlt | apply Hassert].
  - split; [unfold DT.le; rewrite Hlt; reflexivity | apply Hassert].
Qed.

(** The line ["0 12 15 * 1"].  From Friday 2024-05-10 the candidates are
    05-15 (day of month) and 05-14 (day of week): the day-of-week one is
    earlier and is returned.  From Wednesday 2024-05-15 they are 05-15
    itself and 05-21: the day-of-month one is returned, although its
    weekday is not in the day-of-week set. *)
Lemma set_next_day_precedence_witness :
  set_next_day noon_job (at_minute 2024 5 10 12 0)
  = Ok (at_minute 2024 5 14 12 0) /\
  set_next_day noon_job (at_minute 2024 5 15 12 0)
  = Ok (at_minute 2024 5 15 12 0) /\
  Py.mem (DT.weekday (at_minute 2024 5 15 12 0)) (cron_dow noon_job) = false.
Proof.
  destruct (set_next_day_precedence noon_job (at_minute 2024 5 10 12 0)
              (at_minute 2024 5 15 12 0) (at_minute 2024 5 14 12 0)
              eq_refl eq_refl) as [_ [_ [Hboth _]]].
  destruct (set_next_day_precedence noon_job (at_minute 2024 5 15 12 0)
              (at_minute 2024 5 15 12 0) (at_minute 2024 5 21 12 0)
              eq_refl eq_refl) as [_ [_ [Hboth' _]]].
  destruct (Hboth eq_refl eq_refl) as [_ Hdow].
  destruct (Hboth' eq_refl eq_refl) as [Hdom _].
  split; [|split].
  - destruct (Hdow eq_refl) as [_ ->]. reflexivity.
  - destruct (Hdom eq_refl) as [_ ->]. reflexivity.
  - reflexivity.
Defined.

End Candidates.

Section EmptySets.

Variable self : CronJob.

Lemma first_common_value_nil (l : list Z) :
  first_common_value l [] = Err StopIteration.
Proof.
  unfold first_common_value.
  replace (find (fun i => Py.mem i []) l) with (@None Z); [reflexivity|].
  induction l as [|x r IH]; simpl; [reflexivity | exact IH].
Qed.

Lemma index_nil (A : Type) (i : nat) : Py.index (@nil A) i = Err IndexError.
Proof. destruct i; reflexivity. Qed.

(** A handler that reads the first element of an empty set raises. *)
Ltac empty_set_raises E :=
  rewrite E, first_common_value_nil; cbn [bind try_except]; cbv zeta;
  repeat match goal with
         | |- context [Py.index [] _] => rewrite index_nil; cbn [bind]
         | |- exists e, bind ?r _ = Err e =>
             destruct r; cbn [bind]
         | |- exists e, Err ?x = Err e => exists x; reflexivity
         end.

Lemma set_next_minute_empty (d : DT.datetime) :
  cron_minutes self = [] -> exists e, set_next_minute self d = Err e.
Proof. intros E. unfold set_next_minute. empty_set_raises E. Qed.

Lemma set_next_hour_empty (d : DT.datetime) :
  cron_hours self = [] -> exists e, set_next_hour self d = Err e.
Proof. intros E. unfold set_next_hour. empty_set_raises E. Qed.

Lemma test_dom_empty (d : DT.datetime) :
  cron_dom self = [] -> exists e, test_dom self d = Err e.
Proof. intros E. unfold test_dom. empty_set_raises E. Qed.

Lemma test_dow_empty (d : DT.datetime) :
  cron_dow self = [] -> exists e, test_dow self d = Err e.
Proof. intros E. unfold test_dow. empty_set_raises E. Qed.

Lemma set_next_day_empty (d : DT.datetime) :
  cron_dom self = [] \/ cron_dow self = [] ->
  exists e, set_next_day self d = Err e.
Proof.
  intros [E|E]; unfold set_next_day.
  - destruct (test_dom_empty d E) as [e ->]. exists e; reflexivity.
  - destruct (test_dom self d) as [t|e]; cbn [bind];
      [|exists e; reflexivity].
    destruct (test_dow_empty d E) as [e ->]. exists e; reflexivity.
Qed.

Lemma set_next_month_empty (d : DT.datetime) :
  cron_months self = [] -> exists e, set_next_month self d = Err e.
Proof. intros E. unfold set_next_month. empty_set_raises E. Qed.

(** C6: when one of the five resolved sets is empty, [next_run] raises;
    it returns no date (and, being a total function here, cannot loop). *)
Theorem next_run_empty_set_raises
    (now : DT.datetime) (start_dt : option DT.datetime) :
  cron_minutes self = [] \/ cron_hours self = [] \/ cron_dom self = [] \/
  cron_months self = [] \/ cron_dow self = [] ->
  exists e, next_run self now start_dt = Err e.
Proof.
  intros H. unfold next_run, create_date.
  match goal with |- exists e, bind ?r _ = _ => destruct r as [d0|e0] end;
    cbn [bind]; [|exists e0; reflexivity].
  destruct (set_next_minute self d0) as [d1|e1] eqn:E1; cbn [bind].
  2: exists e1; reflexivity.
  destruct (set_next_hour self d1) as [d2|e2] eqn:E2; cbn [bind].
  2: exists e2; reflexivity.
  destruct (set_next_day self d2) as [d3|e3] eqn:E3; cbn [bind].
  2: exists e3; reflexivity.
  destruct H as [H|[H|[H|[H|H]]]].
  - destruct (set_next_minute_empty d0 H) as [e He]. congruence.
  - destruct (set_next_hour_empty d1 H) as [e He]. congruence.
  - destruct (set_next_day_empty d2 (or_introl H)) as [e He]. congruence.
  - apply set_next_month_empty, H.
  - destruct (set_next_day_empty d2 (or_intror H)) as [e He]. congruence.
Qed.

End EmptySets.

Lemma next_run_empty_set_raises_witness :
  cron_minutes never_job = [] /\
  exists e, next_run never_job (at_minute 2024 1 15 10 0) None = Err e.
Proof.
  split; [reflexivity|].
  apply (next_run_empty_set_raises never_job). left; reflexivity.
Defined.

(** * A returned instant is never before the reference *)

Section Chronology.

Lemma lex_lt_trans (a b c : list Z) :
  List.length a = List.length b -> List.length b = List.length c ->
  DT.lex_lt a b = true -> DT.lex_lt b c = true -> DT.lex_lt a c = true.
Proof.
  revert b c. induction a as [|x a IH]; intros [|y b] [|z c];
    simpl; try discriminate.
  intros Lab Lbc Hab Hbc.
  apply orb_true_iff in Hab. apply orb_true_iff in Hbc.
  apply orb_true_iff.
  destruct Hab as [Hab|Hab], Hbc as [Hbc|Hbc];
    rewrite ?andb_true_iff, ?Z.ltb_lt, ?Z.eqb_eq in *.
  - left; lia.
  - left; lia.
  - left; lia.
  - right. destruct Hab as [-> Hab], Hbc as [-> Hbc].
    split; [reflexivity|]. apply (IH b c); congruence.
Qed.

Lemma lex_lt_total (a b : list Z) :
  List.length a = List.length b ->
  DT.lex_lt a b = false -> DT.lex_lt b a = true \/ a = b.
Proof.
  revert b. induction a as [|x a IH]; intros [|y b]; simpl; try discriminate.
  - intros _ _. right; reflexivity.
  - intros L H. apply orb_false_iff in H. destruct H as [Hlt Hrest].
    apply Z.ltb_ge in Hlt.
    destruct (Z.eq_dec x y) as [->|Hne].
    + rewrite Z.eqb_refl in Hrest. simpl in Hrest.
      destruct (IH b) as [Hba| ->]; [congruence | exact Hrest | |].
      * left. rewrite Hba, Z.eqb_refl. apply orb_true_r.
      * right; reflexivity.
    + left. replace (y <? x) with true; [reflexivity|].
      symmetry. apply Z.ltb_lt. lia.
Qed.

Lemma lex_lt_app (p q r t : list Z) :
  List.length p = List.length q ->
  DT.lex_lt p q = true -> DT.lex_lt (p ++ r) (q ++ t) = true.
Proof.
  revert q. induction p as [|x p IH]; intros [|y q]; simpl; try discriminate.
  intros L H. apply orb_true_iff in H. apply orb_true_iff.
  destruct H as [H|H]; [left; exact H | right].
  apply andb_true_iff in H. destruct H as [Hxy H].
  rewrite Hxy. simpl. apply IH; [congruence | exact H].
Qed.

Lemma key_length (a : DT.datetime) : List.length (DT.key a) = 7%nat.
Proof. reflexivity. Qed.

Lemma le_trans (a b c : DT.datetime) :
  DT.le a b = true -> DT.le b c = true -> DT.le a c = true.
Proof.
  unfold DT.le, DT.lt. rewrite !negb_true_iff. intros Hab Hbc.
  destruct (lex_lt_total (DT.key b) (DT.key a)) as [Hlt|Heq];
    [reflexivity | exact Hab | | rewrite <- Heq; exact Hbc].
  destruct (lex_lt_total (DT.key c) (DT.key b)) as [Hlt'|Heq'];
    [reflexivity | exact Hbc | | rewrite Heq'; exact Hab].
  apply lex_lt_asym.
  apply (lex_lt_trans _ (DT.key b)); (reflexivity || assumption).
Qed.

(** The calendar date of [a] is before the one of [b]. *)
Lemma date_lt_lt (a b : DT.datetime) :
  DT.lex_lt [DT.year a; DT.month a; DT.day a]
            [DT.year b; DT.month b; DT.day b] = true ->
  DT.lt a b = true.
Proof.
  intros H. unfold DT.lt, DT.key.
  apply (lex_lt_app [DT.year a; DT.month a; DT.day a]
           [DT.year b; DT.month b; DT.day b]
           [DT.hour a; DT.minute a; DT.second a; DT.microsecond a]
           [DT.hour b; DT.minute b; DT.second b; DT.microsecond b]);
    [reflexivity | exact H].
Qed.

Lemma next_day_later (d d' : DT.datetime) :
  DT.next_day d = Some d' ->
  DT.lex_lt (date_key d) (date_key d') = true /\ time_key d' = time_key d.
Proof.
  unfold DT.next_day, date_key, time_key.
  destruct (DT.day d <? DT.days_in_month (DT.year d) (DT.month d)).
  - intros H. inversion H; subst d'. cbn.
    rewrite !Z.ltb_irrefl, !Z.eqb_refl. cbn.
    replace (DT.day d <? DT.day d + 1) with true
      by (symmetry; apply Z.ltb_lt; lia).
    split; reflexivity.
  - destruct (DT.month d <? 12).
    + intros H. inversion H; subst d'. cbn.
      rewrite !Z.ltb_irrefl, !Z.eqb_refl. cbn.
      replace (DT.month d <? DT.month d + 1) with true
        by (symmetry; apply Z.ltb_lt; lia).
      split; reflexivity.
    + destruct (DT.year d <? DT.MAXYEAR); [|discriminate].
      intros H. inversion H; subst d'. cbn.
      replace (DT.year d <? DT.year d + 1) with true
        by (symmetry; apply Z.ltb_lt; lia).
      split; reflexivity.
Qed.

Lemma iterate_next_day_later (n : nat) (d d' : DT.datetime) :
  DT.iterate DT.next_day n d = Some d' ->
  (n = 0%nat /\ d' = d) \/
  (DT.lex_lt (date_key d) (date_key d') = true /\ time_key d' = time_key d).
Proof.
  revert d. induction n as [|n IH]; intros d; cbn [DT.iterate].
  - intros H. inversion H. left; split; reflexivity.
  - destruct (DT.next_day d) as [d1|] eqn:E1; [|discriminate].
    intros H. right.
    destruct (next_day_later _ _ E1) as [Hlt1 Ht1].
    destruct (IH _ H) as [[_ ->]|[Hlt2 Ht2]].
    + split; assumption.
    + split; [|congruence].
      apply (lex_lt_trans _ (date_key d1)); (reflexivity || assumption).
Qed.

(** Adding a non-negative number of days does not go back. *)
Lemma add_days_later (d d' : DT.datetime) (n : Z) :
  0 <= n -> DT.add_days d n = Ok d' -> DT.le d d' = true.
Proof.
  intros Hn. unfold DT.add_days.
  destruct (999999999 <? Z.abs n); [discriminate|].
  replace (0 <=? n) with true by (symmetry; apply Z.leb_le; exact Hn).
  destruct (DT.iterate DT.next_day (Z.to_nat n) d) as [x|] eqn:E;
    [|discriminate].
  intros H. inversion H; subst x.
  destruct (iterate_next_day_later _ _ _ E) as [[_ ->]|[Hlt _]].
  - apply le_refl.
  - apply lt_le, date_lt_lt, Hlt.
Qed.

Lemma add_days_date_later (d d' : DT.datetime) (n : Z) :
  0 < n -> DT.add_days d n = Ok d' ->
  DT.lex_lt (date_key d) (date_key d') = true.
Proof.
  intros Hn. unfold DT.add_days.
  destruct (999999999 <? Z.abs n); [discriminate|].
  replace (0 <=? n) with true by (symmetry; apply Z.leb_le; lia).
  destruct (DT.iterate DT.next_day (Z.to_nat n) d) as [x|] eqn:E;
    [|discriminate].
  intros H. inversion H; subst x.
  destruct (iterate_next_day_later _ _ _ E) as [[Hz _]|[Hlt _]];
    [lia | exact Hlt].
Qed.

Lemma checked_ok (x y : DT.datetime) :
  DT.checked x = Ok y -> y = x /\ DT.valid x = true.
Proof.
  unfold DT.checked. destruct (DT.valid x); [|discriminate].
  intros H. inversion H. split; reflexivity.
Qed.

Lemma replaced_ok (vs : list Z) (x y : DT.datetime) :
  DT.replaced vs x = Ok y -> y = x /\ DT.valid x = true.
Proof.
  unfold DT.replaced. destruct (forallb DT.fits_c_int vs); [|discriminate].
  apply checked_ok.
Qed.

Lemma first_common_value_ok (l1 l2 : list Z) (v : Z) :
  first_common_value l1 l2 = Ok v -> In v l1 /\ Py.mem v l2 = true.
Proof.
  unfold first_common_value.
  destruct (find (fun i => Py.mem i l2) l1) as [i|] eqn:E; [|discriminate].
  intros H. inversion H; subst i. apply (find_some _ _ E).
Qed.

Lemma try_except_ok (A : Type) (body handler : result A) (r : A) :
  try_except body handler = Ok r -> body = Ok r \/ handler = Ok r.
Proof.
  destruct body; simpl; intros H; [left | right]; exact H.
Qed.

Lemma index_first (l : list Z) (x : Z) : Py.index l 0 = Ok x -> In x l.
Proof.
  destruct l as [|y r]; cbn; intros H; inversion H. left; reflexivity.
Qed.

Lemma weekday_range (d : DT.datetime) : 0 <= DT.weekday d < 7.
Proof. unfold DT.weekday. apply Z.mod_pos_bound. lia. Qed.

(** Compare two datetimes that differ first in one field. *)
Ltac first_difference H :=
  unfold DT.lt, DT.key; cbn;
  rewrite ?Z.ltb_irrefl, ?Z.eqb_refl; cbn;
  rewrite (proj2 (Z.ltb_lt _ _) H); reflexivity.

Variable self : CronJob.

Lemma set_next_minute_later (d d' : DT.datetime) :
  DT.valid d = true -> set_next_minute self d = Ok d' ->
  DT.le d d' = true /\ DT.valid d' = true.
Proof.
  intros Hv H. unfold set_next_minute in H.
  apply try_except_ok in H. destruct H as [H|H].
  - destruct (first_common_value _ _) as [m|]; [|discriminate].
    cbn [bind] in H.
    destruct (negb (m =? DT.minute d)); [discriminate|].
    inversion H; subst d'. split; [apply le_refl | exact Hv].
  - destruct (DT.add_hour d) as [d1|] eqn:E1; [|discriminate].
    cbn [bind] in H.
    destruct (Py.index (cron_minutes self) 0) as [m0|]; [|discriminate].
    cbn [bind] in H. apply replaced_ok in H. destruct H as [-> Hv'].
    split; [|exact Hv']. apply lt_le.
    unfold DT.add_hour in E1.
    destruct (DT.hour d <? 23).
    + inversion E1; subst d1.
      assert (DT.hour d < DT.hour d + 1) as Hlt by lia.
      first_difference Hlt.
    + destruct (DT.next_day d) as [dn|] eqn:En; [|discriminate].
      inversion E1; subst d1.
      apply date_lt_lt. apply (next_day_later _ _ En).
Qed.

Lemma set_next_hour_later (d d' : DT.datetime) :
  DT.valid d = true -> set_next_hour self d = Ok d' ->
  DT.le d d' = true /\ DT.valid d' = true.
Proof.
  intros Hv H. unfold set_next_hour in H.
  apply try_except_ok in H. destruct H as [H|H].
  - destruct (first_common_value _ _) as [m|] eqn:Em; [|discriminate].
    cbn [bind] in H.
    destruct (m =? DT.hour d) eqn:E; cbn [negb] in H.
    + inversion H; subst d'. split; [apply le_refl | exact Hv].
    + apply replaced_ok in H. destruct H as [-> Hv'].
      split; [|exact Hv']. apply lt_le.
      apply first_common_value_ok in Em. destruct Em as [Hin _].
      apply In_range in Hin. apply Z.eqb_neq in E.
      assert (DT.hour d < m) as Hlt by lia.
      first_difference Hlt.
  - destruct (DT.add_days d 1) as [d1|] eqn:E1; [|discriminate].
    cbn [bind] in H.
    destruct (Py.index (cron_hours self) 0) as [h0|]; [|discriminate].
    cbn [bind] in H. apply replaced_ok in H. destruct H as [-> Hv'].
    split; [|exact Hv']. apply lt_le, date_lt_lt.
    apply (add_days_date_later d d1 1); [lia | exact E1].
Qed.

Lemma valid_day (d : DT.datetime) :
  DT.valid d = true ->
  1 <= DT.day d <= DT.days_in_month (DT.year d) (DT.month d).
Proof.
  unfold DT.valid. rewrite !andb_true_iff, !Z.leb_le. intuition lia.
Qed.

Lemma test_dom_later (d t : DT.datetime) :
  DT.valid d = true -> Forall (Z.le 0) (cron_dom self) ->
  test_dom self d = Ok t -> DT.le d t = true.
Proof.
  intros Hv Hnn H. unfold test_dom in H.
  apply try_except_ok in H. destruct H as [H|H].
  - destruct (first_common_value _ _) as [m|] eqn:Em; [|discriminate].
    cbn [bind] in H.
    destruct (m =? DT.day d) eqn:E; cbn [negb] in H.
    + inversion H; subst t. apply le_refl.
    + apply replaced_ok in H. destruct H as [-> _]. apply lt_le.
      apply first_common_value_ok in Em. destruct Em as [Hin _].
      apply In_range in Hin. apply Z.eqb_neq in E.
      assert (DT.day d < m) as Hlt by lia.
      first_difference Hlt.
  - cbv zeta in H.
    destruct (Py.index (cron_dom self) 0) as [d0|] eqn:E0; [|discriminate].
    cbn [bind] in H. apply index_first in E0.
    rewrite Forall_forall in Hnn. specialize (Hnn _ E0).
    apply valid_day in Hv.
    eapply add_days_later; [|exact H]. lia.
Qed.

Lemma test_dow_later (d t : DT.datetime) :
  Forall (Z.le 0) (cron_dow self) ->
  test_dow self d = Ok t -> DT.le d t = true.
Proof.
  intros Hnn H. unfold test_dow in H.
  apply try_except_ok in H. destruct H as [H|H].
  - destruct (first_common_value _ _) as [m|]; [|discriminate].
    cbn [bind] in H. cbv zeta in H.
    destruct (m - DT.weekday d >? 0) eqn:E.
    + eapply add_days_later; [|exact H].
      apply Z.gtb_lt in E. lia.
    + inversion H; subst t. apply le_refl.
  - destruct (Py.index (cron_dow self) 0) as [d0|] eqn:E0; [|discriminate].
    cbn [bind] in H. apply index_first in E0.
    rewrite Forall_forall in Hnn. specialize (Hnn _ E0).
    pose proof (weekday_range d) as Hw.
    eapply add_days_later; [|exact H]. unfold MAX_DOW. lia.
Qed.

Lemma set_next_day_later (d d' : DT.datetime) :
  DT.valid d = true ->
  Forall (Z.le 0) (cron_dom self) -> Forall (Z.le 0) (cron_dow self) ->
  set_next_day self d = Ok d' -> DT.le d d' = true.
Proof.
  intros Hv Hdom Hdow H. unfold set_next_day in H.
  destruct (test_dom self d) as [t1|] eqn:E1; [|discriminate].
  cbn [bind] in H.
  destruct (test_dow self d) as [t2|] eqn:E2; [|discriminate].
  cbn [bind] in H.
  destruct (use_dom self t1 t2).
  - destruct (assert _); [|discriminate]. inversion H; subst d'.
    eapply test_dom_later; eassumption.
  - destruct (assert _); [|discriminate]. inversion H; subst d'.
    eapply test_dow_later; eassumption.
Qed.

Lemma set_next_month_later (d d' : DT.datetime) :
  set_next_month self d = Ok d' -> DT.le d d' = true.
Proof.
  intros H. unfold set_next_month in H.
  apply try_except_ok in H. destruct H as [H|H].
  - destruct (first_common_value _ _) as [m|] eqn:Em; [|discriminate].
    cbn [bind] in H.
    destruct (m =? DT.month d) eqn:E; cbn [negb] in H.
    + inversion H; subst d'. apply le_refl.
    + apply replaced_ok in H. destruct H as [-> _]. apply lt_le.
      apply first_common_value_ok in Em. destruct Em as [Hin _].
      apply In_range in Hin. apply Z.eqb_neq in E.
      assert (DT.month d < m) as Hlt by lia.
      first_difference Hlt.
  - destruct (Py.index (cron_months self) 0) as [m0|]; [|discriminate].
    cbn [bind] in H. apply replaced_ok in H. destruct H as [-> _].
    apply lt_le.
    assert (DT.year d < DT.year d + 1) as Hlt by lia.
    first_difference Hlt.
Qed.

(** Whenever [next_run] returns, the instant is not before the reference
    cut to the minute, and without a reference the clock's reading is the
    reference. *)
Lemma next_run_not_before_reference
    (now start_dt r : DT.datetime) :
  values_non_negative self ->
  (next_run self now (Some start_dt) = Ok r ->
   DT.le (truncate start_dt) r = true) /\
  next_run self now None = next_run self now (Some now).
Proof.
  intros [_ [_ [_ [Hdom Hdow]]]]. split; [|reflexivity].
  unfold next_run, create_date, DT.make. fold (truncate start_dt).
  destruct (DT.checked (truncate start_dt)) as [d0|] eqn:E0; [|discriminate].
  apply checked_ok in E0. destruct E0 as [-> Hv0]. cbn [bind].
  destruct (set_next_minute self _) as [d1|] eqn:E1; [|discriminate].
  cbn [bind].
  destruct (set_next_hour self d1) as [d2|] eqn:E2; [|discriminate].
  cbn [bind].
  destruct (set_next_day self d2) as [d3|] eqn:E3; [|discriminate].
  cbn [bind]. intros E4.
  destruct (set_next_minute_later _ _ Hv0 E1) as [L1 Hv1].
  destruct (set_next_hour_later _ _ Hv1 E2) as [L2 Hv2].
  pose proof (set_next_day_later _ _ Hv2 Hdom Hdow E3) as L3.
  pose proof (set_next_month_later _ _ E4) as L4.
  eapply le_trans; [exact L1|].
  eapply le_trans; [exact L2|].
  eapply le_trans; [exact L3 | exact L4].
Qed.

End Chronology.

(** * What the passes do for every job *)

Section ParsedValues.

Lemma index_In (l : list string) (i : nat) (x : string) :
  Py.index l i = Ok x -> In x l.
Proof.
  unfold Py.index. destruct (nth_error l i) as [y|] eqn:E; [|discriminate].
  intros H. inversion H; subst y. eapply nth_error_In; exact E.
Qed.

Lemma Forall_range_from (a b : Z) : 0 <= a -> Forall (Z.le 0) (Py.range a b).
Proof.
  intros Ha. apply Forall_forall. intros x Hx. apply In_range in Hx. lia.
Qed.

Lemma finish_parse_item_nonneg (cron_str : string) (acc l : list Z) (mx : Z) :
  Forall (Z.le 0) acc ->
  finish_parse_item cron_str acc mx = Ok l -> Forall (Z.le 0) l.
Proof.
  intros Hacc. unfold finish_parse_item.
  destruct (Py.contains "-" cron_str) eqn:Edash.
  - destruct (Py.index (Py.split "-" cron_str) 0) as [v0|] eqn:E0;
      [|discriminate].
    cbn [bind].
    destruct (Py.int v0) as [a|] eqn:Ea; [|discriminate]. cbn [bind].
    destruct (Py.index (Py.split "-" cron_str) 1) as [v1|]; [|discriminate].
    cbn [bind].
    destruct (Py.int v1) as [b|]; [|discriminate]. cbn [bind].
    intros H. inversion H; subst l.
    apply Forall_app. split; [exact Hacc|].
    apply Forall_range_from. eapply int_nonneg; [exact Ea|].
    eapply split_pieces_no_sep, index_In; exact E0.
  - destruct (Py.int cron_str) as [v|e] eqn:Ev.
    + intros H. inversion H; subst l.
      apply Forall_app. split; [exact Hacc|].
      constructor; [|constructor]. eapply int_nonneg; eassumption.
    + destruct e; intros H; inversion H; subst l; exact Hacc.
Qed.

Lemma finish_parse_each_nonneg (pieces : list string) (acc l : list Z)
    (mx : Z) :
  Forall (Z.le 0) acc ->
  finish_parse_each pieces acc mx = Ok l -> Forall (Z.le 0) l.
Proof.
  revert acc. induction pieces as [|p rest IH]; intros acc Hacc; simpl.
  - intros H. inversion H; subst l; exact Hacc.
  - destruct (finish_parse_item p acc mx) as [acc'|] eqn:E; [|discriminate].
    cbn [bind]. apply IH. eapply finish_parse_item_nonneg; eassumption.
Qed.

(** The parser resolves no negative value when [min] is not negative: a
    minus sign in an explicit field is always read as a range. *)
Lemma start_parse_nonneg (field_str : string) (lo hi : Z) (l : list Z) :
  0 <= lo -> start_parse field_str lo hi = Ok l -> Forall (Z.le 0) l.
Proof.
  intros Hlo H. apply Forall_forall. intros x Hx.
  destruct (String.eqb field_str "*") eqn:Estar.
  - apply String.eqb_eq in Estar.
    destruct (start_parse_expansion _ _ _ _ (or_introl Estar) H) as [Hb _].
    specialize (Hb _ Hx). lia.
  - destruct (Py.str_in "*/" field_str) eqn:Estep.
    + destruct (start_parse_expansion _ _ _ _ (or_intror Estep) H) as [Hb _].
      specialize (Hb _ Hx). lia.
    + unfold start_parse in H. rewrite Estar, Estep in H.
      destruct (finish_parse field_str [] hi) as [raw|] eqn:E; [|discriminate].
      cbn [bind] in H. inversion H; subst l.
      apply (proj1 (In_sorted _ _)) in Hx.
      assert (Forall (Z.le 0) raw) as Hraw.
      { unfold finish_parse in E.
        destruct (Py.contains "," field_str).
        - eapply finish_parse_each_nonneg; [constructor | exact E].
        - eapply finish_parse_item_nonneg; [constructor | exact E]. }
      rewrite Forall_forall in Hraw. apply Hraw, Hx.
Qed.

Lemma parse_values_non_negative (line : string) (self : CronJob) :
  parse line = Ok self -> values_non_negative self.
Proof.
  unfold parse. intros H. cbv zeta in H.
  repeat match type of H with
         | bind ?r _ = Ok _ =>
             let E := fresh "E" in
             destruct r eqn:E; cbn [bind] in H; [|discriminate]
         end.
  inversion H; subst self. unfold values_non_negative. cbn.
  repeat split;
    match goal with
    | E : start_parse _ _ _ = Ok ?l |- Forall _ ?l =>
        eapply start_parse_nonneg; [|exact E]; vm_compute; discriminate
    end.
Qed.

(** An instant returned for a parsed line is not before the reference cut
    to the minute. *)
Lemma next_run_of_line_not_before_reference
    (line : string) (now start_dt r : DT.datetime) :
  next_run_of_line line now (Some start_dt) = Ok r ->
  DT.le (truncate start_dt) r = true.
Proof.
  unfold next_run_of_line.
  destruct (parse line) as [self|] eqn:E; [|discriminate]. cbn [bind].
  apply parse_values_non_negative in E.
  apply (next_run_not_before_reference self now start_dt r E).
Qed.

End ParsedValues.

Section EveryJob.

Variable self : CronJob.

(** The minute pass has two outcomes only: the reference's minute is in the
    set and is kept, or the instant moves into the next hour.  The branch
    that would set a later minute of the same hour always raises. *)
Lemma set_next_minute_keeps_or_wraps (start_dt : DT.datetime) :
  Py.mem (DT.minute start_dt) (cron_minutes self) = false ->
  set_next_minute self start_dt =
  (start_dt' <- DT.add_hour start_dt ;;
   m0 <- Py.index (cron_minutes self) 0 ;;
   DT.with_minute start_dt' m0).
Proof.
  intros Hmem. unfold set_next_minute.
  destruct (first_common_value _ _) as [m|e] eqn:E; cbn [bind].
  - apply first_common_value_ok in E. destruct E as [_ Hm].
    destruct (m =? DT.minute start_dt) eqn:Eq.
    + apply Z.eqb_eq in Eq. subst m. congruence.
    + reflexivity.
  - reflexivity.
Qed.

(** The day-of-week candidate stays on a day exactly when [weekday()] of
    that day, which counts from Monday, is in the set. *)
Lemma test_dow_keeps_weekday (start_dt : DT.datetime) :
  Py.mem (DT.weekday start_dt) (cron_dow self) = true ->
  test_dow self start_dt = Ok start_dt.
Proof.
  intros Hmem. unfold test_dow.
  pose proof (weekday_range start_dt) as Hw.
  unfold MAX_DOW. rewrite range_cons by lia.
  unfold first_common_value. cbn [find]. rewrite Hmem.
  cbn [bind try_except]. cbv zeta.
  rewrite Z.sub_diag. reflexivity.
Qed.

End EveryJob.

(** * Where the calculator departs from its contract *)

Section Departures.

(** C1 (defect of the code): at 00:00 the minute set [[30]] has the member
    30 in the rest of the hour, yet the minute pass does not return 00:30.
    The call of the unbound [replace_minute] raises inside the [try], the
    handler runs, and the pass returns 01:30. *)
Theorem set_next_minute_found_minute_loses_hour :
  (self <- parse "30 * * * *  job" ;;
   set_next_minute self (at_minute 2024 3 1 0 0))
  = Ok (at_minute 2024 3 1 1 30) /\
  first_common_value (Py.range 0 MAX_MINUTE) [30] = Ok 30.
Proof. split; reflexivity. Qed.

(** C2 (defect of the code): for ["30 2 * * 0  weekly-backup"] and the
    reference Friday 2024-03-01 00:00, [next_run] returns Monday
    2024-03-04 02:30, not Sunday 2024-03-03 02:30. *)
Theorem next_run_weekly_backup_lands_on_monday (now : DT.datetime) :
  next_run_of_line "30 2 * * 0  weekly-backup" now
    (Some (at_minute 2024 3 1 0 0))
  = Ok (at_minute 2024 3 4 2 30).
Proof. reflexivity. Qed.

(** C3 (defect of the code): the day-of-week value 0 does not match a
    Sunday.  2024-03-03 is a Sunday ([weekday()] is 6); the job
    ["* * * * 0"] asked on that day is sent to Monday 2024-03-04, and asked
    on that Monday it stays there: the code counts Monday as 0. *)
Theorem dow_zero_matches_monday_not_sunday (now : DT.datetime) :
  DT.weekday (at_minute 2024 3 3 0 0) = 6 /\
  next_run_of_line "* * * * 0  job" now (Some (at_minute 2024 3 3 0 0))
  = Ok (at_minute 2024 3 4 0 0) /\
  next_run_of_line "* * * * 0  job" now (Some (at_minute 2024 3 4 0 0))
  = Ok (at_minute 2024 3 4 0 0).
Proof. repeat split; reflexivity. Qed.

(** C7 (defect of the code): the job ["0 0 * 2 *"] has five non-empty
    sets, yet for the reference 2024-01-30 00:00 [next_run] returns no
    instant: both [replace] calls of the month pass build February 30th. *)
Theorem next_run_february_raises (now : DT.datetime) :
  exists self,
    parse "0 0 * 2 *  job" = Ok self /\ all_sets_non_empty self /\
    next_run self now (Some (at_minute 2024 1 30 0 0)) = Err ValueError.
Proof.
  eexists. split; [reflexivity|]. split; [|reflexivity].
  repeat split; discriminate.
Qed.

(** C9 (defect of the code): with non-empty sets of legal values
    (["0 0 * 4 *"]) and the reference 2024-03-31 00:00, the month pass keeps
    day 31 while replacing the month by April; the first [ValueError] is
    caught, the handler repeats the mistake for April 2025, and that
    [ValueError] escapes. *)
Theorem next_run_day_31_into_april_raises (now : DT.datetime) :
  exists self,
    parse "0 0 * 4 *  job" = Ok self /\ all_sets_non_empty self /\
    DT.with_month (at_minute 2024 3 31 0 0) 4 = Err ValueError /\
    set_next_month self (at_minute 2024 3 31 0 0) = Err ValueError /\
    next_run self now (Some (at_minute 2024 3 31 0 0)) = Err ValueError.
Proof.
  eexists. split; [reflexivity|]. split; [|repeat split; reflexivity].
  repeat split; discriminate.
Qed.

(** C10 (defect of the code): for ["0 0 30 * *"] on 2023-01-31 no day of
    the set remains in January; the overflow branch adds 31 - 31 + 30 days
    and lands on March 2nd, the day-of-month candidate is selected, and the
    assertion [test_dom.day in self.cron_dom] fails. *)
Theorem set_next_day_overflow_assertion_fails :
  exists self,
    parse "0 0 30 * *  job" = Ok self /\ all_sets_non_empty self /\
    first_common_value (Py.range 31 MAX_DOM) (cron_dom self)
    = Err StopIteration /\
    test_dom self (at_minute 2023 1 31 0 0) = Ok (at_minute 2023 3 2 0 0) /\
    Py.mem 2 (cron_dom self) = false /\
    set_next_day self (at_minute 2023 1 31 0 0) = Err AssertionError.
Proof.
  eexists. split; [reflexivity|]. split; [|repeat split; reflexivity].
  repeat split; discriminate.
Qed.

End Departures.

(** * More on the field parser *)

Section Steps.

Lemma int_raises_ValueError (s : string) (e : exn) :
  Py.int s = Err e -> e = ValueError.
Proof.
  unfold Py.int.
  match goal with |- match ?o with _ => _ end = _ -> _ => destruct o end;
    intros H; inversion H; reflexivity.
Qed.

Lemma step_text_not_wildcard (s : string) :
  Py.str_in "*/" s = true -> String.eqb s "*" = false.
Proof.
  intros H. destruct (String.eqb s "*") eqn:E; [|reflexivity].
  apply String.eqb_eq in E. subst s. discriminate H.
Qed.

Lemma mod_step_back (k a : Z) : 0 < k -> (a - k) mod k = a mod k.
Proof.
  intros Hk. replace (a - k) with (a + (-1) * k) by lia.
  apply Z_mod_plus_full.
Qed.

(** The elements a stride takes from a range: those at a distance from the
    first taken one that the step divides. *)
Lemma In_stride_from_range (k : nat) (hi x : Z) :
  (1 <= k)%nat ->
  forall lo (i : nat),
    In x (Py.stride_from k i (Py.range lo hi)) <->
    lo + Z.of_nat i <= x < hi /\ (x - (lo + Z.of_nat i)) mod Z.of_nat k = 0.
Proof.
  intros Hk lo.
  apply (range_ind hi (fun lo l => forall i : nat,
    In x (Py.stride_from k i l) <->
    lo + Z.of_nat i <= x < hi /\ (x - (lo + Z.of_nat i)) mod Z.of_nat k = 0)).
  - intros a Ha i. simpl. split; [intros [] | lia].
  - intros a Ha IH i. destruct i as [|i']; cbn [Py.stride_from In].
    + rewrite (IH (k - 1)%nat).
      replace (a + 1 + Z.of_nat (k - 1)) with (a + Z.of_nat k) by lia.
      replace (a + Z.of_nat 0) with a by lia.
      replace (x - (a + Z.of_nat k)) with (x - a - Z.of_nat k) by lia.
      rewrite mod_step_back by lia.
      split.
      * intros [<-|[Hr Hm]].
        -- rewrite Z.sub_diag. split; [lia | apply Z.mod_0_l; lia].
        -- split; [lia | exact Hm].
      * intros [Hr Hm].
        destruct (Z.eq_dec a x) as [Heq|Hne]; [left; exact Heq | right].
        split; [|exact Hm].
        destruct (Z_lt_le_dec (x - a) (Z.of_nat k)) as [Hlt|Hge]; [|lia].
        rewrite Z.mod_small in Hm by lia. lia.
    + rewrite (IH i').
      replace (a + Z.of_nat (S i')) with (a + 1 + Z.of_nat i') by lia.
      reflexivity.
Qed.

Lemma stride_one (i : nat) (l : list Z) : Py.stride_from 1 0 l = l.
Proof.
  induction l as [|x r IH]; simpl; [reflexivity | rewrite IH; reflexivity].
Qed.

(** X1: a step [*/N] with [N > 0] resolves to the values [min], [min + N],
    [min + 2N], ... below [max], and to nothing else. *)
Theorem start_parse_step_stride
    (field_str : string) (lo hi n : Z) :
  Py.str_in "*/" field_str = true ->
  Py.int (Py.drop 2 field_str) = Ok n ->
  0 < n ->
  exists l,
    start_parse field_str lo hi = Ok l /\
    forall x, In x l <-> lo <= x < hi /\ (x - lo) mod n = 0.
Proof.
  intros Hstep Hint Hn. unfold start_parse.
  rewrite (step_text_not_wildcard _ Hstep), Hstep, Hint. cbn [bind].
  unfold Py.slice_step.
  replace (n =? 0) with false by (symmetry; apply Z.eqb_neq; lia).
  replace (0 <? n) with true by (symmetry; apply Z.ltb_lt; lia).
  cbn [bind]. eexists. split; [reflexivity|].
  intros x. rewrite In_sorted, In_stride_from_range by lia.
  rewrite Z2Nat.id by lia.
  replace (lo + Z.of_nat 0) with lo by lia. reflexivity.
Qed.

Lemma start_parse_step_stride_witness :
  exists l,
    start_parse "*/15" 0 60 = Ok l /\
    forall x, In x l <-> 0 <= x < 60 /\ (x - 0) mod 15 = 0.
Proof.
  apply (start_parse_step_stride "*/15" 0 60 15); reflexivity.
Defined.

(** X2: a step whose [N] is zero, or is no integer at all, makes the parse
    of the field raise [ValueError]. *)
Theorem start_parse_bad_step_raises (field_str : string) (lo hi : Z) :
  Py.str_in "*/" field_str = true ->
  (forall n, Py.int (Py.drop 2 field_str) = Ok n -> n = 0) ->
  start_parse field_str lo hi = Err ValueError.
Proof.
  intros Hstep Hbad. unfold start_parse.
  rewrite (step_text_not_wildcard _ Hstep), Hstep.
  destruct (Py.int (Py.drop 2 field_str)) as [n|e] eqn:E; cbn [bind].
  - rewrite (Hbad n eq_refl). reflexivity.
  - rewrite (int_raises_ValueError _ _ E). reflexivity.
Qed.

Lemma start_parse_bad_step_raises_witness :
  start_parse "*/0" 0 60 = Err ValueError /\
  start_parse "*/x" 0 60 = Err ValueError.
Proof.
  split.
  - apply start_parse_bad_step_raises; [reflexivity|].
    intros n H. inversion H. reflexivity.
  - apply start_parse_bad_step_raises; [reflexivity|].
    intros n H. discriminate H.
Defined.

(** X3: a step of one resolves to what the wildcard resolves to, every
    integer of [[min, max)] in ascending order. *)
Theorem start_parse_step_one_is_wildcard
    (field_str : string) (lo hi : Z) :
  Py.str_in "*/" field_str = true ->
  Py.int (Py.drop 2 field_str) = Ok 1 ->
  start_parse field_str lo hi = Ok (Py.range lo hi) /\
  start_parse "*" lo hi = Ok (Py.range lo hi).
Proof.
  intros Hstep Hint. unfold start_parse.
  rewrite (step_text_not_wildcard _ Hstep), Hstep, Hint.
  change (String.eqb "*" "*") with true. cbn [bind]. unfold Py.slice_step.
  change (1 =? 0) with false. change (0 <? 1) with true.
  cbn [bind]. change (Z.to_nat 1) with 1%nat.
  rewrite stride_one by exact 0%nat.
  rewrite sorted_id by apply Sorted_range. split; reflexivity.
Qed.

Lemma start_parse_step_one_is_wildcard_witness :
  start_parse "*/1" 1 13 = Ok (Py.range 1 13) /\
  start_parse "*" 1 13 = Ok (Py.range 1 13).
Proof.
  apply (start_parse_step_one_is_wildcard "*/1" 1 13); reflexivity.
Defined.

End Steps.

Section ExplicitValues.

Lemma start_parse_explicit (s : string) (lo hi : Z) :
  Py.contains "*" s = false ->
  start_parse s lo hi =
  (cron_list <- finish_parse s [] hi ;; Ok (Py.sorted cron_list)).
Proof.
  intros H. destruct (no_star_not_wildcard _ H) as [E1 E2].
  unfold start_parse. rewrite E1, E2. reflexivity.
Qed.

Lemma contains_split_piece (c d : ascii) (s p : string) :
  In p (Py.split c s) -> Py.contains d p = true -> Py.contains d s = true.
Proof.
  revert p. induction s as [|e r IH]; intros p H Hd; simpl in H.
  - destruct H as [<-|[]]. discriminate Hd.
  - cbn [Py.contains]. destruct (Ascii.eqb e d) eqn:Eed; [reflexivity|].
    destruct (Ascii.eqb e c).
    + destruct H as [<-|H]; [discriminate Hd | eapply IH; eassumption].
    + destruct (Py.split c r) as [|h t] eqn:Es.
      * destruct H as [<-|[]]. cbn [Py.contains] in Hd.
        rewrite Eed in Hd. discriminate Hd.
      * destruct H as [<-|H].
        -- cbn [Py.contains] in Hd. rewrite Eed in Hd.
           apply (IH h); [left; reflexivity | exact Hd].
        -- apply (IH p); [right; exact H | exact Hd].
Qed.

Lemma contains_sep_split (c : ascii) (s a b : string) (t : list string) :
  Py.split c s = a :: b :: t -> Py.contains c s = true.
Proof.
  intros H. destruct (Py.contains c s) eqn:E; [reflexivity|].
  rewrite (split_no_sep _ _ E) in H. discriminate H.
Qed.

(** A text whose first two pieces between dashes are integers resolves to
    the range between them. *)
Lemma start_parse_range_pieces
    (s A B : string) (rest : list string) (lo hi a b : Z) :
  Py.split "-" s = A :: B :: rest ->
  Py.contains "," s = false -> Py.contains "*" s = false ->
  Py.int A = Ok a -> Py.int B = Ok b ->
  start_parse s lo hi = Ok (Py.range a (b + 1)).
Proof.
  intros Hsplit Hcomma Hstar HA HB.
  rewrite start_parse_explicit by exact Hstar.
  unfold finish_parse, finish_parse_item.
  rewrite Hcomma, (contains_sep_split _ _ _ _ _ Hsplit), Hsplit.
  cbn [Py.index nth_error bind]. rewrite HA. cbn [bind]. rewrite HB.
  cbn [bind app]. rewrite sorted_id by apply Sorted_range. reflexivity.
Qed.

(** X4: a single token that is no integer is dropped without an error:
    the field resolves to the empty set. *)
Theorem start_parse_drops_rejected_token
    (field_str : string) (lo hi : Z) (e : exn) :
  Py.contains "*" field_str = false ->
  Py.contains "," field_str = false ->
  Py.contains "-" field_str = false ->
  Py.int field_str = Err e ->
  start_parse field_str lo hi = Ok [].
Proof.
  intros Hstar Hcomma Hdash Hint.
  rewrite start_parse_explicit by exact Hstar.
  unfold finish_parse, finish_parse_item.
  rewrite Hcomma, Hdash, Hint, (int_raises_ValueError _ _ Hint).
  reflexivity.
Qed.

Lemma start_parse_drops_rejected_token_witness :
  start_parse "mon" 0 7 = Ok [].
Proof.
  apply (start_parse_drops_rejected_token "mon" 0 7 ValueError);
    reflexivity.
Defined.

(** X5: a range whose bounds are reversed is no error: it resolves to the
    empty set. *)
Theorem start_parse_reversed_range_empty
    (A B : string) (lo hi a b : Z) :
  Py.int A = Ok a -> Py.int B = Ok b ->
  Py.contains "-" A = false -> Py.contains "-" B = false ->
  b < a ->
  start_parse (A ++ "-" ++ B) lo hi = Ok [].
Proof.
  intros HA HB HdA HdB Hlt.
  destruct (int_no_star_comma _ _ HA) as [HsA HcA].
  destruct (int_no_star_comma _ _ HB) as [HsB HcB].
  rewrite (start_parse_range_pieces _ A B [] lo hi a b); try assumption.
  - rewrite range_nil by lia. reflexivity.
  - change (A ++ "-" ++ B)%string with (A ++ String "-" B)%string.
    rewrite split_app_sep by exact HdA.
    rewrite split_no_sep by exact HdB. reflexivity.
  - rewrite !contains_app, HcA, HcB. reflexivity.
  - rewrite !contains_app, HsA, HsB. reflexivity.
Qed.

Lemma start_parse_reversed_range_empty_witness :
  start_parse "17-9" 0 24 = Ok [].
Proof.
  apply (start_parse_reversed_range_empty "17" "9" 0 24 17 9);
    (reflexivity || lia).
Defined.

(** X6: a range with a bound that is no integer raises [ValueError]: the
    token is not dropped as a lone malformed token is.  A leading minus
    sign is such a range, its first bound being empty. *)
Theorem start_parse_malformed_range_raises
    (A B : string) (lo hi : Z) :
  Py.contains "*" A = false -> Py.contains "," A = false ->
  Py.contains "*" B = false -> Py.contains "," B = false ->
  Py.contains "-" A = false -> Py.contains "-" B = false ->
  (forall a b, Py.int A = Ok a -> Py.int B = Ok b -> False) ->
  start_parse (A ++ "-" ++ B) lo hi = Err ValueError.
Proof.
  intros HsA HcA HsB HcB HdA HdB Hbad.
  rewrite start_parse_explicit
    by (rewrite !contains_app, HsA, HsB; reflexivity).
  unfold finish_parse, finish_parse_item.
  replace (Py.contains "," (A ++ "-" ++ B)) with false
    by (rewrite !contains_app, HcA, HcB; reflexivity).
  replace (Py.contains "-" (A ++ "-" ++ B)) with true
    by (rewrite !contains_app; simpl; rewrite orb_true_r; reflexivity).
  change (A ++ "-" ++ B)%string with (A ++ String "-" B)%string.
  rewrite split_app_sep by exact HdA.
  rewrite split_no_sep by exact HdB.
  cbn [Py.index nth_error bind].
  destruct (Py.int A) as [a|e] eqn:EA; cbn [bind].
  - destruct (Py.int B) as [b|e] eqn:EB; cbn [bind].
    + exfalso. apply (Hbad a b); reflexivity.
    + rewrite (int_raises_ValueError _ _ EB). reflexivity.
  - rewrite (int_raises_ValueError _ _ EA). reflexivity.
Qed.

Lemma start_parse_malformed_range_raises_witness :
  start_parse "-5" 0 60 = Err ValueError /\
  start_parse "1-x" 0 60 = Err ValueError.
Proof.
  split.
  - apply (start_parse_malformed_range_raises "" "5"); try reflexivity.
    intros a b H. discriminate H.
  - apply (start_parse_malformed_range_raises "1" "x"); try reflexivity.
    intros a b _ H. discriminate H.
Defined.

(** X7: what follows a second dash is ignored: [A-B-C] resolves to the
    range [A-B] whatever the text [C] is. *)
Theorem start_parse_second_dash_ignored
    (A B C : string) (lo hi a b : Z) :
  Py.int A = Ok a -> Py.int B = Ok b ->
  Py.contains "-" A = false -> Py.contains "-" B = false ->
  Py.contains "*" C = false -> Py.contains "," C = false ->
  start_parse (A ++ "-" ++ B ++ "-" ++ C) lo hi = Ok (Py.range a (b + 1)).
Proof.
  intros HA HB HdA HdB HsC HcC.
  destruct (int_no_star_comma _ _ HA) as [HsA HcA].
  destruct (int_no_star_comma _ _ HB) as [HsB HcB].
  apply (start_parse_range_pieces _ A B (Py.split "-" C)); try assumption.
  - change (A ++ "-" ++ B ++ "-" ++ C)%string
      with (A ++ String "-" (B ++ String "-" C))%string.
    rewrite split_app_sep by exact HdA.
    rewrite split_app_sep by exact HdB. reflexivity.
  - rewrite !contains_app, HcA, HcB, HcC. reflexivity.
  - rewrite !contains_app, HsA, HsB, HsC. reflexivity.
Qed.

Lemma start_parse_second_dash_ignored_witness :
  start_parse "1-3-junk" 0 60 = Ok [1; 2; 3].
Proof.
  apply (start_parse_second_dash_ignored "1" "3" "junk" 0 60 1 3);
    reflexivity.
Defined.

End ExplicitValues.

Section CommaLists.

Lemma finish_parse_item_acc (s : string) (acc : list Z) (mx : Z) :
  finish_parse_item s acc mx =
  match finish_parse_item s [] mx with
  | Ok l => Ok (acc ++ l)
  | Err e => Err e
  end.
Proof.
  unfold finish_parse_item.
  destruct (Py.contains "-" s).
  - destruct (Py.index (Py.split "-" s) 0) as [v0|]; cbn [bind];
      [|reflexivity].
    destruct (Py.int v0); cbn [bind]; [|reflexivity].
    destruct (Py.index (Py.split "-" s) 1) as [v1|]; cbn [bind];
      [|reflexivity].
    destruct (Py.int v1); cbn [bind]; reflexivity.
  - destruct (Py.int s) as [v|e].
    + reflexivity.
    + destruct e; try reflexivity. rewrite app_nil_r. reflexivity.
Qed.

Lemma finish_parse_each_In (pieces : list string) (mx : Z) (x : Z) :
  forall acc l,
    finish_parse_each pieces acc mx = Ok l ->
    (In x l <->
     In x acc \/
     exists p lp, In p pieces /\ finish_parse_item p [] mx = Ok lp /\
                  In x lp).
Proof.
  induction pieces as [|p rest IH]; intros acc l H; cbn in H.
  - inversion H; subst l. split; [left; assumption|].
    intros [Hx|[p [lp [[] _]]]]. exact Hx.
  - rewrite finish_parse_item_acc in H.
    destruct (finish_parse_item p [] mx) as [lp|] eqn:Ep; [|discriminate].
    cbn [bind] in H. rewrite (IH _ _ H), in_app_iff. split.
    + intros [[Hx|Hx]|[q [lq [Hq Hrest]]]].
      * left; exact Hx.
      * right. exists p, lp. split; [left; reflexivity|]. split; auto.
      * right. exists q, lq. split; [right; exact Hq | exact Hrest].
    + intros [Hx|[q [lq [[<-|Hq] [Eq Hx]]]]].
      * left; left; exact Hx.
      * left; right. congruence.
      * right. exists q, lq. repeat split; assumption.
Qed.

(** A piece of a comma list that holds no star is resolved in the list as
    it is on its own, up to the order. *)
Lemma piece_alone (p : string) (lo hi : Z) (x : Z) :
  Py.contains "*" p = false -> Py.contains "," p = false ->
  (exists lp, finish_parse_item p [] hi = Ok lp /\ In x lp) <->
  (exists lp, start_parse p lo hi = Ok lp /\ In x lp).
Proof.
  intros Hstar Hcomma.
  rewrite start_parse_explicit by exact Hstar.
  unfold finish_parse. rewrite Hcomma.
  destruct (finish_parse_item p [] hi) as [lp|e]; cbn [bind].
  - split; intros [l [Hl Hx]]; inversion Hl; subst l.
    + exists (Py.sorted lp). split; [reflexivity | apply In_sorted, Hx].
    + exists lp. split; [reflexivity | apply In_sorted, Hx].
  - split; intros [l [Hl _]]; discriminate Hl.
Qed.

(** X8: a comma list resolves to the union of its pieces, each resolved
    on its own against the same bounds. *)
Theorem start_parse_comma_union
    (field_str : string) (lo hi : Z) (l : list Z) :
  Py.contains "," field_str = true ->
  Py.contains "*" field_str = false ->
  start_parse field_str lo hi = Ok l ->
  forall x,
    In x l <->
    exists p lp, In p (Py.split "," field_str) /\
                 start_parse p lo hi = Ok lp /\ In x lp.
Proof.
  intros Hcomma Hstar H x.
  rewrite start_parse_explicit in H by exact Hstar.
  unfold finish_parse in H. rewrite Hcomma in H.
  destruct (finish_parse_each _ _ _) as [raw|] eqn:E; [|discriminate].
  cbn [bind] in H. inversion H; subst l.
  rewrite In_sorted, (finish_parse_each_In _ _ x _ _ E).
  assert (forall p, In p (Py.split "," field_str) ->
          Py.contains "*" p = false /\ Py.contains "," p = false) as Hp.
  { intros p Hin. split.
    - destruct (Py.contains "*" p) eqn:Ep; [|reflexivity].
      rewrite <- Hstar. symmetry.
      eapply contains_split_piece; eassumption.
    - eapply split_pieces_no_sep; exact Hin. }
  split.
  - intros [[]|[p [lp [Hin [Hlp Hx]]]]].
    destruct (Hp p Hin) as [Hs Hc].
    destruct (proj1 (piece_alone p lo hi x Hs Hc)) as [lq [Hq Hxq]].
    { exists lp. split; assumption. }
    exists p, lq. repeat split; assumption.
  - intros [p [lp [Hin [Hlp Hx]]]]. right.
    destruct (Hp p Hin) as [Hs Hc].
    destruct (proj2 (piece_alone p lo hi x Hs Hc)) as [lq [Hq Hxq]].
    { exists lp. split; assumption. }
    exists p, lq. repeat split; assumption.
Qed.

Lemma start_parse_comma_union_witness :
  start_parse "1,5,10-12" 1 13 = Ok [1; 5; 10; 11; 12] /\
  forall x,
    In x [1; 5; 10; 11; 12] <->
    exists p lp, In p ["1"; "5"; "10-12"] /\
                 start_parse p 1 13 = Ok lp /\ In x lp.
Proof.
  split; [reflexivity|].
  apply (start_parse_comma_union "1,5,10-12" 1 13 [1; 5; 10; 11; 12]);
    reflexivity.
Defined.

End CommaLists.

Section NoClamping.

Lemma split_two (c : ascii) (s : string) :
  Py.contains c s = true -> exists A B rest, Py.split c s = A :: B :: rest.
Proof.
  induction s as [|d r IH]; cbn [Py.contains Py.split]; [discriminate|].
  destruct (Ascii.eqb d c).
  - intros _. destruct (Py.split c r) as [|h t] eqn:E.
    + exfalso. eapply split_not_nil; exact E.
    + exists EmptyString, h, t. reflexivity.
  - intros H. destruct (IH H) as [A [B [rest ->]]].
    exists (String d A), B, rest. reflexivity.
Qed.

(** What one piece appends: the values it names. *)
Lemma finish_parse_item_In (p : string) (mx : Z) (lp : list Z) (x : Z) :
  finish_parse_item p [] mx = Ok lp -> (In x lp <-> names_value p x).
Proof.
  unfold finish_parse_item, names_value.
  destruct (Py.contains "-" p) eqn:Edash.
  - destruct (split_two _ _ Edash) as [A [B [rest Hsplit]]].
    rewrite Hsplit. cbn [Py.index nth_error bind].
    destruct (Py.int A) as [a|] eqn:EA; [|discriminate]. cbn [bind].
    destruct (Py.int B) as [b|] eqn:EB; [|discriminate]. cbn [bind app].
    intros H. inversion H; subst lp. rewrite In_range. split.
    + intros Hx. right. exists A, B, rest, a, b.
      repeat split; try assumption; lia.
    + intros [[Hno _]|[A' [B' [rest' [a' [b' [Hs [HA [HB Hx]]]]]]]]];
        [discriminate|].
      inversion Hs; subst A' B' rest'.
      rewrite EA in HA. rewrite EB in HB.
      inversion HA; inversion HB; subst. lia.
  - destruct (Py.int p) as [v|e] eqn:Ev.
    + intros H. inversion H; subst lp. cbn [app In]. split.
      * intros [<-|[]]. left. split; reflexivity.
      * intros [[_ Hx]|[A [B [rest [a [b [Hs _]]]]]]].
        -- inversion Hx. left; reflexivity.
        -- apply contains_sep_split in Hs. congruence.
    + destruct e; intros H; inversion H; subst lp. split; [intros []|].
      intros [[_ Hx]|[A [B [rest [a [b [Hs _]]]]]]]; [discriminate|].
      apply contains_sep_split in Hs. congruence.
Qed.

Lemma finish_parse_item_returns (p : string) (mx : Z) :
  range_bounds_are_integers p ->
  exists lp, finish_parse_item p [] mx = Ok lp.
Proof.
  unfold range_bounds_are_integers, finish_parse_item.
  destruct (Py.contains "-" p).
  - intros H. destruct (H eq_refl) as [A [B [rest [a [b [Hs [HA HB]]]]]]].
    rewrite Hs. cbn [Py.index nth_error bind]. rewrite HA. cbn [bind].
    rewrite HB. cbn [bind]. eexists. reflexivity.
  - intros _. destruct (Py.int p) as [v|e] eqn:E.
    + eexists. reflexivity.
    + rewrite (int_raises_ValueError _ _ E). eexists. reflexivity.
Qed.

Lemma finish_parse_each_returns (pieces : list string) (mx : Z) :
  (forall p, In p pieces -> range_bounds_are_integers p) ->
  forall acc, exists l, finish_parse_each pieces acc mx = Ok l.
Proof.
  induction pieces as [|p rest IH]; intros Hall acc; cbn [finish_parse_each].
  - exists acc. reflexivity.
  - rewrite finish_parse_item_acc.
    destruct (finish_parse_item_returns p mx (Hall p (or_introl eq_refl)))
      as [lp ->].
    cbn [bind]. apply IH. intros q Hq. apply Hall. right; exact Hq.
Qed.

Lemma finish_parse_each_pieces (pieces : list string) (mx : Z) :
  forall acc l,
    finish_parse_each pieces acc mx = Ok l ->
    forall p, In p pieces -> exists lp, finish_parse_item p [] mx = Ok lp.
Proof.
  induction pieces as [|q rest IH]; intros acc l H p Hp; [destruct Hp|].
  cbn [finish_parse_each] in H. rewrite finish_parse_item_acc in H.
  destruct (finish_parse_item q [] mx) as [lq|] eqn:Eq; [|discriminate].
  cbn [bind] in H. destruct Hp as [<-|Hp].
  - exists lq. exact Eq.
  - eapply IH; eassumption.
Qed.

Lemma finish_parse_any_max (cron_str : string) (acc : list Z) (mx mx' : Z) :
  finish_parse cron_str acc mx = finish_parse cron_str acc mx'.
Proof.
  unfold finish_parse. destruct (Py.contains "," cron_str); [|reflexivity].
  generalize (Py.split "," cron_str). intros pieces. revert acc.
  induction pieces as [|p rest IH]; intros acc; cbn [finish_parse_each].
  - reflexivity.
  - change (finish_parse_item p acc mx') with (finish_parse_item p acc mx).
    destruct (finish_parse_item p acc mx); cbn [bind];
      [apply IH | reflexivity].
Qed.

Lemma start_parse_else_branch (s : string) (lo hi : Z) :
  String.eqb s "*" = false -> Py.str_in "*/" s = false ->
  start_parse s lo hi =
  (cron_list <- finish_parse s [] hi ;; Ok (Py.sorted cron_list)).
Proof. intros E1 E2. unfold start_parse. rewrite E1, E2. reflexivity. Qed.

(** What an explicit text resolves to: the values its pieces name. *)
Lemma start_parse_explicit_In
    (field_str : string) (lo hi : Z) (l : list Z) (x : Z) :
  String.eqb field_str "*" = false -> Py.str_in "*/" field_str = false ->
  start_parse field_str lo hi = Ok l ->
  (In x l <->
   exists p, In p (Py.split "," field_str) /\ names_value p x).
Proof.
  intros E1 E2 H. rewrite start_parse_else_branch in H by assumption.
  destruct (finish_parse field_str [] hi) as [raw|] eqn:E; [|discriminate].
  cbn [bind] in H. inversion H; subst l. rewrite In_sorted.
  unfold finish_parse in E.
  destruct (Py.contains "," field_str) eqn:Ecomma.
  - rewrite (finish_parse_each_In _ _ x _ _ E). split.
    + intros [[]|[p [lp [Hp [Hlp Hx]]]]].
      exists p. split; [exact Hp|].
      apply (finish_parse_item_In _ _ _ _ Hlp), Hx.
    + intros [p [Hp Hx]]. right.
      destruct (finish_parse_each_pieces _ _ _ _ E p Hp) as [lp Hlp].
      exists p, lp. repeat split; try assumption.
      apply (finish_parse_item_In _ _ _ _ Hlp), Hx.
  - rewrite (split_no_sep _ _ Ecomma).
    rewrite (finish_parse_item_In _ _ _ x E). split.
    + intros Hx. exists field_str. split; [left; reflexivity | exact Hx].
    + intros [p [[<-|[]] Hx]]. exact Hx.
Qed.

Lemma start_parse_explicit_returns (field_str : string) (lo hi : Z) :
  String.eqb field_str "*" = false -> Py.str_in "*/" field_str = false ->
  (forall p, In p (Py.split "," field_str) ->
             range_bounds_are_integers p) ->
  exists l, start_parse field_str lo hi = Ok l.
Proof.
  intros E1 E2 Hall. rewrite start_parse_else_branch by assumption.
  unfold finish_parse.
  destruct (Py.contains "," field_str) eqn:Ecomma.
  - destruct (finish_parse_each_returns _ hi Hall []) as [raw ->].
    cbn [bind]. eexists. reflexivity.
  - rewrite (split_no_sep _ _ Ecomma) in Hall.
    destruct (finish_parse_item_returns field_str hi
                (Hall _ (or_introl eq_refl))) as [raw ->].
    cbn [bind]. eexists. reflexivity.
Qed.

(** What the loop over the pieces appends: what each piece appends, one
    after the other. *)
Lemma finish_parse_each_concat (pieces : list string) (mx : Z) :
  forall acc raw,
    finish_parse_each pieces acc mx = Ok raw ->
    exists ls,
      Forall2 (fun p lp => finish_parse_item p [] mx = Ok lp) pieces ls /\
      raw = acc ++ List.concat ls.
Proof.
  induction pieces as [|p rest IH]; intros acc raw H;
    cbn [finish_parse_each] in H.
  - inversion H. exists []. split; [constructor|].
    cbn. rewrite app_nil_r. reflexivity.
  - rewrite finish_parse_item_acc in H.
    destruct (finish_parse_item p [] mx) as [lp|] eqn:Ep; [|discriminate].
    cbn [bind] in H. destruct (IH _ _ H) as [ls [Hf ->]].
    exists (lp :: ls). split; [constructor; assumption|].
    cbn [List.concat]. rewrite app_assoc. reflexivity.
Qed.

(** C8: the field parser clamps nothing.  A plain integer is resolved to
    itself and a range [A-B] to every integer of [[A, B]], whatever [min]
    and [max] are.  The same holds of every piece of a comma list: a text
    that is neither the wildcard nor a step resolves, whenever the bounds
    of its ranges are integers, to exactly the values its pieces name, and
    to the same list under any other [min] and [max].  Only the wildcard
    and step expansions are bounded by [[min, max)]. *)
Theorem start_parse_no_clamping
    (field_str A B : string) (lo hi lo' hi' v a b : Z) :
  (Py.int field_str = Ok v -> Py.contains "-" field_str = false ->
   start_parse field_str lo hi = Ok [v]) /\
  (Py.int A = Ok a -> Py.int B = Ok b ->
   Py.contains "-" A = false -> Py.contains "-" B = false ->
   start_parse (A ++ "-" ++ B) lo hi = Ok (Py.range a (b + 1))) /\
  (String.eqb field_str "*" = false -> Py.str_in "*/" field_str = false ->
   ((forall p, In p (Py.split "," field_str) ->
               range_bounds_are_integers p) ->
    exists l, start_parse field_str lo hi = Ok l) /\
   (forall l,
      start_parse field_str lo hi = Ok l ->
      forall x,
        In x l <->
        exists p, In p (Py.split "," field_str) /\ names_value p x) /\
   start_parse field_str lo hi = start_parse field_str lo' hi') /\
  (forall l x,
     field_str = "*" \/ Py.str_in "*/" field_str = true ->
     start_parse field_str lo hi = Ok l -> In x l -> lo <= x < hi).
Proof.
  split; [|split; [|split]].
  - intros Hint Hdash.
    destruct (int_no_star_comma _ _ Hint) as [Hstar Hcomma].
    rewrite start_parse_explicit by exact Hstar.
    unfold finish_parse, finish_parse_item.
    rewrite Hcomma, Hdash, Hint. reflexivity.
  - intros HA HB HdA HdB.
    destruct (int_no_star_comma _ _ HA) as [HsA HcA].
    destruct (int_no_star_comma _ _ HB) as [HsB HcB].
    apply (start_parse_range_pieces _ A B []); try assumption.
    + change (A ++ "-" ++ B)%string with (A ++ String "-" B)%string.
      rewrite split_app_sep by exact HdA.
      rewrite split_no_sep by exact HdB. reflexivity.
    + rewrite !contains_app, HcA, HcB. reflexivity.
    + rewrite !contains_app, HsA, HsB. reflexivity.
  - intros E1 E2. split; [|split].
    + apply start_parse_explicit_returns; assumption.
    + intros l H x. eapply start_parse_explicit_In; eassumption.
    + rewrite (start_parse_else_branch field_str lo hi E1 E2).
      rewrite (start_parse_else_branch field_str lo' hi' E1 E2).
      rewrite (finish_parse_any_max field_str [] hi hi'). reflexivity.
  - intros l x Hform Hparse Hx.
    destruct (start_parse_expansion _ _ _ _ Hform Hparse) as [Hb _].
    apply Hb, Hx.
Qed.

(** The minute field ["70,99,5"] resolves to [[5; 70; 99]] between 0 and
    60, as between 0 and 10. *)
Lemma start_parse_no_clamping_witness :
  start_parse "99" 0 60 = Ok [99] /\
  start_parse "70-72" 0 60 = Ok [70; 71; 72] /\
  (exists l, start_parse "70,99,5" 0 60 = Ok l) /\
  (start_parse "70,99,5" 0 60 = Ok [5; 70; 99] /\
   forall x,
     In x [5; 70; 99] <->
     exists p, In p ["70"; "99"; "5"] /\ names_value p x) /\
  start_parse "70,99,5" 0 60 = start_parse "70,99,5" 0 10 /\
  (forall l x, start_parse "*/7" 0 60 = Ok l -> In x l -> 0 <= x < 60).
Proof.
  destruct (start_parse_no_clamping "99" "70" "72" 0 60 0 10 99 70 72)
    as [Hint [Hrange _]].
  destruct (start_parse_no_clamping "70,99,5" "70" "72" 0 60 0 10 99 70 72)
    as [_ [_ [Hlist _]]].
  destruct (start_parse_no_clamping "*/7" "70" "72" 0 60 0 10 99 70 72)
    as [_ [_ [_ Hstep]]].
  destruct (Hlist eq_refl eq_refl) as [Hret [Hin Hany]].
  split; [apply Hint; reflexivity|].
  split; [apply Hrange; reflexivity|].
  split.
  { apply Hret. intros p Hp Hdash.
    cbn in Hp. destruct Hp as [<-|[<-|[<-|[]]]]; discriminate Hdash. }
  split; [split; [reflexivity | apply (Hin [5; 70; 99]); reflexivity]|].
  split; [exact Hany|].
  intros l x. apply Hstep. right; reflexivity.
Defined.

(** C4 (amended): whatever the field parser resolves is sorted ascending.
    For the wildcard ["*"] and a step ["*/N"] every value lies in
    [[min, max)] and no value occurs twice.  Any other text resolves to the
    sorted concatenation of what its comma-separated pieces append, and no
    piece appends a value twice: so no value occurs twice in what a text
    without a comma resolves to (a plain integer, a single range), and a
    comma list keeps a value once for every piece that names it.  Explicit
    values are not bounded by [[min, max)]. *)
Theorem start_parse_sorted_bounded_distinct
    (field_str : string) (lo hi : Z) (l : list Z) :
  start_parse field_str lo hi = Ok l ->
  Sorted Z.le l /\
  (field_str = "*" \/ Py.str_in "*/" field_str = true ->
   (forall v, In v l -> lo <= v < hi) /\ NoDup l) /\
  (Py.contains "," field_str = false -> NoDup l) /\
  (String.eqb field_str "*" = false -> Py.str_in "*/" field_str = false ->
   exists ls,
     Forall2 (fun p lp => finish_parse_item p [] hi = Ok lp)
             (Py.split "," field_str) ls /\
     Forall (@NoDup Z) ls /\
     l = Py.sorted (List.concat ls)).
Proof.
  intros H. split; [|split; [|split]].
  - eapply start_parse_Sorted; exact H.
  - intros Hform. eapply start_parse_expansion; eassumption.
  - intros Hcomma. eapply start_parse_no_comma_NoDup; eassumption.
  - intros E1 E2. rewrite start_parse_else_branch in H by assumption.
    destruct (finish_parse field_str [] hi) as [raw|] eqn:E; [|discriminate].
    cbn [bind] in H. inversion H; subst l.
    assert (exists ls,
              Forall2 (fun p lp => finish_parse_item p [] hi = Ok lp)
                      (Py.split "," field_str) ls /\
              raw = List.concat ls) as [ls [Hf ->]].
    { unfold finish_parse in E.
      destruct (Py.contains "," field_str) eqn:Ecomma.
      - destruct (finish_parse_each_concat _ _ _ _ E) as [ls [Hf Hraw]].
        exists ls. split; assumption.
      - rewrite (split_no_sep _ _ Ecomma). exists [raw].
        split; [repeat constructor; exact E|].
        cbn. rewrite app_nil_r. reflexivity. }
    exists ls. split; [exact Hf|]. split; [|reflexivity].
    clear -Hf. induction Hf as [|p lp ps ls Hp _ IH]; constructor.
    + eapply finish_parse_item_NoDup; exact Hp.
    + exact IH.
Qed.

Lemma start_parse_sorted_bounded_distinct_witness :
  (start_parse "*/15" 0 60 = Ok [0; 15; 30; 45] /\
   Sorted Z.le [0; 15; 30; 45] /\
   (forall v, In v [0; 15; 30; 45] -> 0 <= v < 60) /\
   NoDup [0; 15; 30; 45]) /\
  (start_parse "70-72" 0 60 = Ok [70; 71; 72] /\
   Sorted Z.le [70; 71; 72] /\ NoDup [70; 71; 72]) /\
  (start_parse "1,5,4-6" 1 13 = Ok [1; 4; 5; 5; 6] /\
   exists ls,
     Forall2 (fun p lp => finish_parse_item p [] 13 = Ok lp)
             ["1"; "5"; "4-6"] ls /\
     Forall (@NoDup Z) ls /\
     [1; 4; 5; 5; 6] = Py.sorted (List.concat ls)).
Proof.
  split; [|split].
  - split; [reflexivity|].
    destruct (start_parse_sorted_bounded_distinct "*/15" 0 60
                [0; 15; 30; 45]) as [Hs [Hb _]]; [reflexivity|].
    split; [exact Hs|]. apply Hb. right; reflexivity.
  - split; [reflexivity|].
    destruct (start_parse_sorted_bounded_distinct "70-72" 0 60
                [70; 71; 72]) as [Hs [_ [Hd _]]]; [reflexivity|].
    split; [exact Hs|]. apply Hd. reflexivity.
  - split; [reflexivity|].
    destruct (start_parse_sorted_bounded_distinct "1,5,4-6" 1 13
                [1; 4; 5; 5; 6]) as [_ [_ [_ Hc]]]; [reflexivity|].
    apply Hc; reflexivity.
Defined.

End NoClamping.

Section Lines.

(** X9: a line with fewer than five fields cannot be parsed: reading the
    missing field raises [IndexError]. *)
Theorem parse_short_line_raises (raw : string) :
  (List.length (fields_of raw) < 5)%nat ->
  parse raw = Err IndexError.
Proof.
  unfold parse. fold (fields_of raw). cbv zeta.
  destruct (fields_of raw) as [|f0 [|f1 [|f2 [|f3 [|f4 r]]]]];
    cbn [List.length]; intros H; try reflexivity.
  lia.
Qed.

Lemma parse_short_line_raises_witness :
  parse "*/5 * * *" = Err IndexError /\
  parse "    " = Err IndexError.
Proof.
  split; apply parse_short_line_raises; vm_compute; lia.
Defined.

Lemma Sorted_first_least (l : list Z) (m x : Z) :
  Sorted Z.le l -> Py.index l 0 = Ok m -> In x l -> m <= x.
Proof.
  intros Hs Hm Hx. apply Sorted_StronglySorted in Hs.
  - destruct l as [|y r]; [discriminate|]. cbn in Hm. inversion Hm; subst y.
    inversion Hs as [|? ? _ Hall]; subst.
    destruct Hx as [<-|Hx]; [lia|].
    rewrite Forall_forall in Hall. apply Hall, Hx.
  - intros a b c. apply Z.le_trans.
Qed.

(** The sets of a job, with the bounds they were resolved against. *)
Lemma parse_sets (raw : string) (self : CronJob) :
  parse raw = Ok self ->
  start_parse (month self) MIN_MONTH MAX_MONTH = Ok (cron_months self) /\
  start_parse (minute self) MIN_MINUTE MAX_MINUTE = Ok (cron_minutes self) /\
  start_parse (hour self) MIN_HOUR MAX_HOUR = Ok (cron_hours self) /\
  start_parse (dom self) MIN_DOM MAX_DOM = Ok (cron_dom self) /\
  start_parse (dow self) MIN_DOW MAX_DOW = Ok (cron_dow self).
Proof.
  unfold parse. intros H. cbv zeta in H.
  repeat match type of H with
         | bind ?r _ = Ok _ =>
             let E := fresh "E" in
             destruct r eqn:E; cbn [bind] in H; [|discriminate]
         end.
  inversion H; subst self. cbn. repeat split; assumption.
Qed.

(** X10: in every parsed job each of the five sets is sorted ascending, so
    the element the wrap-around branches read at index 0 is the least of
    the set. *)
Theorem parse_sets_sorted (raw : string) (self : CronJob) :
  parse raw = Ok self ->
  forall set,
    In set [cron_months self; cron_minutes self; cron_hours self;
            cron_dom self; cron_dow self] ->
    Sorted Z.le set /\
    forall m x, Py.index set 0 = Ok m -> In x set -> m <= x.
Proof.
  intros H set Hin.
  destruct (parse_sets _ _ H) as [H1 [H2 [H3 [H4 H5]]]].
  assert (Sorted Z.le set) as Hs.
  { cbn in Hin.
    destruct Hin as [<-|[<-|[<-|[<-|[<-|[]]]]]];
      eapply start_parse_Sorted; eassumption. }
  split; [exact Hs|].
  intros m x. apply Sorted_first_least, Hs.
Qed.

Lemma parse_sets_sorted_witness :
  Sorted Z.le (cron_months noon_job) /\
  forall m x, Py.index (cron_months noon_job) 0 = Ok m ->
              In x (cron_months noon_job) -> m <= x.
Proof.
  apply (parse_sets_sorted "0 12 15 * 1  noon-job" noon_job);
    [reflexivity | left; reflexivity].
Defined.

(** X11: no value of a parsed job is negative: a minus sign in a field is
    always read as the dash of a range. *)
Theorem parse_no_negative_value (raw : string) (self : CronJob) :
  parse raw = Ok self ->
  forall set x,
    In set [cron_months self; cron_minutes self; cron_hours self;
            cron_dom self; cron_dow self] ->
    In x set -> 0 <= x.
Proof.
  intros H set x Hin Hx.
  destruct (parse_values_non_negative _ _ H) as [H1 [H2 [H3 [H4 H5]]]].
  rewrite Forall_forall in H1, H2, H3, H4, H5.
  cbn in Hin.
  destruct Hin as [<-|[<-|[<-|[<-|[<-|[]]]]]]; auto.
Qed.

Lemma parse_no_negative_value_witness :
  parse "0 12 15 * 1  noon-job" = Ok noon_job /\
  forall x, In x (cron_dom noon_job) -> 0 <= x.
Proof.
  split; [reflexivity|]. intros x.
  apply (parse_no_negative_value "0 12 15 * 1  noon-job" noon_job);
    [reflexivity | right; right; right; left; reflexivity].
Defined.

End Lines.

(** * More on the passes of the calculator *)

Section ForwardSearch.

Lemma mem_In (x : Z) (l : list Z) : Py.mem x l = true <-> In x l.
Proof.
  unfold Py.mem. rewrite existsb_exists. split.
  - intros [y [Hy E]]. apply Z.eqb_eq in E. subst y. exact Hy.
  - intros H. exists x. split; [exact H | apply Z.eqb_refl].
Qed.

(** The forward search over [[a, b)] finds the least member of the set in
    that interval... *)
Lemma first_common_value_least (a b h : Z) (set : list Z) :
  a <= h < b -> Py.mem h set = true ->
  (forall x, a <= x < h -> Py.mem x set = false) ->
  first_common_value (Py.range a b) set = Ok h.
Proof.
  intros [Hah Hhb] Hmem. revert a Hah.
  apply (range_ind b (fun a l =>
    a <= h -> (forall x, a <= x < h -> Py.mem x set = false) ->
    first_common_value l set = Ok h)).
  - intros a Hba Hah. lia.
  - intros a Hab IH Hah Hleast. unfold first_common_value. cbn [find].
    destruct (Z.eq_dec a h) as [->|Hne].
    + rewrite Hmem. reflexivity.
    + rewrite (Hleast a) by lia. apply IH; [lia|].
      intros x Hx. apply Hleast. lia.
Qed.

(** ... and raises when the interval holds no member. *)
Lemma first_common_value_none (a b : Z) (set : list Z) :
  (forall x, a <= x < b -> Py.mem x set = false) ->
  first_common_value (Py.range a b) set = Err StopIteration.
Proof.
  revert a.
  apply (range_ind b (fun a l =>
    (forall x, a <= x < b -> Py.mem x set = false) ->
    first_common_value l set = Err StopIteration)).
  - intros a _ _. reflexivity.
  - intros a Hab IH Hnone. unfold first_common_value. cbn [find].
    rewrite (Hnone a) by lia. apply IH. intros x Hx. apply Hnone. lia.
Qed.

Lemma valid_iff (d : DT.datetime) :
  DT.valid d = true <->
  (1 <= DT.year d <= 9999 /\ 1 <= DT.month d <= 12 /\
   1 <= DT.day d <= DT.days_in_month (DT.year d) (DT.month d) /\
   0 <= DT.hour d < 24 /\ 0 <= DT.minute d < 60 /\
   0 <= DT.second d < 60 /\ 0 <= DT.microsecond d < 1000000).
Proof.
  unfold DT.valid, DT.MINYEAR, DT.MAXYEAR.
  rewrite !andb_true_iff, !Z.leb_le, !Z.ltb_lt. intuition lia.
Qed.

Lemma checked_valid (d : DT.datetime) :
  DT.valid d = true -> DT.checked d = Ok d.
Proof. unfold DT.checked. intros ->. reflexivity. Qed.

Lemma checked_invalid (d : DT.datetime) :
  DT.valid d = false -> DT.checked d = Err ValueError.
Proof. unfold DT.checked. intros ->. reflexivity. Qed.

Lemma replaced_valid (vs : list Z) (d : DT.datetime) :
  Forall (fun v => -2147483648 <= v <= 2147483647) vs ->
  DT.valid d = true -> DT.replaced vs d = Ok d.
Proof.
  intros Hfit Hv. unfold DT.replaced.
  replace (forallb DT.fits_c_int vs) with true.
  - unfold DT.checked. rewrite Hv. reflexivity.
  - symmetry. apply forallb_forall. intros v Hin.
    rewrite Forall_forall in Hfit. specialize (Hfit v Hin).
    unfold DT.fits_c_int. apply andb_true_iff.
    split; apply Z.leb_le; lia.
Qed.

(** A value beyond a C [int] makes [replace] raise [OverflowError] before
    any field is validated. *)
Lemma replaced_overflow (vs : list Z) (d : DT.datetime) (v : Z) :
  In v vs -> v < -2147483648 \/ 2147483647 < v ->
  DT.replaced vs d = Err OverflowError.
Proof.
  intros Hin Hv. unfold DT.replaced.
  destruct (forallb DT.fits_c_int vs) eqn:E; [|reflexivity].
  rewrite forallb_forall in E. specialize (E v Hin).
  unfold DT.fits_c_int in E. apply andb_true_iff in E.
  rewrite !Z.leb_le in E. lia.
Qed.

End ForwardSearch.

Section PassOutcomes.

Variable self : CronJob.

(** X12: the minute pass has two outcomes only.  A reference whose minute
    is in the set is returned as it is; any other reference is moved one
    hour on and given the first minute of the set, also when the set has a
    later minute in the same hour. *)
Theorem set_next_minute_outcomes (start_dt : DT.datetime) :
  DT.valid start_dt = true ->
  (Py.mem (DT.minute start_dt) (cron_minutes self) = true ->
   set_next_minute self start_dt = Ok start_dt) /\
  (Py.mem (DT.minute start_dt) (cron_minutes self) = false ->
   set_next_minute self start_dt =
   (start_dt' <- DT.add_hour start_dt ;;
    m0 <- Py.index (cron_minutes self) 0 ;;
    DT.with_minute start_dt' m0)).
Proof.
  intros Hv. apply valid_iff in Hv. split.
  - intros Hmem. unfold set_next_minute.
    rewrite (first_common_value_least _ _ (DT.minute start_dt));
      [|unfold MAX_MINUTE; lia | exact Hmem | intros x Hx; lia].
    cbn [bind]. rewrite Z.eqb_refl. reflexivity.
  - apply set_next_minute_keeps_or_wraps.
Qed.

(** X13: the hour pass, when the hour set has a member in the rest of the
    day, returns the same day at the least such hour (the reference itself
    when its own hour is a member); when it has none, it moves one day on
    and takes the first hour of the set. *)
Theorem set_next_hour_outcomes (start_dt : DT.datetime) (h : Z) :
  DT.valid start_dt = true ->
  (DT.hour start_dt <= h < 24 ->
   Py.mem h (cron_hours self) = true ->
   (forall x, DT.hour start_dt <= x < h ->
              Py.mem x (cron_hours self) = false) ->
   set_next_hour self start_dt =
   Ok (DT.mk (DT.year start_dt) (DT.month start_dt) (DT.day start_dt) h
         (DT.minute start_dt) (DT.second start_dt)
         (DT.microsecond start_dt))) /\
  ((forall x, DT.hour start_dt <= x < 24 ->
              Py.mem x (cron_hours self) = false) ->
   set_next_hour self start_dt =
   (start_dt' <- DT.add_days start_dt 1 ;;
    h0 <- Py.index (cron_hours self) 0 ;;
    DT.with_hour start_dt' h0)).
Proof.
  intros Hv. split.
  - intros Hh Hmem Hleast. unfold set_next_hour.
    rewrite (first_common_value_least _ _ h) by assumption.
    cbn [bind]. destruct (h =? DT.hour start_dt) eqn:E; cbn [negb].
    + apply Z.eqb_eq in E. subst h. destruct start_dt; reflexivity.
    + unfold DT.with_hour. apply valid_iff in Hv.
      rewrite replaced_valid; [reflexivity | |].
      * unfold MAX_DOM in *. repeat (constructor; try lia).
      * apply valid_iff. cbn. intuition lia.
  - intros Hnone. unfold set_next_hour.
    rewrite first_common_value_none by exact Hnone. reflexivity.
Qed.

(** X14: the day-of-month candidate, when the set has a member between
    the reference's day and the end of its month, is the same month at the
    least such day, and that day passes the assertion of the day pass. *)
Theorem test_dom_within_month (start_dt : DT.datetime) (m : Z) :
  DT.valid start_dt = true ->
  DT.day start_dt <= m <=
    DT.days_in_month (DT.year start_dt) (DT.month start_dt) ->
  Py.mem m (cron_dom self) = true ->
  (forall x, DT.day start_dt <= x < m -> Py.mem x (cron_dom self) = false) ->
  exists t,
    test_dom self start_dt = Ok t /\
    t = DT.mk (DT.year start_dt) (DT.month start_dt) m (DT.hour start_dt)
          (DT.minute start_dt) (DT.second start_dt)
          (DT.microsecond start_dt) /\
    Py.mem (DT.day t) (cron_dom self) = true.
Proof.
  intros Hv Hm Hmem Hleast. eexists. split; [|split; [reflexivity|]].
  - unfold test_dom.
    assert (m < MAX_DOM) as Hmax.
    { unfold MAX_DOM, DT.days_in_month in *.
      repeat match goal with
             | H : context [if ?c then _ else _] |- _ => destruct c
             end; lia. }
    rewrite (first_common_value_least _ _ m); [|lia | exact Hmem | exact Hleast].
    cbn [bind]. destruct (m =? DT.day start_dt) eqn:E; cbn [negb try_except].
    + apply Z.eqb_eq in E. subst m. destruct start_dt; reflexivity.
    + unfold DT.with_day. apply valid_iff in Hv.
      rewrite replaced_valid; [reflexivity | |].
      * unfold MAX_DOM in *. repeat (constructor; try lia).
      * apply valid_iff. cbn. intuition lia.
  - exact Hmem.
Qed.

End PassOutcomes.

Lemma set_next_minute_outcomes_witness :
  set_next_minute noon_job (at_minute 2024 5 10 9 0)
  = Ok (at_minute 2024 5 10 9 0) /\
  set_next_minute noon_job (at_minute 2024 5 10 9 1)
  = Ok (at_minute 2024 5 10 10 0).
Proof.
  split.
  - apply (set_next_minute_outcomes noon_job (at_minute 2024 5 10 9 0));
      reflexivity.
  - destruct (set_next_minute_outcomes noon_job (at_minute 2024 5 10 9 1)
              eq_refl)
      as [_ H].
    rewrite H; reflexivity.
Defined.

Lemma set_next_hour_outcomes_witness :
  set_next_hour noon_job (at_minute 2024 5 10 9 0)
  = Ok (at_minute 2024 5 10 12 0) /\
  set_next_hour noon_job (at_minute 2024 5 10 13 0)
  = Ok (at_minute 2024 5 11 12 0).
Proof.
  destruct (set_next_hour_outcomes noon_job (at_minute 2024 5 10 9 0) 12
              eq_refl)
    as [H1 _].
  destruct (set_next_hour_outcomes noon_job (at_minute 2024 5 10 13 0) 12
              eq_refl)
    as [_ H2].
  split.
  - apply H1; [cbn; lia | reflexivity|].
    intros x Hx. cbn in Hx.
    assert (x = 9 \/ x = 10 \/ x = 11) as [->|[->| ->]] by lia;
      reflexivity.
  - rewrite H2; [reflexivity|].
    intros x Hx. cbn in Hx. cbn.
    destruct (Z.eqb_spec x 12); [lia | reflexivity].
Defined.

Lemma test_dom_within_month_witness :
  exists t,
    test_dom noon_job (at_minute 2024 5 10 12 0) = Ok t /\
    t = at_minute 2024 5 15 12 0 /\
    Py.mem (DT.day t) (cron_dom noon_job) = true.
Proof.
  apply (test_dom_within_month noon_job (at_minute 2024 5 10 12 0) 15).
  - reflexivity.
  - cbn. lia.
  - reflexivity.
  - intros x Hx. cbn in Hx. cbn.
    destruct (Z.eqb_spec x 15); [lia | reflexivity].
Defined.

Section MonthPass.

Variable self : CronJob.

(** X15: the month pass keeps the day of the month.  When the month set
    has a member in the rest of the year it returns the least such month of
    the same year, and when it has none it returns the first month of the
    set in the following year; both provided the kept day exists in the
    month it lands on. *)
Theorem set_next_month_outcomes (start_dt : DT.datetime) (m : Z) :
  DT.valid start_dt = true ->
  (DT.month start_dt <= m < 13 ->
   Py.mem m (cron_months self) = true ->
   (forall x, DT.month start_dt <= x < m ->
              Py.mem x (cron_months self) = false) ->
   DT.day start_dt <= DT.days_in_month (DT.year start_dt) m ->
   set_next_month self start_dt =
   Ok (DT.mk (DT.year start_dt) m (DT.day start_dt) (DT.hour start_dt)
         (DT.minute start_dt) (DT.second start_dt)
         (DT.microsecond start_dt))) /\
  ((forall x, DT.month start_dt <= x < 13 ->
              Py.mem x (cron_months self) = false) ->
   Py.index (cron_months self) 0 = Ok m ->
   1 <= m <= 12 -> DT.year start_dt < 9999 ->
   DT.day start_dt <= DT.days_in_month (DT.year start_dt + 1) m ->
   set_next_month self start_dt =
   Ok (DT.mk (DT.year start_dt + 1) m (DT.day start_dt) (DT.hour start_dt)
         (DT.minute start_dt) (DT.second start_dt)
         (DT.microsecond start_dt))).
Proof.
  intros Hv. split.
  - intros Hm Hmem Hleast Hday. unfold set_next_month.
    rewrite (first_common_value_least _ _ m) by assumption.
    cbn [bind]. destruct (m =? DT.month start_dt) eqn:E; cbn [negb].
    + apply Z.eqb_eq in E. subst m. destruct start_dt; reflexivity.
    + unfold DT.with_month. apply valid_iff in Hv.
      rewrite replaced_valid; [reflexivity | |].
      * unfold MAX_DOM in *. repeat (constructor; try lia).
      * apply valid_iff. cbn. intuition lia.
  - intros Hnone Hfirst Hm Hyear Hday. unfold set_next_month.
    rewrite first_common_value_none by exact Hnone.
    cbn [try_except]. rewrite Hfirst. cbn [bind].
    unfold DT.with_year_month. apply valid_iff in Hv.
    rewrite replaced_valid; [reflexivity | |].
    * unfold MAX_DOM in *. repeat (constructor; try lia).
    * apply valid_iff. cbn. intuition lia.
Qed.

End MonthPass.

(** A job of December only, asked on 2024-12-20, stays there; a job of
    February only is sent to February of the next year. *)
Lemma set_next_month_outcomes_witness :
  set_next_month (mkCronJob "" "*" "*" "*" "12" "*" "" [12] [] [] [] [])
    (at_minute 2024 12 20 0 0) = Ok (at_minute 2024 12 20 0 0) /\
  set_next_month (mkCronJob "" "*" "*" "*" "2" "*" "" [2] [] [] [] [])
    (at_minute 2024 12 20 0 0) = Ok (at_minute 2025 2 20 0 0).
Proof.
  split.
  - refine (proj1 (set_next_month_outcomes _ (at_minute 2024 12 20 0 0) 12
                     eq_refl) _ _ _ _).
    + cbn; lia.
    + reflexivity.
    + intros x Hx. cbn in Hx. lia.
    + cbn. lia.
  - refine (proj2 (set_next_month_outcomes _ (at_minute 2024 12 20 0 0) 2
                     eq_refl) _ _ _ _ _).
    + intros x Hx. cbn in Hx.
      assert (x = 12) as -> by lia. reflexivity.
    + reflexivity.
    + lia.
    + cbn. lia.
    + cbn. lia.
Defined.

Section FieldsOfResult.

Variable self : CronJob.

Lemma prev_day_time (d d' : DT.datetime) :
  DT.prev_day d = Some d' -> time_key d' = time_key d.
Proof.
  unfold DT.prev_day.
  destruct (1 <? DT.day d); [intros H; inversion H; reflexivity|].
  destruct (1 <? DT.month d); [intros H; inversion H; reflexivity|].
  destruct (DT.MINYEAR <? DT.year d); intros H; inversion H; reflexivity.
Qed.

Lemma iterate_time (step : DT.datetime -> option DT.datetime) (n : nat) :
  (forall d d', step d = Some d' -> time_key d' = time_key d) ->
  forall d d', DT.iterate step n d = Some d' -> time_key d' = time_key d.
Proof.
  intros Hstep. induction n as [|n IH]; intros d d'; cbn [DT.iterate].
  - intros H. inversion H. reflexivity.
  - destruct (step d) as [d1|] eqn:E; [|discriminate].
    intros H. rewrite (IH _ _ H). apply Hstep, E.
Qed.

(** Adding days changes the date only. *)
Lemma add_days_time (d d' : DT.datetime) (n : Z) :
  DT.add_days d n = Ok d' -> time_key d' = time_key d.
Proof.
  unfold DT.add_days.
  destruct (999999999 <? Z.abs n); [discriminate|].
  destruct (0 <=? n).
  - destruct (DT.iterate DT.next_day _ d) as [x|] eqn:E; [|discriminate].
    intros H. inversion H; subst x.
    eapply iterate_time; [|exact E].
    intros a b Hab. apply (next_day_later _ _ Hab).
  - destruct (DT.iterate DT.prev_day _ d) as [x|] eqn:E; [|discriminate].
    intros H. inversion H; subst x.
    eapply iterate_time; [|exact E]. apply prev_day_time.
Qed.

Lemma set_next_minute_in_set (d d' : DT.datetime) :
  set_next_minute self d = Ok d' ->
  Py.mem (DT.minute d') (cron_minutes self) = true /\
  DT.second d' = DT.second d /\ DT.microsecond d' = DT.microsecond d.
Proof.
  intros H. unfold set_next_minute in H.
  apply try_except_ok in H. destruct H as [H|H].
  - destruct (first_common_value _ _) as [m|] eqn:Em; [|discriminate].
    cbn [bind] in H. apply first_common_value_ok in Em.
    destruct (m =? DT.minute d) eqn:E; cbn [negb] in H; [|discriminate].
    apply Z.eqb_eq in E. inversion H; subst d' m.
    split; [apply Em | split; reflexivity].
  - destruct (DT.add_hour d) as [d1|] eqn:E1; [|discriminate].
    cbn [bind] in H.
    destruct (Py.index (cron_minutes self) 0) as [m0|] eqn:E0;
      [|discriminate].
    cbn [bind] in H. apply replaced_ok in H. destruct H as [-> _]. cbn.
    split; [apply mem_In, index_first, E0|].
    unfold DT.add_hour in E1.
    destruct (DT.hour d <? 23).
    + inversion E1; subst d1. split; reflexivity.
    + destruct (DT.next_day d); [|discriminate].
      inversion E1; subst d1. split; reflexivity.
Qed.

Lemma set_next_hour_in_set (d d' : DT.datetime) :
  set_next_hour self d = Ok d' ->
  Py.mem (DT.hour d') (cron_hours self) = true /\
  DT.minute d' = DT.minute d /\
  DT.second d' = DT.second d /\ DT.microsecond d' = DT.microsecond d.
Proof.
  intros H. unfold set_next_hour in H.
  apply try_except_ok in H. destruct H as [H|H].
  - destruct (first_common_value _ _) as [m|] eqn:Em; [|discriminate].
    cbn [bind] in H. apply first_common_value_ok in Em.
    destruct (m =? DT.hour d) eqn:E; cbn [negb] in H.
    + apply Z.eqb_eq in E. inversion H; subst d' m.
      split; [apply Em | repeat split; reflexivity].
    + apply replaced_ok in H. destruct H as [-> _]. cbn.
      split; [apply Em | repeat split; reflexivity].
  - destruct (DT.add_days d 1) as [d1|] eqn:E1; [|discriminate].
    cbn [bind] in H.
    destruct (Py.index (cron_hours self) 0) as [h0|] eqn:E0; [|discriminate].
    cbn [bind] in H. apply replaced_ok in H. destruct H as [-> _]. cbn.
    split; [apply mem_In, index_first, E0|].
    apply add_days_time in E1. unfold time_key in E1.
    inversion E1. repeat split; reflexivity.
Qed.

Lemma test_dom_time (d t : DT.datetime) :
  test_dom self d = Ok t -> time_key t = time_key d.
Proof.
  intros H. unfold test_dom in H.
  apply try_except_ok in H. destruct H as [H|H].
  - destruct (first_common_value _ _) as [m|]; [|discriminate].
    cbn [bind] in H.
    destruct (negb (m =? DT.day d)).
    + apply replaced_ok in H. destruct H as [-> _]. reflexivity.
    + inversion H. reflexivity.
  - cbv zeta in H.
    destruct (Py.index (cron_dom self) 0); [|discriminate].
    cbn [bind] in H. eapply add_days_time; exact H.
Qed.

Lemma test_dow_time (d t : DT.datetime) :
  test_dow self d = Ok t -> time_key t = time_key d.
Proof.
  intros H. unfold test_dow in H.
  apply try_except_ok in H. destruct H as [H|H].
  - destruct (first_common_value _ _) as [m|]; [|discriminate].
    cbn [bind] in H. cbv zeta in H.
    destruct (m - DT.weekday d >? 0).
    + eapply add_days_time; exact H.
    + inversion H. reflexivity.
  - destruct (Py.index (cron_dow self) 0); [|discriminate].
    cbn [bind] in H. eapply add_days_time; exact H.
Qed.

Lemma set_next_day_time (d d' : DT.datetime) :
  set_next_day self d = Ok d' -> time_key d' = time_key d.
Proof.
  intros H. unfold set_next_day in H.
  destruct (test_dom self d) as [t1|] eqn:E1; [|discriminate].
  cbn [bind] in H.
  destruct (test_dow self d) as [t2|] eqn:E2; [|discriminate].
  cbn [bind] in H.
  destruct (use_dom self t1 t2); destruct (assert _); try discriminate;
    inversion H; subst d'.
  - eapply test_dom_time; exact E1.
  - eapply test_dow_time; exact E2.
Qed.

Lemma set_next_month_in_set (d d' : DT.datetime) :
  set_next_month self d = Ok d' ->
  Py.mem (DT.month d') (cron_months self) = true /\
  time_key d' = time_key d.
Proof.
  intros H. unfold set_next_month in H.
  apply try_except_ok in H. destruct H as [H|H].
  - destruct (first_common_value _ _) as [m|] eqn:Em; [|discriminate].
    cbn [bind] in H. apply first_common_value_ok in Em.
    destruct (m =? DT.month d) eqn:E; cbn [negb] in H.
    + apply Z.eqb_eq in E. inversion H; subst d' m.
      split; [apply Em | reflexivity].
    + apply replaced_ok in H. destruct H as [-> _]. cbn.
      split; [apply Em | reflexivity].
  - destruct (Py.index (cron_months self) 0) as [m0|] eqn:E0;
      [|discriminate].
    cbn [bind] in H. apply replaced_ok in H. destruct H as [-> _]. cbn.
    split; [apply mem_In, index_first, E0 | reflexivity].
Qed.

(** X16: an instant [next_run] returns is a whole minute whose minute,
    hour and month are members of the job's minute, hour and month sets. *)
Theorem next_run_fields_in_sets
    (now : DT.datetime) (start_dt : option DT.datetime) (r : DT.datetime) :
  next_run self now start_dt = Ok r ->
  Py.mem (DT.minute r) (cron_minutes self) = true /\
  Py.mem (DT.hour r) (cron_hours self) = true /\
  Py.mem (DT.month r) (cron_months self) = true /\
  DT.second r = 0 /\ DT.microsecond r = 0.
Proof.
  unfold next_run, create_date, DT.make.
  match goal with
  | |- bind (DT.checked ?x) _ = _ -> _ =>
      destruct (DT.checked x) as [d0|] eqn:E0; [|discriminate]
  end.
  apply checked_ok in E0. destruct E0 as [-> _]. cbn [bind].
  match goal with
  | |- bind (set_next_minute self ?x) _ = _ -> _ =>
      destruct (set_next_minute self x) as [d1|] eqn:E1; [|discriminate]
  end.
  cbn [bind].
  destruct (set_next_hour self d1) as [d2|] eqn:E2; [|discriminate].
  cbn [bind].
  destruct (set_next_day self d2) as [d3|] eqn:E3; [|discriminate].
  cbn [bind]. intros E4.
  apply set_next_minute_in_set in E1. cbn in E1.
  destruct E1 as [M1 [S1 U1]].
  apply set_next_hour_in_set in E2. destruct E2 as [M2 [K2 [S2 U2]]].
  apply set_next_day_time in E3. unfold time_key in E3.
  apply set_next_month_in_set in E4. destruct E4 as [M4 K4].
  unfold time_key in K4. inversion E3. inversion K4.
  repeat split; congruence.
Qed.

End FieldsOfResult.

Lemma next_run_fields_in_sets_witness :
  Py.mem (DT.minute (at_minute 2024 5 14 12 0)) (cron_minutes noon_job)
  = true /\
  Py.mem (DT.hour (at_minute 2024 5 14 12 0)) (cron_hours noon_job) = true /\
  Py.mem (DT.month (at_minute 2024 5 14 12 0)) (cron_months noon_job)
  = true /\
  DT.second (at_minute 2024 5 14 12 0) = 0 /\
  DT.microsecond (at_minute 2024 5 14 12 0) = 0.
Proof.
  apply (next_run_fields_in_sets noon_job (at_minute 2024 1 1 0 0)
           (Some (DT.mk 2024 5 10 9 41 27 500))).
  reflexivity.
Defined.

(** X17: an instant [next_run] returns for a parsed job is not before the
    reference cut to the minute; the reference is the clock's reading when
    none is given. *)
Theorem next_run_never_before_reference
    (raw : string) (self : CronJob)
    (now : DT.datetime) (start_dt : option DT.datetime) (r : DT.datetime) :
  parse raw = Ok self ->
  next_run self now start_dt = Ok r ->
  DT.le (truncate (match start_dt with Some d => d | None => now end)) r
  = true.
Proof.
  intros Hparse Hrun.
  apply parse_values_non_negative in Hparse.
  destruct start_dt as [d|].
  - apply (next_run_not_before_reference self now d r Hparse), Hrun.
  - destruct (next_run_not_before_reference self now now r Hparse)
      as [Hle Hnone].
    apply Hle. rewrite <- Hnone. exact Hrun.
Qed.

Lemma next_run_never_before_reference_witness :
  DT.le (truncate (DT.mk 2024 5 10 9 41 27 500)) (at_minute 2024 5 14 12 0)
  = true.
Proof.
  apply (next_run_never_before_reference "0 12 15 * 1  noon-job" noon_job
           (at_minute 2024 1 1 0 0) (Some (DT.mk 2024 5 10 9 41 27 500)));
    reflexivity.
Defined.

(** * The weekday of the day-of-week candidate *)

Section Ordinals.

Lemma range_snoc (lo hi : Z) :
  lo <= hi -> Py.range lo (hi + 1) = Py.range lo hi ++ [hi].
Proof.
  intros H. unfold Py.range.
  replace (Z.to_nat (hi + 1 - lo)) with (S (Z.to_nat (hi - lo))) by lia.
  rewrite seq_S, map_app. cbn [map]. do 2 f_equal. lia.
Qed.

Lemma sum_snoc (l : list Z) (x : Z) :
  fold_right Z.add 0 (l ++ [x]) = fold_right Z.add 0 l + x.
Proof.
  induction l as [|y r IH]; cbn [app fold_right]; [lia | rewrite IH; lia].
Qed.

Lemma days_before_month_succ (y m : Z) :
  1 <= m ->
  DT.days_before_month y (m + 1) =
  DT.days_before_month y m + DT.days_in_month y m.
Proof.
  intros H. unfold DT.days_before_month.
  rewrite range_snoc by exact H. rewrite map_app. cbn [map].
  apply sum_snoc.
Qed.

Lemma days_in_month_bounds (y m : Z) : 28 <= DT.days_in_month y m <= 31.
Proof.
  unfold DT.days_in_month.
  repeat match goal with
         | |- context [if ?c then _ else _] => destruct c
         end; lia.
Qed.

Lemma leap_days (y : Z) :
  y / 4 - y / 100 + y / 400 -
  ((y - 1) / 4 - (y - 1) / 100 + (y - 1) / 400) =
  if DT.is_leap y then 1 else 0.
Proof.
  unfold DT.is_leap.
  destruct (Z.eqb_spec (y mod 4) 0) as [H4|H4];
    destruct (Z.eqb_spec (y mod 100) 0) as [H100|H100];
    destruct (Z.eqb_spec (y mod 400) 0) as [H400|H400];
    cbn [negb andb orb];
    Z.to_euclidean_division_equations; lia.
Qed.

Lemma days_before_year_succ (y : Z) :
  DT.days_before_year (y + 1) =
  DT.days_before_year y + 365 + (if DT.is_leap y then 1 else 0).
Proof.
  unfold DT.days_before_year. cbv zeta.
  replace (y + 1 - 1) with y by lia.
  pose proof (leap_days y) as H. lia.
Qed.

Lemma days_in_year (y : Z) :
  DT.days_before_month y 12 + 31 = 365 + (if DT.is_leap y then 1 else 0).
Proof.
  unfold DT.days_before_month.
  change (Py.range 1 12) with [1; 2; 3; 4; 5; 6; 7; 8; 9; 10; 11].
  cbn [map fold_right]. unfold DT.days_in_month.
  cbn [Z.eqb Pos.eqb orb]. destruct (DT.is_leap y); reflexivity.
Qed.

(** The day after a date has the next ordinal. *)
Lemma next_day_ordinal (d d' : DT.datetime) :
  DT.valid d = true -> DT.next_day d = Some d' ->
  DT.toordinal d' = DT.toordinal d + 1 /\ DT.valid d' = true.
Proof.
  intros Hv. pose proof Hv as Hv'. apply valid_iff in Hv'.
  unfold DT.next_day, DT.toordinal.
  destruct (DT.day d <? DT.days_in_month (DT.year d) (DT.month d)) eqn:E1.
  - apply Z.ltb_lt in E1. intros H. inversion H; subst d'. cbn.
    split; [lia|]. apply valid_iff. cbn. intuition lia.
  - apply Z.ltb_ge in E1.
    destruct (DT.month d <? 12) eqn:E2.
    + apply Z.ltb_lt in E2. intros H. inversion H; subst d'. cbn.
      rewrite days_before_month_succ by lia. split; [lia|].
      apply valid_iff. cbn.
      pose proof (days_in_month_bounds (DT.year d) (DT.month d + 1)).
      intuition lia.
    + apply Z.ltb_ge in E2.
      destruct (DT.year d <? DT.MAXYEAR) eqn:E3; [|discriminate].
      apply Z.ltb_lt in E3. unfold DT.MAXYEAR in E3.
      intros H. inversion H; subst d'. cbn.
      assert (DT.month d = 12) as Hm by lia.
      rewrite Hm in *. change (DT.days_in_month (DT.year d) 12) with 31 in *.
      rewrite days_before_year_succ.
      pose proof (days_in_year (DT.year d)) as Hy.
      change (DT.days_before_month (DT.year d + 1) 1) with 0.
      split; [lia|]. apply valid_iff. cbn.
      change (DT.days_in_month (DT.year d + 1) 1) with 31. intuition lia.
Qed.

Lemma iterate_next_day_ordinal (n : nat) (d d' : DT.datetime) :
  DT.valid d = true -> DT.iterate DT.next_day n d = Some d' ->
  DT.toordinal d' = DT.toordinal d + Z.of_nat n /\ DT.valid d' = true.
Proof.
  revert d. induction n as [|n IH]; intros d Hv; cbn [DT.iterate].
  - intros H. inversion H; subst d'. split; [lia | exact Hv].
  - destruct (DT.next_day d) as [d1|] eqn:E; [|discriminate].
    intros H. destruct (next_day_ordinal _ _ Hv E) as [Ho Hv1].
    destruct (IH _ Hv1 H) as [Ho' Hv']. split; [lia | exact Hv'].
Qed.

(** [n] days later the weekday has moved on by [n], modulo 7. *)
Lemma add_days_weekday (d d' : DT.datetime) (n : Z) :
  DT.valid d = true -> 0 <= n -> DT.add_days d n = Ok d' ->
  DT.weekday d' = (DT.weekday d + n) mod 7.
Proof.
  intros Hv Hn. unfold DT.add_days.
  destruct (999999999 <? Z.abs n); [discriminate|].
  replace (0 <=? n) with true by (symmetry; apply Z.leb_le; exact Hn).
  destruct (DT.iterate DT.next_day (Z.to_nat n) d) as [x|] eqn:E;
    [|discriminate].
  intros H. inversion H; subst x.
  destruct (iterate_next_day_ordinal _ _ _ Hv E) as [Ho _].
  unfold DT.weekday. rewrite Ho, Z2Nat.id by exact Hn.
  rewrite Zplus_mod_idemp_l. f_equal. lia.
Qed.

End Ordinals.

Section DayOfWeekCandidate.

Variable self : CronJob.

Lemma first_common_value_before (a b m : Z) (set : list Z) :
  first_common_value (Py.range a b) set = Ok m ->
  forall x, a <= x < m -> Py.mem x set = false.
Proof.
  revert a.
  apply (range_ind b (fun a l =>
    first_common_value l set = Ok m ->
    forall x, a <= x < m -> Py.mem x set = false)).
  - intros a _ H. discriminate H.
  - intros a Hab IH H x Hx. unfold first_common_value in H. cbn [find] in H.
    destruct (Py.mem a set) eqn:Ea.
    + inversion H. lia.
    + destruct (Z.eq_dec x a) as [->|Hne]; [exact Ea|].
      apply IH; [exact H | lia].
Qed.

Lemma first_common_value_err (a b : Z) (set : list Z) (e : exn) :
  first_common_value (Py.range a b) set = Err e ->
  forall x, a <= x < b -> Py.mem x set = false.
Proof.
  intros H x Hx. destruct (Py.mem x set) eqn:E; [|reflexivity].
  unfold first_common_value in H.
  destruct (find (fun i => Py.mem i set) (Py.range a b)) eqn:Ef;
    [discriminate|].
  rewrite <- E. apply (find_none _ _ Ef x). apply In_range, Hx.
Qed.

Lemma iterate_overflow_later (n k : nat) (d : DT.datetime) :
  DT.iterate DT.next_day n d = None ->
  DT.iterate DT.next_day (n + k) d = None.
Proof.
  revert d. induction n as [|n IH]; intros d; cbn [DT.iterate Nat.add].
  - discriminate.
  - destruct (DT.next_day d); [apply IH | reflexivity].
Qed.

(** When a date cannot be moved on by [n] days, it cannot be moved on by
    more. *)
Lemma add_days_overflow_later (d d' : DT.datetime) (n n' : Z) (e : exn) :
  0 <= n <= n' -> DT.add_days d n = Err e -> DT.add_days d n' <> Ok d'.
Proof.
  intros Hn. unfold DT.add_days.
  destruct (999999999 <? Z.abs n) eqn:Ebig.
  - replace (999999999 <? Z.abs n') with true; [discriminate|].
    symmetry. apply Z.ltb_lt. apply Z.ltb_lt in Ebig. lia.
  - destruct (999999999 <? Z.abs n'); [discriminate|].
    replace (0 <=? n) with true by (symmetry; apply Z.leb_le; lia).
    replace (0 <=? n') with true by (symmetry; apply Z.leb_le; lia).
    destruct (DT.iterate DT.next_day (Z.to_nat n) d) eqn:E; [discriminate|].
    replace (Z.to_nat n') with (Z.to_nat n + Z.to_nat (n' - n))%nat by lia.
    rewrite iterate_overflow_later by exact E. discriminate.
Qed.

Lemma add_days_ordinal (d d' : DT.datetime) (n : Z) :
  DT.valid d = true -> 0 <= n -> DT.add_days d n = Ok d' ->
  DT.toordinal d' = DT.toordinal d + n.
Proof.
  intros Hv Hn. unfold DT.add_days.
  destruct (999999999 <? Z.abs n); [discriminate|].
  replace (0 <=? n) with true by (symmetry; apply Z.leb_le; exact Hn).
  destruct (DT.iterate DT.next_day (Z.to_nat n) d) as [x|] eqn:E;
    [|discriminate].
  intros H. inversion H; subst x.
  destruct (iterate_next_day_ordinal _ _ _ Hv E) as [Ho _]. lia.
Qed.

Lemma offset_reached (d t : DT.datetime) (k : Z) :
  DT.valid d = true -> DT.add_days d k = Ok t ->
  first_matching_offset (cron_dow self) (DT.weekday d) k ->
  exists k,
    first_matching_offset (cron_dow self) (DT.weekday d) k /\
    DT.toordinal t = DT.toordinal d + k /\
    DT.weekday t = (DT.weekday d + k) mod 7.
Proof.
  intros Hv Hadd Hfirst. exists k.
  assert (0 <= k) as Hk by (destruct Hfirst as [Hk _]; lia).
  split; [exact Hfirst|].
  split; [apply add_days_ordinal | apply add_days_weekday]; assumption.
Qed.

(** X18: for day-of-week values within [[0, 7)], the day-of-week candidate
    is the first day, from the reference's day on, whose [weekday()]
    (Monday is 0) is in the set: it lies less than a week ahead, and no day
    before it has a weekday in the set. *)
Theorem test_dow_first_matching_day (start_dt t : DT.datetime) :
  DT.valid start_dt = true ->
  Sorted Z.le (cron_dow self) ->
  (forall v, In v (cron_dow self) -> 0 <= v < 7) ->
  test_dow self start_dt = Ok t ->
  exists k,
    first_matching_offset (cron_dow self) (DT.weekday start_dt) k /\
    DT.toordinal t = DT.toordinal start_dt + k /\
    DT.weekday t = (DT.weekday start_dt + k) mod 7.
Proof.
  intros Hv Hsorted Hlegal H.
  pose proof (weekday_range start_dt) as Hw.
  unfold test_dow in H.
  destruct (first_common_value _ _) as [m|e] eqn:Em; cbn [bind] in H.
  - pose proof (first_common_value_before _ _ _ _ Em) as Hbefore.
    apply first_common_value_ok in Em. destruct Em as [Hin Hmem].
    apply In_range in Hin. unfold MAX_DOW in Hin. cbv zeta in H.
    assert (first_matching_offset (cron_dow self) (DT.weekday start_dt)
              (m - DT.weekday start_dt)) as Hfirst.
    { split; [lia|]. split.
      - replace (DT.weekday start_dt + (m - DT.weekday start_dt)) with m
          by lia.
        rewrite Z.mod_small by lia. exact Hmem.
      - intros j Hj. rewrite Z.mod_small by lia. apply Hbefore. lia. }
    destruct (m - DT.weekday start_dt >? 0) eqn:Eadd.
    + destruct (DT.add_days start_dt (m - DT.weekday start_dt))
        as [t'|e] eqn:Ea; cbn [try_except] in H.
      * inversion H; subst t'. eapply offset_reached; eassumption.
      * destruct (Py.index (cron_dow self) 0) as [d0|] eqn:E0;
          [|discriminate].
        cbn [bind] in H. exfalso.
        pose proof (Hlegal _ (index_first _ _ E0)) as Hd0.
        apply (add_days_overflow_later start_dt t
                 (m - DT.weekday start_dt)
                 (MAX_DOW - DT.weekday start_dt + d0) e);
          [unfold MAX_DOW; lia | exact Ea | exact H].
    + cbn [try_except] in H. inversion H; subst t.
      assert (m - DT.weekday start_dt = 0) as Hz
        by (destruct (Z.gtb_spec (m - DT.weekday start_dt) 0);
            [discriminate | lia]).
      rewrite Hz in Hfirst.
      apply (offset_reached start_dt start_dt 0 Hv eq_refl Hfirst).
  - pose proof (first_common_value_err _ _ _ _ Em) as Hnone.
    unfold MAX_DOW in Hnone. cbn [try_except] in H.
    destruct (Py.index (cron_dow self) 0) as [d0|] eqn:E0; [|discriminate].
    cbn [bind] in H. unfold MAX_DOW in H.
    pose proof (index_first _ _ E0) as Hin0.
    pose proof (Hlegal _ Hin0) as Hd0.
    assert (d0 < DT.weekday start_dt) as Hlt.
    { destruct (Z_lt_le_dec d0 (DT.weekday start_dt)) as [Hl|Hg];
        [exact Hl|].
      apply mem_In in Hin0. rewrite (Hnone d0) in Hin0 by lia.
      discriminate Hin0. }
    eapply offset_reached; [exact Hv | exact H|].
    split; [lia|]. split.
    + replace (DT.weekday start_dt + (7 - DT.weekday start_dt + d0))
        with (d0 + 1 * 7) by lia.
      rewrite Z_mod_plus_full, Z.mod_small by lia.
      apply mem_In, Hin0.
    + intros j Hj.
      destruct (Z_lt_le_dec (DT.weekday start_dt + j) 7) as [Hs|Hb].
      * rewrite Z.mod_small by lia. apply Hnone. lia.
      * replace (DT.weekday start_dt + j)
          with (DT.weekday start_dt + j - 7 + 1 * 7) by lia.
        rewrite Z_mod_plus_full, Z.mod_small by lia.
        destruct (Py.mem (DT.weekday start_dt + j - 7) (cron_dow self))
          eqn:Ex; [|reflexivity].
        apply mem_In in Ex.
        pose proof (Sorted_first_least _ _ _ Hsorted E0 Ex). lia.
Qed.

End DayOfWeekCandidate.

(** From Friday 2024-05-10 the set [[1]] (Tuesdays, as the code counts) is
    first met four days on. *)
Lemma test_dow_first_matching_day_witness :
  exists k,
    first_matching_offset [1] 4 k /\
    DT.toordinal (at_minute 2024 5 14 12 0) = 739016 + k /\
    DT.weekday (at_minute 2024 5 14 12 0) = (4 + k) mod 7.
Proof.
  apply (test_dow_first_matching_day noon_job (at_minute 2024 5 10 12 0)
           (at_minute 2024 5 14 12 0)).
  - reflexivity.
  - repeat constructor.
  - intros v [<-|[]]. lia.
  - reflexivity.
Defined.

(** * CronExaminer *)

Section LoadingAFile.

Lemma parse_raw_string (raw : string) (job : CronJob) :
  parse raw = Ok job -> raw_string job = raw.
Proof.
  unfold parse. intros H. cbv zeta in H.
  repeat match type of H with
         | bind ?r _ = Ok _ =>
             destruct r; cbn [bind] in H; [|discriminate]
         end.
  inversion H. reflexivity.
Qed.

Lemma parse_lines_raw_strings (lines : list string) :
  forall acc jobs,
    parse_lines lines acc = Ok jobs ->
    map raw_string jobs =
    map raw_string acc ++ filter is_job_text (map Py.lstrip lines).
Proof.
  induction lines as [|line rest IH]; intros acc jobs H;
    cbn [parse_lines] in H; cbv zeta in H.
  - inversion H. cbn. rewrite app_nil_r. reflexivity.
  - cbn [map filter]. destruct (is_job_text (Py.lstrip line)).
    + destruct (parse (Py.lstrip line)) as [job|] eqn:E; [|discriminate].
      cbn [bind] in H. rewrite (IH _ _ H), map_app. cbn [map].
      rewrite (parse_raw_string _ _ E), <- app_assoc. reflexivity.
    + apply IH, H.
Qed.

(** X19: a file that loads gives one job for each line that, stripped on
    the left, is neither empty nor a comment, in the order of the file and
    with that stripped line as its raw string; a file that cannot be
    opened gives no job and no error. *)
Theorem parse_file_jobs_are_the_job_lines
    (lines : list string) (jobs : list CronJob) :
  parse_file (Some lines) = Ok jobs ->
  map raw_string jobs = filter is_job_text (map Py.lstrip lines) /\
  parse_file None = Ok [].
Proof.
  intros H. split; [|reflexivity].
  apply (parse_lines_raw_strings lines [] jobs H).
Qed.

Lemma parse_file_jobs_are_the_job_lines_witness :
  map raw_string [noon_job; never_job] =
  filter is_job_text
    (map Py.lstrip ["# jobs"; ""; "  0 12 15 * 1  noon-job";
                    "x * * * *  never"]) /\
  parse_file None = Ok [].
Proof.
  apply (parse_file_jobs_are_the_job_lines
           ["# jobs"; ""; "  0 12 15 * 1  noon-job"; "x * * * *  never"]).
  reflexivity.
Defined.

Lemma parse_lines_bad_line (lines : list string) (line : string) (e : exn) :
  In line lines ->
  is_job_text (Py.lstrip line) = true ->
  parse (Py.lstrip line) = Err e ->
  forall acc, exists e', parse_lines lines acc = Err e'.
Proof.
  intros Hin Hjob Hbad.
  induction lines as [|l rest IH]; intros acc; [destruct Hin|].
  cbn [parse_lines]. cbv zeta.
  destruct Hin as [->|Hin].
  - rewrite Hjob, Hbad. exists e. reflexivity.
  - destruct (is_job_text (Py.lstrip l)); [|apply IH, Hin].
    destruct (parse (Py.lstrip l)) as [job|e0]; cbn [bind].
    + apply IH, Hin.
    + exists e0. reflexivity.
Qed.

(** X20: one job line that cannot be parsed makes the whole load raise:
    no job of the file is kept. *)
Theorem parse_file_bad_line_raises
    (lines : list string) (line : string) (e : exn) :
  In line lines ->
  is_job_text (Py.lstrip line) = true ->
  parse (Py.lstrip line) = Err e ->
  exists e', parse_file (Some lines) = Err e'.
Proof.
  intros Hin Hjob Hbad.
  apply (parse_lines_bad_line lines line e Hin Hjob Hbad).
Qed.

Lemma parse_file_bad_line_raises_witness :
  exists e',
    parse_file (Some ["0 12 15 * 1  noon-job"; "@reboot start"]) = Err e'.
Proof.
  apply (parse_file_bad_line_raises _ "@reboot start" IndexError).
  - right; left; reflexivity.
  - reflexivity.
  - reflexivity.
Defined.

Lemma parse_lines_skip (l1 l2 : list string) (c : string) :
  is_job_text (Py.lstrip c) = false ->
  forall acc,
    parse_lines (l1 ++ c :: l2) acc = parse_lines (l1 ++ l2) acc.
Proof.
  intros Hc. induction l1 as [|l rest IH]; intros acc;
    cbn [app parse_lines]; cbv zeta.
  - rewrite Hc. reflexivity.
  - destruct (is_job_text (Py.lstrip l)); [|apply IH].
    destruct (parse (Py.lstrip l)); cbn [bind]; [apply IH | reflexivity].
Qed.

(** X21: a blank line or a comment line, indented or not, changes nothing
    wherever it stands in the file. *)
Theorem parse_file_ignores_comment
    (l1 l2 : list string) (c : string) :
  is_job_text (Py.lstrip c) = false ->
  parse_file (Some (l1 ++ c :: l2)) = parse_file (Some (l1 ++ l2)).
Proof.
  intros Hc. apply (parse_lines_skip l1 l2 c Hc).
Qed.

Lemma parse_file_ignores_comment_witness :
  parse_file (Some (["0 12 15 * 1  noon-job"] ++
                    "   # indented comment" :: ["x * * * *  never"]))
  = parse_file (Some (["0 12 15 * 1  noon-job"] ++ ["x * * * *  never"])).
Proof.
  apply parse_file_ignores_comment. reflexivity.
Defined.

End LoadingAFile.

Section Matching.

Lemma lower_char_idem (c : ascii) :
  Py.lower_char (Py.lower_char c) = Py.lower_char c.
Proof.
  destruct c as [[] [] [] [] [] [] [] []]; reflexivity.
Qed.

Lemma lower_idem (s : string) : Py.lower (Py.lower s) = Py.lower s.
Proof.
  induction s as [|c r IH]; cbn [Py.lower].
  - reflexivity.
  - rewrite lower_char_idem, IH. reflexivity.
Qed.

Lemma str_in_empty (s : string) : Py.str_in "" s = true.
Proof. destruct s; reflexivity. Qed.

(** X22: the search by text does not look at the case of the query, and
    the empty query matches every job. *)
Theorem jobs_matching_str_case (cronjobs : list CronJob) (match_str : string) :
  jobs_matching_str cronjobs (Py.lower match_str)
  = jobs_matching_str cronjobs match_str /\
  jobs_matching_str cronjobs "" = cronjobs.
Proof.
  unfold jobs_matching_str. split.
  - rewrite lower_idem. reflexivity.
  - cbn [Py.lower]. induction cronjobs as [|job rest IH]; cbn [filter].
    + reflexivity.
    + rewrite str_in_empty, IH. reflexivity.
Qed.

End Matching.

Section JobForLine.

Lemma getitem_nonneg (A : Type) (l : list A) (i : Z) :
  0 <= i ->
  Py.getitem l i =
  match nth_error l (Z.to_nat i) with
  | Some a => Ok a
  | None => Err IndexError
  end.
Proof.
  intros Hi. unfold Py.getitem. cbv zeta.
  replace (i <? 0) with false by (symmetry; apply Z.ltb_ge; exact Hi).
  replace (0 <=? i) with true by (symmetry; apply Z.leb_le; exact Hi).
  cbn [andb]. destruct (i <? Z.of_nat (List.length l)) eqn:E.
  - reflexivity.
  - apply Z.ltb_ge in E.
    replace (nth_error l (Z.to_nat i)) with (@None A); [reflexivity|].
    symmetry. apply nth_error_None. lia.
Qed.

Lemma nth_error_last (A : Type) (pre : list A) (x : A) :
  nth_error (pre ++ [x]) (List.length pre) = Some x.
Proof.
  rewrite nth_error_app2 by lia. rewrite Nat.sub_diag. reflexivity.
Qed.

(** X23: [job_for_line] counts lines from 1; line 0 is not refused but
    wraps to the last job, and a line past the number of jobs raises
    [IndexError]. *)
Theorem job_for_line_indexing
    (now : DT.datetime) (cronjobs : list CronJob) (index : Z) :
  (forall job,
     1 <= index ->
     nth_error cronjobs (Z.to_nat (index - 1)) = Some job ->
     job_for_line now cronjobs index = next_run job now None) /\
  (forall pre last,
     cronjobs = pre ++ [last] ->
     job_for_line now cronjobs 0 = next_run last now None) /\
  (Z.of_nat (List.length cronjobs) < index ->
   job_for_line now cronjobs index = Err IndexError).
Proof.
  unfold job_for_line. split; [|split].
  - intros job Hi Hnth. rewrite getitem_nonneg by lia.
    rewrite Hnth. reflexivity.
  - intros pre last ->. unfold Py.getitem. cbv zeta.
    change (0 - 1 <? 0) with true. cbn match.
    rewrite length_app. cbn [List.length].
    replace (0 - 1 + Z.of_nat (List.length pre + 1))
      with (Z.of_nat (List.length pre)) by lia.
    replace (0 <=? Z.of_nat (List.length pre)) with true
      by (symmetry; apply Z.leb_le; lia).
    replace (Z.of_nat (List.length pre) <?
             Z.of_nat (List.length pre + 1)) with true
      by (symmetry; apply Z.ltb_lt; lia).
    cbn [andb]. unfold Py.index. rewrite Nat2Z.id, nth_error_last.
    reflexivity.
  - intros Hbig. rewrite getitem_nonneg by lia.
    replace (nth_error cronjobs (Z.to_nat (index - 1))) with (@None CronJob);
      [reflexivity|].
    symmetry. apply nth_error_None. lia.
Qed.

Lemma job_for_line_indexing_witness :
  job_for_line (at_minute 2024 5 10 12 0) [never_job; noon_job] 2
  = next_run noon_job (at_minute 2024 5 10 12 0) None /\
  job_for_line (at_minute 2024 5 10 12 0) [never_job; noon_job] 0
  = next_run noon_job (at_minute 2024 5 10 12 0) None /\
  job_for_line (at_minute 2024 5 10 12 0) [never_job; noon_job] 3
  = Err IndexError.
Proof.
  destruct (job_for_line_indexing (at_minute 2024 5 10 12 0)
              [never_job; noon_job] 2) as [H1 _].
  destruct (job_for_line_indexing (at_minute 2024 5 10 12 0)
              [never_job; noon_job] 0) as [_ [H2 _]].
  destruct (job_for_line_indexing (at_minute 2024 5 10 12 0)
              [never_job; noon_job] 3) as [_ [_ H3]].
  split; [apply H1; [lia | reflexivity]|].
  split; [apply (H2 [never_job]); reflexivity|].
  apply H3. cbn. lia.
Defined.

End JobForLine.

Section Upcoming.

Variable now : nat -> DT.datetime.

Lemma dated_jobs_items (rest : list CronJob) :
  forall pre l,
    dated_jobs now (List.length pre) rest = Ok l ->
    List.length l = List.length rest /\
    forall it, In it l -> dated now (pre ++ rest) it.
Proof.
  induction rest as [|job rest IH]; intros pre l H; cbn [dated_jobs] in H.
  - inversion H; subst l. split; [reflexivity | intros it []].
  - destruct (next_run job (now (List.length pre)) None) as [d|] eqn:Ed;
      [|discriminate].
    cbn [bind] in H.
    destruct (dated_jobs now (S (List.length pre)) rest) as [l'|] eqn:El;
      [|discriminate].
    cbn [bind] in H. inversion H; subst l.
    replace (S (List.length pre)) with (List.length (pre ++ [job])) in El
      by (rewrite length_app; cbn; lia).
    destruct (IH _ _ El) as [Hlen Hall].
    rewrite <- app_assoc in Hall. cbn [app] in Hall.
    split; [cbn; lia|].
    intros it [<-|Hin]; [|apply Hall, Hin].
    exists (List.length pre), job. cbn.
    split; [reflexivity|]. split; [|exact Ed].
    rewrite nth_error_app2 by lia. rewrite Nat.sub_diag. reflexivity.
Qed.

Lemma dated_jobs_returns (rest : list CronJob) :
  forall i,
    (forall k job, nth_error rest k = Some job ->
                   exists d, next_run job (now (i + k)) None = Ok d) ->
    exists l, dated_jobs now i rest = Ok l.
Proof.
  induction rest as [|job rest IH]; intros i Hall; cbn [dated_jobs].
  - exists []. reflexivity.
  - destruct (Hall 0%nat job eq_refl) as [d Hd].
    rewrite Nat.add_0_r in Hd. rewrite Hd. cbn [bind].
    destruct (IH (S i)) as [l Hl].
    { intros k j Hk. replace (S i + k)%nat with (i + S k)%nat by lia.
      apply Hall. exact Hk. }
    rewrite Hl. cbn [bind]. eexists. reflexivity.
Qed.

Lemma dated_jobs_raises (rest : list CronJob) :
  forall i k job e,
    nth_error rest k = Some job ->
    next_run job (now (i + k)) None = Err e ->
    exists e', dated_jobs now i rest = Err e'.
Proof.
  induction rest as [|j rest IH]; intros i k job e Hk He.
  - destruct k; discriminate Hk.
  - cbn [dated_jobs]. destruct k as [|k]; cbn in Hk.
    + inversion Hk; subst j. rewrite Nat.add_0_r in He. rewrite He.
      exists e. reflexivity.
    + destruct (next_run j (now i) None) as [d|e0]; cbn [bind];
        [|exists e0; reflexivity].
      replace (i + S k)%nat with (S i + k)%nat in He by lia.
      destruct (IH _ _ _ _ Hk He) as [e' ->]. exists e'. reflexivity.
Qed.

Lemma insert_by_date_perm (x : item) (l : list item) :
  Permutation (insert_by_date x l) (x :: l).
Proof.
  induction l as [|y r IH]; cbn [insert_by_date].
  - apply Permutation_refl.
  - destruct (DT.lt (date y) (date x)).
    + eapply Permutation_trans; [apply perm_skip, IH | apply perm_swap].
    + apply Permutation_refl.
Qed.

Lemma sort_by_date_perm (l : list item) : Permutation (sort_by_date l) l.
Proof.
  induction l as [|x r IH]; cbn [sort_by_date].
  - apply perm_nil.
  - eapply Permutation_trans; [apply insert_by_date_perm|].
    apply perm_skip, IH.
Qed.

Lemma insert_by_date_Sorted (x : item) (l : list item) :
  Sorted date_le l -> Sorted date_le (insert_by_date x l).
Proof.
  induction 1 as [|y r Hs IH Hhd]; cbn [insert_by_date].
  - repeat constructor.
  - destruct (DT.lt (date y) (date x)) eqn:E.
    + constructor; [exact IH|].
      destruct r as [|z r']; cbn [insert_by_date].
      * constructor. apply lt_le, E.
      * destruct (DT.lt (date z) (date x)); constructor.
        -- inversion Hhd; assumption.
        -- apply lt_le, E.
    + constructor; [constructor; assumption|].
      constructor. unfold date_le, DT.le. rewrite E. reflexivity.
Qed.

Lemma sort_by_date_Sorted (l : list item) : Sorted date_le (sort_by_date l).
Proof.
  induction l as [|x r IH]; cbn [sort_by_date].
  - constructor.
  - apply insert_by_date_Sorted, IH.
Qed.

Lemma Sorted_firstn (A : Type) (R : A -> A -> Prop) (l : list A) (n : nat) :
  Sorted R l -> Sorted R (firstn n l).
Proof.
  intros H. revert n. induction H as [|x r Hs IH Hhd]; intros n.
  - rewrite firstn_nil. constructor.
  - destruct n as [|n]; cbn [firstn]; [constructor|].
    constructor; [apply IH|].
    destruct Hhd as [|y r' Hxy]; [rewrite firstn_nil; constructor|].
    destruct n; cbn [firstn]; constructor. exact Hxy.
Qed.

Lemma skipn_nth_error (A : Type) (l : list A) (k : nat) (x : A) :
  nth_error l k = Some x -> skipn k l = x :: skipn (S k) l.
Proof.
  revert k. induction l as [|y r IH]; intros k H.
  - destruct k; discriminate H.
  - destruct k as [|k]; cbn in H.
    + inversion H. reflexivity.
    + cbn [skipn]. apply IH, H.
Qed.

Lemma length_range (a b : Z) : List.length (Py.range a b) = Z.to_nat (b - a).
Proof. unfold Py.range. rewrite length_map, length_seq. reflexivity. Qed.

(** The last loop takes the items in their order, from the first index. *)
Lemma pick_jobs_range (cronjobs : list CronJob) (l : list item) (b : Z) :
  forall a r,
    0 <= a ->
    pick_jobs cronjobs l (Py.range a b) = Ok r ->
    Forall2 (fun job it => Py.getitem cronjobs (job_index it) = Ok job)
            r (firstn (Z.to_nat (b - a)) (skipn (Z.to_nat a) l)).
Proof.
  intros a.
  apply (range_ind b (fun a idxs => forall r,
    0 <= a -> pick_jobs cronjobs l idxs = Ok r ->
    Forall2 (fun job it => Py.getitem cronjobs (job_index it) = Ok job)
            r (firstn (Z.to_nat (b - a)) (skipn (Z.to_nat a) l)))).
  - intros lo Hlo r Ha H. cbn in H. inversion H; subst r.
    replace (Z.to_nat (b - lo)) with 0%nat by lia. constructor.
  - intros lo Hlo IH r Ha H. cbn [pick_jobs] in H.
    rewrite getitem_nonneg in H by exact Ha.
    destruct (nth_error l (Z.to_nat lo)) as [it|] eqn:Eit; [|discriminate].
    cbn [bind] in H.
    destruct (Py.getitem cronjobs (job_index it)) as [job|] eqn:Ej;
      [|discriminate].
    cbn [bind] in H.
    destruct (pick_jobs cronjobs l (Py.range (lo + 1) b)) as [r'|] eqn:Er;
      [|discriminate].
    cbn [bind] in H. inversion H; subst r.
    rewrite (skipn_nth_error _ _ _ _ Eit).
    replace (Z.to_nat (b - lo)) with (S (Z.to_nat (b - (lo + 1)))) by lia.
    cbn [firstn]. constructor; [exact Ej|].
    replace (S (Z.to_nat lo)) with (Z.to_nat (lo + 1)) by lia.
    apply IH; [lia | reflexivity].
Qed.

Lemma pick_jobs_returns (cronjobs : list CronJob) (l : list item) (b : Z) :
  b <= Z.of_nat (List.length l) ->
  (forall it, In it l -> dated now cronjobs it) ->
  forall a, 0 <= a ->
    exists r, pick_jobs cronjobs l (Py.range a b) = Ok r.
Proof.
  intros Hb Hall a.
  apply (range_ind b (fun a idxs =>
    0 <= a -> exists r, pick_jobs cronjobs l idxs = Ok r)).
  - intros lo _ _. exists []. reflexivity.
  - intros lo Hlo IH Ha. cbn [pick_jobs].
    rewrite getitem_nonneg by exact Ha.
    destruct (nth_error l (Z.to_nat lo)) as [it|] eqn:Eit.
    + cbn [bind].
      destruct (Hall it (nth_error_In _ _ Eit)) as [k [job [Hk [Hj _]]]].
      rewrite Hk, getitem_nonneg by lia. rewrite Nat2Z.id, Hj. cbn [bind].
      destruct IH as [r' ->]; [lia|]. cbn [bind]. eexists. reflexivity.
    + apply nth_error_None in Eit. lia.
Qed.

Lemma effective_n_below (n : option Z) (len : Z) :
  effective_n n len <= len - 1.
Proof.
  unfold effective_n. destruct n as [v|]; [|lia].
  destruct (v =? 0) eqn:E0; cbn [orb]; [lia|].
  destruct (Z.geb_spec v len); lia.
Qed.

(** X24: [upcoming_jobs] returns exactly when [next_run] returns for every
    job of the file; one job whose [next_run] raises makes the listing
    raise, whatever [n] is. *)
Theorem upcoming_jobs_returns_iff
    (cronjobs : list CronJob) (n : option Z) :
  (exists r, upcoming_jobs now cronjobs n = Ok r) <->
  (forall k job, nth_error cronjobs k = Some job ->
                 exists d, next_run job (now k) None = Ok d).
Proof.
  unfold upcoming_jobs. split.
  - intros [r H] k job Hk.
    destruct (next_run job (now k) None) as [d|e] eqn:E;
      [exists d; reflexivity|].
    destruct (dated_jobs_raises cronjobs 0 k job e Hk E) as [e' He'].
    rewrite He' in H. discriminate H.
  - intros Hall.
    destruct (dated_jobs_returns cronjobs 0 Hall) as [l Hl].
    rewrite Hl. cbn [bind]. cbv zeta.
    destruct (dated_jobs_items cronjobs [] l Hl) as [Hlen Hdated].
    apply pick_jobs_returns; [| |lia].
    + rewrite (Permutation_length (sort_by_date_perm l)), Hlen.
      pose proof (effective_n_below n (Z.of_nat (List.length cronjobs))).
      lia.
    + intros it Hin. apply Hdated.
      eapply Permutation_in; [apply sort_by_date_perm | exact Hin].
Qed.

Lemma dated_jobs_indices (rest : list CronJob) :
  forall i l,
    dated_jobs now i rest = Ok l ->
    map job_index l = map Z.of_nat (seq i (List.length rest)).
Proof.
  induction rest as [|job rest IH]; intros i l H; cbn [dated_jobs] in H.
  - inversion H. reflexivity.
  - destruct (next_run job (now i) None) as [d|]; [|discriminate].
    cbn [bind] in H.
    destruct (dated_jobs now (S i) rest) as [l'|] eqn:El; [|discriminate].
    cbn [bind] in H. inversion H; subst l.
    cbn [map List.length seq job_index]. rewrite (IH _ _ El). reflexivity.
Qed.

Lemma picked_by_index (cronjobs r : list CronJob) (items : list item) :
  Forall2 (fun job it => Py.getitem cronjobs (job_index it) = Ok job)
          r items ->
  (forall it, In it items -> dated now cronjobs it) ->
  Forall2 (fun job it =>
             nth_error cronjobs (Z.to_nat (job_index it)) = Some job)
          r items.
Proof.
  induction 1 as [|job it r items Hj Hrest IH]; intros Hd; constructor.
  - destruct (Hd it (or_introl eq_refl)) as [k [job' [Hk _]]].
    rewrite getitem_nonneg in Hj by lia.
    destruct (nth_error cronjobs (Z.to_nat (job_index it)));
      inversion Hj. reflexivity.
  - apply IH. intros x Hx. apply Hd. right; exact Hx.
Qed.

(** X25: [upcoming_jobs] returns the first jobs of the list sorted by
    next-run date, and never all of them: what it leaves out is not empty
    unless there is no job, and no job left out runs before a job returned.
    With [n] omitted, zero or not below the number of jobs it leaves out
    exactly one job, one that runs last: [all_jobs()] never shows it, and
    [next_job()] of a single job returns nothing. *)
Theorem upcoming_jobs_leaves_one_out
    (cronjobs : list CronJob) (n : option Z) (r : list CronJob) :
  upcoming_jobs now cronjobs n = Ok r ->
  exists kept left,
    listing now cronjobs r kept left /\
    Z.of_nat (List.length r) =
      Z.max 0 (effective_n n (Z.of_nat (List.length cronjobs))) /\
    (cronjobs = [] -> r = []) /\
    (cronjobs <> [] ->
     left <> [] /\
     Z.of_nat (List.length r) <= Z.of_nat (List.length cronjobs) - 1) /\
    (n = None \/ n = Some 0 \/
     (exists v, n = Some v /\ Z.of_nat (List.length cronjobs) <= v) ->
     cronjobs <> [] ->
     (exists last, left = [last]) /\
     Z.of_nat (List.length r) = Z.of_nat (List.length cronjobs) - 1).
Proof.
  unfold upcoming_jobs. intros H.
  destruct (dated_jobs now 0 cronjobs) as [l|] eqn:El; [|discriminate].
  cbn [bind] in H. cbv zeta in H.
  apply pick_jobs_range in H; [|lia].
  cbn [Z.to_nat skipn] in H. rewrite Z.sub_0_r in H.
  set (eff := effective_n n (Z.of_nat (List.length cronjobs))) in *.
  set (sorted_l := sort_by_date l) in *.
  destruct (dated_jobs_items cronjobs [] l El) as [Hlen Hdated].
  cbn [app] in Hdated.
  pose proof (dated_jobs_indices cronjobs 0 l El) as Hidx.
  pose proof (sort_by_date_perm l) as Hperm. fold sorted_l in Hperm.
  pose proof (Permutation_length Hperm) as Hplen.
  pose proof (effective_n_below n (Z.of_nat (List.length cronjobs))) as Hb.
  fold eff in Hb.
  assert (forall it, In it sorted_l -> dated now cronjobs it) as Hds.
  { intros it Hin. apply Hdated.
    eapply Permutation_in; [exact Hperm | exact Hin]. }
  assert (Z.of_nat (List.length (firstn (Z.to_nat eff) sorted_l))
          = Z.max 0 eff) as Hkept.
  { rewrite length_firstn. lia. }
  assert (List.length (skipn (Z.to_nat eff) sorted_l)
          = (List.length cronjobs - Z.to_nat eff)%nat) as Hleft.
  { rewrite length_skipn. lia. }
  pose proof (Forall2_length H) as Hr.
  exists (firstn (Z.to_nat eff) sorted_l), (skipn (Z.to_nat eff) sorted_l).
  split; [|split; [|split; [|split]]].
  - unfold listing. rewrite firstn_skipn.
    split; [|split; [|split]].
    + rewrite <- Hidx. apply Permutation_map, Hperm.
    + exact Hds.
    + apply sort_by_date_Sorted.
    + apply picked_by_index; [exact H|].
      intros it Hin. apply Hds.
      rewrite <- (firstn_skipn (Z.to_nat eff)). apply in_or_app.
      left; exact Hin.
  - lia.
  - intros ->. cbn [List.length] in *.
    destruct r; [reflexivity | cbn [List.length] in Hr; lia].
  - intros Hne.
    assert (1 <= List.length cronjobs)%nat as Hpos
      by (destruct cronjobs; [congruence | cbn; lia]).
    split; [|lia].
    intros E. rewrite E in Hleft. cbn [List.length] in Hleft. lia.
  - intros Hn Hne.
    assert (1 <= List.length cronjobs)%nat as Hpos
      by (destruct cronjobs; [congruence | cbn; lia]).
    assert (eff = Z.of_nat (List.length cronjobs) - 1) as Heff.
    { unfold eff, effective_n.
      destruct Hn as [->|[->|[v [-> Hv]]]]; [reflexivity | reflexivity|].
      destruct (v =? 0); cbn [orb]; [reflexivity|].
      destruct (Z.geb_spec v (Z.of_nat (List.length cronjobs)));
        [reflexivity | lia]. }
    split; [|lia].
    destruct (skipn (Z.to_nat eff) sorted_l) as [|x [|y rest]];
      cbn [List.length] in Hleft; [lia | | lia].
    exists x. reflexivity.
Qed.

(** X26: the jobs [upcoming_jobs] returns are in ascending order of the
    dates [next_run] gave for them in the first loop. *)
Theorem upcoming_jobs_ascending
    (cronjobs : list CronJob) (n : option Z) (r : list CronJob) :
  upcoming_jobs now cronjobs n = Ok r ->
  exists dates,
    Forall2 (fun job d =>
               exists k, nth_error cronjobs k = Some job /\
                         next_run job (now k) None = Ok d) r dates /\
    Sorted (fun a b => DT.le a b = true) dates.
Proof.
  unfold upcoming_jobs. intros H.
  destruct (dated_jobs now 0 cronjobs) as [l|] eqn:El; [|discriminate].
  cbn [bind] in H. cbv zeta in H.
  apply pick_jobs_range in H; [|lia].
  destruct (dated_jobs_items cronjobs [] l El) as [_ Hdated].
  cbn [Z.to_nat skipn app] in H, Hdated.
  set (k := Z.to_nat
              (effective_n n (Z.of_nat (List.length cronjobs)) - 0)) in H.
  assert (Sorted date_le (firstn k (sort_by_date l))) as Hs
    by apply Sorted_firstn, sort_by_date_Sorted.
  assert (forall it, In it (firstn k (sort_by_date l)) -> dated now cronjobs it)
    as Hd.
  { intros it Hin. apply Hdated.
    eapply Permutation_in; [apply sort_by_date_perm|].
    rewrite <- (firstn_skipn k). apply in_or_app. left; exact Hin. }
  exists (map date (firstn k (sort_by_date l))). split.
  - revert H Hd. generalize (firstn k (sort_by_date l)). clear.
    intros items H. induction H as [|job it r items Hj Hrest IH];
      intros Hd; cbn [map]; constructor.
    + destruct (Hd it (or_introl eq_refl)) as [k [job' [Hk [Hn Hr]]]].
      rewrite Hk, getitem_nonneg in Hj by lia.
      rewrite Nat2Z.id, Hn in Hj. inversion Hj; subst job'.
      exists k. split; assumption.
    + apply IH. intros x Hx. apply Hd. right; exact Hx.
  - revert Hs. generalize (firstn k (sort_by_date l)). clear.
    intros items Hs. induction Hs as [|it items Hs IH Hhd]; cbn [map].
    + constructor.
    + constructor; [exact IH|].
      destruct Hhd as [|y items' Hxy]; cbn [map]; constructor. exact Hxy.
Qed.

End Upcoming.

(** With the clock at 2024-05-10 12:00, two copies of the noon job load
    and list. *)
Lemma upcoming_jobs_returns_iff_witness :
  exists r,
    upcoming_jobs (fun _ => at_minute 2024 5 10 12 0)
      [noon_job; noon_job] None = Ok r.
Proof.
  apply (proj2 (upcoming_jobs_returns_iff
                  (fun _ => at_minute 2024 5 10 12 0)
                  [noon_job; noon_job] None)).
  intros k job Hk.
  destruct k as [|[|k]]; cbn in Hk.
  - inversion Hk. eexists. reflexivity.
  - inversion Hk. eexists. reflexivity.
  - destruct k; discriminate Hk.
Defined.

Lemma parse_example_jobs :
  parse "0 0 1 * *  monthly-report" = Ok monthly_job /\
  parse "30 * * * *  half-hour" = Ok half_hour_job /\
  parse "0 0 * * *  daily" = Ok daily_job.
Proof. repeat split; reflexivity. Qed.

(** At 2024-05-10 12:00 the four jobs next run on 06-01 00:00 (monthly),
    05-14 12:00 (noon), 05-10 13:30 (half-hour) and 05-11 00:00 (daily).
    [all_jobs()] returns half-hour, daily and noon in this order and leaves
    out the monthly job, which runs last; [next_job()] of the noon job
    alone returns nothing. *)
Lemma upcoming_jobs_leaves_one_out_witness :
  (all_jobs (fun _ => at_minute 2024 5 10 12 0)
     [monthly_job; noon_job; half_hour_job; daily_job]
   = Ok [half_hour_job; daily_job; noon_job] /\
   exists kept left,
     listing (fun _ => at_minute 2024 5 10 12 0)
       [monthly_job; noon_job; half_hour_job; daily_job]
       [half_hour_job; daily_job; noon_job] kept left /\
     (exists last, left = [last])) /\
  (next_job (fun _ => at_minute 2024 5 10 12 0) [noon_job] = Ok [] /\
   exists kept left,
     listing (fun _ => at_minute 2024 5 10 12 0) [noon_job] [] kept left /\
     left <> []).
Proof.
  split; (split; [reflexivity|]).
  - destruct (upcoming_jobs_leaves_one_out
                (fun _ => at_minute 2024 5 10 12 0)
                [monthly_job; noon_job; half_hour_job; daily_job] None
                [half_hour_job; daily_job; noon_job] eq_refl)
      as [kept [left [Hl [_ [_ [_ Hlast]]]]]].
    exists kept, left. split; [exact Hl|].
    apply Hlast; [left; reflexivity | discriminate].
  - destruct (upcoming_jobs_leaves_one_out
                (fun _ => at_minute 2024 5 10 12 0)
                [noon_job] (Some 1) [] eq_refl)
      as [kept [left [Hl [_ [_ [Hleft _]]]]]].
    exists kept, left. split; [exact Hl|].
    apply Hleft. discriminate.
Defined.

(** The same four jobs: the three returned are in the order of their
    dates 05-10 13:30, 05-11 00:00 and 05-14 12:00, not in the order of the
    file. *)
Lemma upcoming_jobs_ascending_witness :
  upcoming_jobs (fun _ => at_minute 2024 5 10 12 0)
    [monthly_job; noon_job; half_hour_job; daily_job] None
  = Ok [half_hour_job; daily_job; noon_job] /\
  exists dates,
    Forall2 (fun job d =>
               exists k,
                 nth_error [monthly_job; noon_job; half_hour_job; daily_job] k
                 = Some job /\
                 next_run job (at_minute 2024 5 10 12 0) None = Ok d)
            [half_hour_job; daily_job; noon_job] dates /\
    Sorted (fun a b => DT.le a b = true) dates.
Proof.
  split; [reflexivity|].
  apply (upcoming_jobs_ascending (fun _ => at_minute 2024 5 10 12 0)
           [monthly_job; noon_job; half_hour_job; daily_job] None
           [half_hour_job; daily_job; noon_job]).
  reflexivity.
Defined.
